(** * HaatBazar backend: checkout, settlement and the coupon lifecycle

    A shallow embedding of [backend/controllers/payment.controller.js] and of
    the coupon endpoints of [backend/controllers/coupon.controller.js],
    followed by the cart controller, the analytics queries and the
    authentication handlers.

    Conventions of the embedding.
    - JavaScript numbers are exact in the handlers: a unit price and a
      discount percentage are rationals ([Q]), a quantity, an amount in cents
      and a timestamp in milliseconds are integers ([Z]).  The binary64
      computation of the unit amount, [Math.round(price * 100)], is modelled
      next to it ([js_unit_amount]): the two agree on the prices with two
      decimals, checked up to 1000.00, and differ on others, and what is
      proved of an amount says on which prices it holds.  Sums that the database computes are the
      database's ([Order_sum]).
    - A MongoDB collection is the list of its documents in insertion order;
      [findOne] and its variants act on the first document that matches.
    - An [await]ed call that can reject is a computation in the monad
      [Async], which threads the store and either returns or throws; what a
      handler wrote before a throw stays written.
    - Everything the handlers cannot decide themselves (the clock, the random
      code suffix, the answers and the failures of the database and of the
      payment gateway) is read from an environment [Env], one per request. *)

From Stdlib Require Import ZArith QArith Qround List String Bool Lia Permutation.
From Stdlib Require Import PrimFloat SpecFloat FloatOps Uint63.
From Equations Require Import Equations.
Import ListNotations.

Local Open Scope string_scope.
Local Open Scope Z_scope.

(** ** JavaScript helpers *)

(** [Math.round]: the nearest integer, ties towards plus infinity. *)
Definition Math_round (x : Q) : Z := Qfloor (x + (1 # 2))%Q.

(** Truthiness of a string and of a number. *)
Definition truthy_string (s : string) : bool := negb (String.eqb s "").
Definition truthy_number (n : Z) : bool := negb (n =? 0).

(** [n || 1] on numbers. *)
Definition or_default (n d : Z) : Z := if truthy_number n then n else d.

(** ** Data model *)

Module Product.
(** An entry of [req.body.products]. *)
Record t := mk
  { _id : string; name : string; image : string; price : Q; quantity : Z }.
End Product.

Module Coupon.
Record t := mk
  { code : string;
    discountPercentage : Q;
    expirationDate : Z;
    isActive : bool;
    userId : string }.

Definition deactivate (c : t) : t :=
  mk (code c) (discountPercentage c) (expirationDate c) false (userId c).
End Coupon.

(** Modelled from the spec: the Coupon schema (models/coupon.model.js) is not
    among the sources.  The spec's testable property 3 has every gift coupon
    active once issued, and [createNewCoupon] never sets the flag, so the
    schema default of [isActive] is [true]. *)
Definition Coupon_default_isActive : bool := true.

Module OrderItem.
Record t := mk { product : string; quantity : Z; price : Q }.
End OrderItem.

Module Order.
Record t := mk
  { _id : nat;
    user : string;
    products : list OrderItem.t;
    totalAmount : Q;
    stripeSessionId : string }.
End Order.

(** The cart snapshot stored in the session metadata. *)
Module Snapshot.
Record t := mk { id : string; quantity : Z; price : Q }.
End Snapshot.

(** The text held by [metadata.products]: what [JSON.stringify] produced, or
    something [JSON.parse] rejects. *)
Inductive JsonText :=
| Wellformed (items : list Snapshot.t)
| Malformed (raw : string).

Definition JSON_stringify (items : list Snapshot.t) : JsonText := Wellformed items.

Definition JSON_parse (t : JsonText) : option (list Snapshot.t) :=
  match t with
  | Wellformed items => Some items
  | Malformed _ => None
  end.

Module Metadata.
Record t := mk { userId : string; couponCode : string; products : JsonText }.
End Metadata.

Module LineItem.
(** [price_data] is flattened: currency, product name, images, unit amount. *)
Record t := mk
  { currency : string;
    name : string;
    images : list string;
    unit_amount : Z;
    quantity : Z }.
End LineItem.

Module SessionParams.
(** The argument of [stripe.checkout.sessions.create]. *)
Record t := mk
  { line_items : list LineItem.t;
    discounts : list string;
    metadata : Metadata.t }.
End SessionParams.

Module Session.
(** What [stripe.checkout.sessions.retrieve] answers. *)
Record t := mk
  { payment_status : string; amount_total : Z; metadata : Metadata.t }.
End Session.

(** Requests the payment gateway has received. *)
Inductive GatewayCall :=
| CouponsCreate (percent_off : Q) (duration : string)
| SessionsCreate (params : SessionParams.t).

Record Store := mkStore
  { coupons : list Coupon.t;
    orders : list Order.t;
    gateway : list GatewayCall }.

Definition empty_store : Store := mkStore [] [] [].

(** ** Environment of one request *)

Inductive Op :=
| Coupon_findOne_op
| Coupon_findOneAndUpdate_op
| Coupon_findOneAndDelete_op
| Coupon_save_op
| Order_save_op
| coupons_create_op
| sessions_create_op
| sessions_retrieve_op.

Record Env := mkEnv
  { now : Z;                          (* Date.now(), new Date() *)
    random_suffix : string;           (* Math.random().toString(36).substring(2, 8).toUpperCase() *)
    fails : Op -> option string;      (* the operation rejects with this message *)
    new_object_id : nat;              (* the _id of a document built with [new] *)
    new_session_id : string;          (* id of the session the gateway creates *)
    new_stripe_coupon_id : string;    (* id of the coupon the gateway creates *)
    retrieve : string -> Session.t }. (* the gateway's record of a session *)

(** ** The monad of awaited calls *)

Inductive Outcome (A : Type) :=
| Returned (a : A)
| Thrown (message : string).
Arguments Returned {A} a.
Arguments Thrown {A} message.

Definition Async (A : Type) : Type := Store -> Outcome A * Store.

Definition ret {A} (a : A) : Async A := fun s => (Returned a, s).

Definition throw {A} (m : string) : Async A := fun s => (Thrown m, s).

Definition bind {A B} (m : Async A) (k : A -> Async B) : Async B :=
  fun s =>
    match m s with
    | (Returned a, s') => k a s'
    | (Thrown e, s') => (Thrown e, s')
    end.

Declare Scope async_scope.
Delimit Scope async_scope with async.
Notation "x <- m ;; k" := (bind m (fun x => k))
  (at level 100, m at next level, right associativity) : async_scope.
Notation "m ;;; k" := (bind m (fun _ => k))
  (at level 100, right associativity) : async_scope.

(** An operation of the database or of the gateway: it rejects when the
    environment says so, otherwise it runs. *)
Definition attempt {A} (env : Env) (op : Op) (run : Async A) : Async A :=
  match fails env op with
  | Some m => throw m
  | None => run
  end.

(** ** The Coupon collection *)

(** A query object; an absent field does not constrain. *)
Record Filter := mkFilter
  { by_code : option string;
    by_userId : option string;
    by_isActive : option bool }.

Definition field_ok {A} (eqb : A -> A -> bool) (want : option A) (have : A) : bool :=
  match want with
  | Some w => eqb w have
  | None => true
  end.

Definition matches (f : Filter) (c : Coupon.t) : bool :=
  field_ok String.eqb (by_code f) (Coupon.code c)
  && field_ok String.eqb (by_userId f) (Coupon.userId c)
  && field_ok Bool.eqb (by_isActive f) (Coupon.isActive c).

(** A document in hand: its fields and, unless it is new, its place in the
    collection. *)
Record Doc := mkDoc { slot : option nat; fields : Coupon.t }.

Fixpoint find_first (f : Filter) (l : list Coupon.t) (i : nat) : option Doc :=
  match l with
  | [] => None
  | c :: l' => if matches f c then Some (mkDoc (Some i) c) else find_first f l' (S i)
  end.

Fixpoint update_first (f : Filter) (upd : Coupon.t -> Coupon.t) (l : list Coupon.t)
  : list Coupon.t :=
  match l with
  | [] => []
  | c :: l' => if matches f c then upd c :: l' else c :: update_first f upd l'
  end.

Fixpoint delete_first (f : Filter) (l : list Coupon.t) : list Coupon.t :=
  match l with
  | [] => []
  | c :: l' => if matches f c then l' else c :: delete_first f l'
  end.

Fixpoint write_at (i : nat) (c : Coupon.t) (l : list Coupon.t) : list Coupon.t :=
  match l, i with
  | [], _ => []
  | _ :: l', O => c :: l'
  | d :: l', S j => d :: write_at j c l'
  end.

Definition set_coupons (l : list Coupon.t) (s : Store) : Store :=
  mkStore l (orders s) (gateway s).

Definition Coupon_findOne (env : Env) (f : Filter) : Async (option Doc) :=
  attempt env Coupon_findOne_op
    (fun s => (Returned (find_first f (coupons s) 0), s)).

Definition Coupon_findOneAndUpdate (env : Env) (f : Filter) (upd : Coupon.t -> Coupon.t)
  : Async unit :=
  attempt env Coupon_findOneAndUpdate_op
    (fun s => (Returned tt, set_coupons (update_first f upd (coupons s)) s)).

Definition Coupon_findOneAndDelete (env : Env) (f : Filter) : Async unit :=
  attempt env Coupon_findOneAndDelete_op
    (fun s => (Returned tt, set_coupons (delete_first f (coupons s)) s)).

(** [doc.save()]: a new document is inserted, a fetched one is written back. *)
Definition Coupon_save (env : Env) (d : Doc) : Async unit :=
  attempt env Coupon_save_op
    (fun s =>
       (Returned tt,
        set_coupons
          match slot d with
          | Some i => write_at i (fields d) (coupons s)
          | None => coupons s ++ [fields d]
          end s)).

(** ** The Order collection *)

(** [newOrder.save()]: the document is inserted unless the store rejects
    the save.  The Order schema (models/order.model.js) is not among the
    sources; what its indexes reject is among the rejections the environment
    decides. *)
Definition Order_save (env : Env) (o : Order.t) : Async unit :=
  attempt env Order_save_op
    (fun s => (Returned tt, mkStore (coupons s) (orders s ++ [o]) (gateway s))).

(** ** The payment gateway *)

Definition record_call (c : GatewayCall) (s : Store) : Store :=
  mkStore (coupons s) (orders s) (gateway s ++ [c]).

Definition stripe_coupons_create (env : Env) (percent_off : Q) (duration : string)
  : Async string :=
  attempt env coupons_create_op
    (fun s => (Returned (new_stripe_coupon_id env),
               record_call (CouponsCreate percent_off duration) s)).

Definition stripe_sessions_create (env : Env) (params : SessionParams.t) : Async string :=
  attempt env sessions_create_op
    (fun s => (Returned (new_session_id env), record_call (SessionsCreate params) s)).

Definition stripe_sessions_retrieve (env : Env) (sessionId : string) : Async Session.t :=
  attempt env sessions_retrieve_op (ret (retrieve env sessionId)).

(** ** Responses *)

Inductive Body :=
| body_error (error : string)
| body_checkout (id : string) (totalAmount : Q)
| body_failure (message error : string)
| body_settled (success : bool) (message : string) (orderId : nat)
| body_message (message : string)
| body_valid (message code : string) (discountPercentage : Q)
| body_coupon (coupon : option Coupon.t).

Record Response := mkResponse { status : Z; json : Body }.

(** A handler: the response it sends, if it sends one, and the store it
    leaves. *)
Definition Handler : Type := Store -> option Response * Store.

(** [try { ... } catch (error) { ... error.message ... }]. *)
Definition try_catch (body : Async (option Response)) (handler : string -> Response)
  : Handler :=
  fun s =>
    match body s with
    | (Returned r, s') => (r, s')
    | (Thrown m, s') => (Some (handler m), s')
    end.

(** ** payment.controller.js *)

Local Open Scope async_scope.

(** [createStripeCoupon]. *)
Definition createStripeCoupon (env : Env) (discountPercentage : Q) : Async string :=
  stripe_coupons_create env discountPercentage "once".

Definition thirty_days_ms : Z := 30 * 24 * 60 * 60 * 1000.

(** The document [createNewCoupon] builds. *)
Definition gift_coupon (env : Env) (userId : string) : Coupon.t :=
  Coupon.mk ("GIFT" ++ random_suffix env) (10 # 1)
            (now env + thirty_days_ms) Coupon_default_isActive userId.

(** [createNewCoupon]. *)
Definition createNewCoupon (env : Env) (userId : string) : Async Coupon.t :=
  Coupon_findOneAndDelete env (mkFilter None (Some userId) None) ;;;
  let newCoupon := mkDoc None (gift_coupon env userId) in
  Coupon_save env newCoupon ;;;
  ret (fields newCoupon).

(** The amount of one unit in cents, [Math.round(product.price * 100)], of
    the exact product; [js_unit_amount] is the binary64 computation, which
    gives the same number on the prices with two decimals up to 1000.00. *)
Definition unit_amount_of (product : Product.t) : Z :=
  Math_round (Product.price product * inject_Z 100)%Q.

Definition line_item_of (product : Product.t) : LineItem.t :=
  LineItem.mk "usd" (Product.name product) [Product.image product]
              (unit_amount_of product)
              (or_default (Product.quantity product) 1).

(** One turn of the callback of [products.map]: it adds to [totalAmount] and
    yields the line item. *)
Definition price_step (acc : Z * list LineItem.t) (product : Product.t)
  : Z * list LineItem.t :=
  let amount := unit_amount_of product in
  (fst acc + amount * Product.quantity product, (snd acc ++ [line_item_of product])%list).

(** The whole [products.map], from [totalAmount = 0]. *)
Definition price_cart (products : list Product.t) : Z * list LineItem.t :=
  fold_left price_step products (0, []).

Definition snapshot_of (p : Product.t) : Snapshot.t :=
  Snapshot.mk (Product._id p) (Product.quantity p) (Product.price p).

(** [totalAmount -= Math.round((totalAmount * discountPercentage) / 100)]. *)
Definition apply_discount (totalAmount : Z) (discountPercentage : Q) : Z :=
  totalAmount - Math_round ((inject_Z totalAmount * discountPercentage) / inject_Z 100)%Q.

Record CheckoutRequest := mkCheckoutRequest
  { products : list Product.t;        (* req.body.products *)
    couponCode : option string;       (* req.body.couponCode *)
    user_id : string }.               (* req.user._id *)

Definition truthy_code (c : option string) : bool :=
  match c with
  | Some s => truthy_string s
  | None => false
  end.

(** [couponCode || ""]. *)
Definition code_or_empty (c : option string) : string :=
  match c with
  | Some s => s
  | None => ""
  end.

(** The coupon lookup of [createCheckoutSession] and the total it leaves. *)
Definition lookup_coupon (env : Env) (req : CheckoutRequest) (totalAmount : Z)
  : Async (option Coupon.t * Z) :=
  if truthy_code (couponCode req) then
    coupon <- Coupon_findOne env
                (mkFilter (Some (code_or_empty (couponCode req)))
                          (Some (user_id req)) (Some true)) ;;
    match coupon with
    | Some d =>
        ret (Some (fields d),
             apply_discount totalAmount (Coupon.discountPercentage (fields d)))
    | None => ret (None, totalAmount)
    end
  else ret (None, totalAmount).

Definition gift_threshold : Z := 20000.

Definition createCheckoutSession (env : Env) (req : CheckoutRequest) : Handler :=
  try_catch
    (match products req with
     | [] => ret (Some (mkResponse 400 (body_error "Invalid or empty products array")))
     | _ :: _ =>
         let (totalAmount, lineItems) := price_cart (products req) in
         found <- lookup_coupon env req totalAmount ;;
         let (coupon, totalAmount) := found : option Coupon.t * Z in
         discounts <- match coupon with
                      | Some c =>
                          id <- createStripeCoupon env (Coupon.discountPercentage c) ;;
                          ret [id]
                      | None => ret []
                      end ;;
         session_id <- stripe_sessions_create env
                         (SessionParams.mk lineItems discounts
                            (Metadata.mk (user_id req)
                               (code_or_empty (couponCode req))
                               (JSON_stringify (map snapshot_of (products req))))) ;;
         (if totalAmount >=? gift_threshold
          then createNewCoupon env (user_id req) ;;; ret tt
          else ret tt) ;;;
         ret (Some (mkResponse 200
                      (body_checkout session_id (inject_Z totalAmount / inject_Z 100)%Q)))
     end)
    (fun message => mkResponse 500 (body_failure "Error processing checkout" message)).

Definition order_item_of (p : Snapshot.t) : OrderItem.t :=
  OrderItem.mk (Snapshot.id p) (Snapshot.quantity p) (Snapshot.price p).

(** The document [checkoutSuccess] builds with [new Order]. *)
Definition order_of (env : Env) (sessionId : string) (session : Session.t)
           (items : list Snapshot.t) : Order.t :=
  Order.mk (new_object_id env)
           (Metadata.userId (Session.metadata session))
           (map order_item_of items)
           (inject_Z (Session.amount_total session) / inject_Z 100)%Q
           sessionId.

Definition settled_message : string :=
  "Payment successful, order created, and coupon deactivated if used.".

Definition checkoutSuccess (env : Env) (sessionId : string) : Handler :=
  try_catch
    (session <- stripe_sessions_retrieve env sessionId ;;
     if String.eqb (Session.payment_status session) "paid" then
       let md := Session.metadata session in
       (if truthy_string (Metadata.couponCode md)
        then Coupon_findOneAndUpdate env
               (mkFilter (Some (Metadata.couponCode md)) (Some (Metadata.userId md)) None)
               Coupon.deactivate
        else ret tt) ;;;
       match JSON_parse (Metadata.products md) with
       | None => throw "Unexpected token in JSON"
       | Some items =>
           let newOrder := order_of env sessionId session items in
           Order_save env newOrder ;;;
           ret (Some (mkResponse 200
                        (body_settled true settled_message (Order._id newOrder))))
       end
     else ret None)
    (fun message =>
       mkResponse 500 (body_failure "Error processing successful checkout" message)).

(** ** coupon.controller.js *)

Definition getCoupon (env : Env) (user : string) : Handler :=
  try_catch
    (coupon <- Coupon_findOne env (mkFilter None (Some user) (Some true)) ;;
     ret (Some (mkResponse 200 (body_coupon (option_map fields coupon)))))
    (fun message => mkResponse 500 (body_failure "Server error" message)).

Definition validateCoupon (env : Env) (code user : string) : Handler :=
  try_catch
    (coupon <- Coupon_findOne env (mkFilter (Some code) (Some user) (Some true)) ;;
     match coupon with
     | None => ret (Some (mkResponse 404 (body_message "Coupon not found")))
     | Some d =>
         let c := fields d in
         if Coupon.expirationDate c <? now env then
           Coupon_save env (mkDoc (slot d) (Coupon.deactivate c)) ;;;
           ret (Some (mkResponse 404 (body_message "Coupon expired")))
         else
           ret (Some (mkResponse 200
                        (body_valid "Coupon is valid" (Coupon.code c)
                                    (Coupon.discountPercentage c))))
     end)
    (fun message => mkResponse 500 (body_failure "Server error" message)).

(** ** The endpoints as one transition system *)

Inductive Request :=
| POST_create_checkout_session (req : CheckoutRequest)
| POST_checkout_success (sessionId : string)
| GET_coupon (user : string)
| POST_validate_coupon (code user : string).

Definition handle (env : Env) (r : Request) : Handler :=
  match r with
  | POST_create_checkout_session req => createCheckoutSession env req
  | POST_checkout_success sessionId => checkoutSuccess env sessionId
  | GET_coupon user => getCoupon env user
  | POST_validate_coupon code user => validateCoupon env code user
  end.

(** The stores the backend can get to from a given store, one request
    after the other. *)
Inductive reachable_from (start : Store) : Store -> Prop :=
| reachable_start : reachable_from start start
| reachable_step env r s :
    reachable_from start s -> reachable_from start (snd (handle env r s)).

(** ** Quantities the properties speak about *)

Definition sum_Z (l : list Z) : Z := fold_right Z.add 0 l.

(** round(price x 100) x quantity, for one item. *)
Definition line_total (p : Product.t) : Z :=
  Math_round (Product.price p * inject_Z 100)%Q * Product.quantity p.

(** The sum of the line totals of a cart. *)
Definition cart_total (ps : list Product.t) : Z := sum_Z (map line_total ps).

(** What the gateway is asked to bill, before any discount. *)
Definition billed (items : list LineItem.t) : Z :=
  sum_Z (map (fun i => LineItem.unit_amount i * LineItem.quantity i) items).

Definition zero_quantity (p : Product.t) : bool := Product.quantity p =? 0.

(** The first coupon with this code, of this user, whose flag is set. *)
Definition active_coupon (code user : string) (l : list Coupon.t) : option Coupon.t :=
  find (fun c => String.eqb code (Coupon.code c)
                 && String.eqb user (Coupon.userId c)
                 && Coupon.isActive c) l.

(** The coupon a checkout request gets applied. *)
Definition coupon_of_request (req : CheckoutRequest) (s : Store) : option Coupon.t :=
  match couponCode req with
  | Some code =>
      if String.eqb code "" then None else active_coupon code (user_id req) (coupons s)
  | None => None
  end.

(** T - round(T x d / 100) when a coupon with discount d is applied, else T. *)
Definition discounted (T : Z) (coupon : option Coupon.t) : Z :=
  match coupon with
  | Some c => T - Math_round (inject_Z T * Coupon.discountPercentage c / inject_Z 100)%Q
  | None => T
  end.

(** Cents to major units. *)
Definition major_units (cents : Z) : Q := (inject_Z cents / inject_Z 100)%Q.

Definition no_failure (env : Env) : Prop := forall op, fails env op = None.

Definition rows_of (user : string) (l : list Coupon.t) : list Coupon.t :=
  filter (fun c => String.eqb user (Coupon.userId c)) l.

Definition active_rows_of (user : string) (l : list Coupon.t) : list Coupon.t :=
  filter (fun c => String.eqb user (Coupon.userId c) && Coupon.isActive c) l.

(** Every user owns at most one coupon row. *)
Definition one_row_per_user (s : Store) : Prop :=
  forall user, (List.length (rows_of user (coupons s)) <= 1)%nat.

Definition orders_of_session (sessionId : string) (s : Store) : list Order.t :=
  filter (fun o => String.eqb sessionId (Order.stripeSessionId o)) (orders s).

(** ** Stores and filters the handlers are described with *)

(** The store after [createNewCoupon], when nothing rejects. *)
Definition after_gift (env : Env) (user : string) (s : Store) : Store :=
  set_coupons
    (delete_first (mkFilter None (Some user) None) (coupons s) ++ [gift_coupon env user]) s.

Definition by_user (user : string) : Filter := mkFilter None (Some user) None.

Definition full_filter (code user : string) : Filter :=
  mkFilter (Some code) (Some user) (Some true).

Definition deactivate_first (f : Filter) (s : Store) : Store :=
  set_coupons (update_first f Coupon.deactivate (coupons s)) s.

Definition settlement_filter (md : Metadata.t) : Filter :=
  mkFilter (Some (Metadata.couponCode md)) (Some (Metadata.userId md)) None.

(** The coupon step of a settlement. *)
Definition settle_coupon (md : Metadata.t) (s : Store) : Store :=
  if truthy_string (Metadata.couponCode md)
  then deactivate_first (settlement_filter md) s
  else s.

Definition add_order (o : Order.t) (s : Store) : Store :=
  mkStore (coupons s) (orders s ++ [o]) (gateway s).

Definition settlement_failure (m : string) : option Response :=
  Some (mkResponse 500 (body_failure "Error processing successful checkout" m)).

(** Every call before the gift step returns. *)
Definition session_created (env : Env) (req : CheckoutRequest) (s : Store) : Prop :=
  products req <> []
  /\ (truthy_code (couponCode req) = true -> fails env Coupon_findOne_op = None)
  /\ (coupon_of_request req s <> None -> fails env coupons_create_op = None)
  /\ fails env sessions_create_op = None.

(** The checkout gets as far as issuing the gift coupon. *)
Definition reaches_gift_step (env : Env) (req : CheckoutRequest) (s : Store) : Prop :=
  session_created env req s
  /\ gift_threshold <= discounted (cart_total (products req)) (coupon_of_request req s).

(** The message [createNewCoupon] rejects with, if it does. *)
Definition gift_failure (env : Env) : option string :=
  match fails env Coupon_findOneAndDelete_op with
  | Some m => Some m
  | None => fails env Coupon_save_op
  end.

Definition session_params (env : Env) (req : CheckoutRequest) (s : Store) : SessionParams.t :=
  SessionParams.mk
    (map line_item_of (products req))
    match coupon_of_request req s with
    | Some _ => [new_stripe_coupon_id env]
    | None => []
    end
    (Metadata.mk (user_id req) (code_or_empty (couponCode req))
                 (JSON_stringify (map snapshot_of (products req)))).

Definition gateway_calls (env : Env) (req : CheckoutRequest) (s : Store) : list GatewayCall :=
  (match coupon_of_request req s with
   | Some c => [CouponsCreate (Coupon.discountPercentage c) "once"]
   | None => []
   end ++ [SessionsCreate (session_params env req s)])%list.

(** ** Worked inputs *)

Definition never_fails : Op -> option string := fun _ => None.

Definition save_fails : Op -> option string :=
  fun op =>
    match op with
    | Coupon_save_op => Some "save rejected"
    | _ => None
    end.

(** The cart of the spec's scenarios 6 and 7. *)
Definition scenario_cart : list Product.t :=
  [Product.mk "p1" "Tea" "tea.png" (1999 # 100) 2;
   Product.mk "p2" "Cup" "cup.png" (5 # 1) 1].

Definition scenario_snapshot : list Snapshot.t := map snapshot_of scenario_cart.

Definition paid_session : Session.t :=
  Session.mk "paid" 4048 (Metadata.mk "u1" "SAVE10" (JSON_stringify scenario_snapshot)).

Definition open_session : Session.t :=
  Session.mk "unpaid" 4048 (Metadata.mk "u1" "SAVE10" (JSON_stringify scenario_snapshot)).

Definition env_at (fails : Op -> option string) (session : Session.t) : Env :=
  mkEnv 1000 "ABC123" fails 7%nat "cs_1" "sc_1" (fun _ => session).

Definition env_ok : Env := env_at never_fails paid_session.
Definition env_save_fails : Env := env_at save_fails paid_session.
Definition env_unpaid : Env := env_at never_fails open_session.

(** One coupon of user u1, expiring at the given time. *)
Definition store_expiring (at_ms : Z) : Store :=
  mkStore [Coupon.mk "SAVE10" (10 # 1) at_ms true "u1"] [] [].

Definition scenario_request : CheckoutRequest :=
  mkCheckoutRequest scenario_cart (Some "SAVE10") "u1".

(** A cart worth 20000 cents. *)
Definition rug_request : CheckoutRequest :=
  mkCheckoutRequest [Product.mk "p3" "Rug" "rug.png" (200 # 1) 1] None "u1".

(** An item of quantity 0. *)
Definition pen : Product.t := Product.mk "p4" "Pen" "pen.png" (3 # 1) 0.
Definition pen_request : CheckoutRequest := mkCheckoutRequest [pen] None "u1".

(** ** The unit amount in binary64

    [Math.round(product.price * 100)] as JavaScript computes it: the product
    is the binary64 product, rounded to the nearest double before
    [Math.round] sees it.  [unit_amount_of] above is this computation with
    numbers taken as exact; the two agree on prices with at most two
    decimals of ordinary size, and differ elsewhere. *)









(** ** The unique index on the session identifier *)




(** The first coupon with this code of this user, active or not. *)
Definition first_with_code_and_user (code user : string) (l : list Coupon.t)
  : option Coupon.t :=
  find (fun c => String.eqb code (Coupon.code c) && String.eqb user (Coupon.userId c)) l.

(** Gift issuance for one user, call after call, whether a call returns or
    rejects. *)
Definition issue_all (user : string) (envs : list Env) (s : Store) : Store :=
  fold_left (fun st env => snd (createNewCoupon env user st)) envs s.

(** At most one coupon of every user has its flag set. *)
Definition one_active_per_user (s : Store) : Prop :=
  forall user, (List.length (active_rows_of user (coupons s)) <= 1)%nat.

(** A store seeded with two rows for one user, one of them active. *)
Definition seeded_store : Store :=
  mkStore [Coupon.mk "OLD5" (5 # 1) 5000 false "u1";
           Coupon.mk "SAVE10" (10 # 1) 5000 true "u1"] [] [].





(** ** Further quantities of the payment flow *)

(** The line item an Order keeps for a cart entry: id, quantity, price. *)
Definition order_item_of_product (p : Product.t) : OrderItem.t :=
  OrderItem.mk (Product._id p) (Product.quantity p) (Product.price p).

(** One coupon against the one before a handler ran: the same document, or
    the same document with its flag cleared. *)
Definition same_or_deactivated (before after : Coupon.t) : Prop :=
  after = before \/ after = Coupon.deactivate before.

(** A percentage between 0 and 100. *)
Definition percentage (d : Q) : Prop := (0 <= d)%Q /\ (d <= 100 # 1)%Q.

(** ** cart.controller.js *)

Module CartItem.
(** An entry of [user.cartItems]. *)
Record t := mk { id : string; quantity : Z }.
End CartItem.

Module ProductDoc.
(** A document of the products collection, with the fields the backend
    reads. *)
Record t := mk { _id : string; name : string; image : string; price : Q }.
End ProductDoc.

(** The environment of a cart request: whether [user.save()] and
    [Product.find] reject, and the documents [Product.find] answers with. *)
Record CartEnv := mkCartEnv
  { user_save_fails : option string;
    Product_find_fails : option string;
    Product_find_answer : list ProductDoc.t }.

Inductive CartBody :=
| cart_items (items : list CartItem.t)
| cart_products (items : list Product.t)
| cart_failure (message error : string)
| cart_message (message : string).

Record CartResponse := mkCartResponse { cart_status : Z; cart_json : CartBody }.

(** A cart handler gets the cart of [req.user] as stored and yields its
    response and the cart stored afterwards. *)
Definition CartHandler : Type := list CartItem.t -> CartResponse * list CartItem.t.

(** [item.id === productId]. *)
Definition is_item (productId : string) (item : CartItem.t) : bool :=
  String.eqb (CartItem.id item) productId.

(** [user.cartItems.find((item) => item.id === productId)]. *)
Definition find_item (productId : string) (cart : list CartItem.t) : option CartItem.t :=
  find (is_item productId) cart.

(** Assignment to the quantity of the item that [find] returned: the first
    one with this id. *)
Fixpoint set_found_quantity (productId : string) (f : Z -> Z) (cart : list CartItem.t)
  : list CartItem.t :=
  match cart with
  | [] => []
  | item :: rest =>
      if is_item productId item
      then CartItem.mk (CartItem.id item) (f (CartItem.quantity item)) :: rest
      else item :: set_found_quantity productId f rest
  end.

(** [user.cartItems.filter((item) => item.id !== productId)]. *)
Definition without_item (productId : string) (cart : list CartItem.t) : list CartItem.t :=
  filter (fun item => negb (is_item productId item)) cart.

(** [await user.save(); res.json(user.cartItems)] inside the handler's
    [try]: a rejected save leaves the stored cart as it was. *)
Definition save_and_answer (env : CartEnv) (stored cartItems : list CartItem.t)
  : CartResponse * list CartItem.t :=
  match user_save_fails env with
  | Some m => (mkCartResponse 500 (cart_failure "Server error" m), stored)
  | None => (mkCartResponse 200 (cart_items cartItems), cartItems)
  end.

Definition addToCart (env : CartEnv) (productId : string) : CartHandler :=
  fun cart =>
    let cartItems :=
      match find_item productId cart with
      | Some _ => set_found_quantity productId (fun q => q + 1) cart
      | None => (cart ++ [CartItem.mk productId 1])%list
      end in
    save_and_answer env cart cartItems.

Definition removeAllFromCart (env : CartEnv) (productId : option string) : CartHandler :=
  fun cart =>
    let cartItems :=
      if negb (truthy_code productId) then []
      else without_item (code_or_empty productId) cart in
    save_and_answer env cart cartItems.

Definition updateQuantity (env : CartEnv) (productId : string) (quantity : Z) : CartHandler :=
  fun cart =>
    match find_item productId cart with
    | Some _ =>
        if quantity =? 0
        then save_and_answer env cart (without_item productId cart)
        else save_and_answer env cart (set_found_quantity productId (fun _ => quantity) cart)
    | None => (mkCartResponse 404 (cart_message "Product not found"), cart)
    end.

(** [{ ...product.toJSON(), quantity: item.quantity }]. *)
Definition with_quantity (product : ProductDoc.t) (quantity : Z) : Product.t :=
  Product.mk (ProductDoc._id product) (ProductDoc.name product)
             (ProductDoc.image product) (ProductDoc.price product) quantity.

(** The callback of [products.map] in [getCartProducts]: reading
    [item.quantity] of an item that [find] did not return throws. *)
Fixpoint attach_quantities (cart : list CartItem.t) (products : list ProductDoc.t)
  : Outcome (list Product.t) :=
  match products with
  | [] => Returned []
  | product :: rest =>
      match find_item (ProductDoc._id product) cart with
      | None => Thrown "Cannot read properties of undefined (reading 'quantity')"
      | Some item =>
          match attach_quantities cart rest with
          | Returned items => Returned (with_quantity product (CartItem.quantity item) :: items)
          | Thrown m => Thrown m
          end
      end
  end.

Definition getCartProducts (env : CartEnv) : CartHandler :=
  fun cart =>
    match Product_find_fails env with
    | Some m => (mkCartResponse 500 (cart_failure "Server error" m), cart)
    | None =>
        match attach_quantities cart (Product_find_answer env) with
        | Returned cartItems => (mkCartResponse 200 (cart_products cartItems), cart)
        | Thrown m => (mkCartResponse 500 (cart_failure "Server error" m), cart)
        end
    end.

(** The cart requests as one transition system on the stored cart. *)
Inductive CartRequest :=
| GET_cart
| POST_cart (productId : string)
| DELETE_cart (productId : option string)
| PUT_cart (productId : string) (quantity : Z).

Definition handle_cart (env : CartEnv) (r : CartRequest) : CartHandler :=
  match r with
  | GET_cart => getCartProducts env
  | POST_cart productId => addToCart env productId
  | DELETE_cart productId => removeAllFromCart env productId
  | PUT_cart productId quantity => updateQuantity env productId quantity
  end.

(** The total quantity a cart holds of a product. *)
Definition quantity_in_cart (productId : string) (cart : list CartItem.t) : Z :=
  sum_Z (map CartItem.quantity (filter (is_item productId) cart)).

Definition cart_ids (cart : list CartItem.t) : list string := map CartItem.id cart.

(** [n] successful or failed additions of one product, one after another. *)
Fixpoint add_many (envs : list CartEnv) (productId : string) (cart : list CartItem.t)
  : list CartItem.t :=
  match envs with
  | [] => cart
  | env :: rest => add_many rest productId (snd (addToCart env productId cart))
  end.

Definition cart_env_ok : CartEnv := mkCartEnv None None [].
Definition tea_cart : list CartItem.t := [CartItem.mk "p1" 2; CartItem.mk "p2" 1].
Definition tea_catalogue : list ProductDoc.t :=
  [ProductDoc.mk "p1" "Tea" "tea.png" (1999 # 100); ProductDoc.mk "p2" "Cup" "cup.png" (5 # 1)].

(** The quantity of the first item of a product in the cart. *)
Definition first_quantity (productId : string) (cart : list CartItem.t) : Z :=
  match find_item productId cart with
  | Some item => CartItem.quantity item
  | None => 0
  end.

(** The products of an answer of [Product.find], each with the quantity
    the cart has for it. *)
Definition priced_cart (cart : list CartItem.t) (answer : list ProductDoc.t)
  : list Product.t :=
  map (fun p => with_quantity p (first_quantity (ProductDoc._id p) cart)) answer.

(** ** analytics.controller.js *)

(** The answers and rejections of the three database calls of
    [getAnalyticsData] that do not read the orders of the store, and the
    accumulator [$sum] of the database over numbers: the database adds the
    amounts of a group as binary64 numbers by an algorithm of its own, which
    is not in the sources, so it is taken as it comes, a function of the
    amounts of the group in document order. *)
Record AnalyticsEnv := mkAnalyticsEnv
  { User_countDocuments : Outcome Z;
    Product_countDocuments : Outcome Z;
    Order_aggregate_fails : option string;
    Order_sum : list Q -> Q }.

Module SalesGroup.
(** The one group of [$group: { _id: null, ... }]. *)
Record t := mk { totalSales : Z; totalRevenue : Q }.
End SalesGroup.

Module AnalyticsData.
Record t := mk { users : Z; products : Z; totalSales : Z; totalRevenue : Q }.
End AnalyticsData.

(** [$group] with [_id: null]: no group for an empty collection, one
    otherwise; [$sum: 1] counts the documents and [$sum: "$totalAmount"]
    is the database's sum of their amounts. *)
Definition group_all (sum : list Q -> Q) (os : list Order.t) : list SalesGroup.t :=
  match os with
  | [] => []
  | _ :: _ => [SalesGroup.mk (Z.of_nat (List.length os)) (sum (map Order.totalAmount os))]
  end.

Definition getAnalyticsData (env : AnalyticsEnv) (s : Store) : Outcome AnalyticsData.t :=
  match User_countDocuments env with
  | Thrown m => Thrown m
  | Returned totalUsers =>
      match Product_countDocuments env with
      | Thrown m => Thrown m
      | Returned totalProducts =>
          match Order_aggregate_fails env with
          | Some m => Thrown m
          | None =>
              let salesData := group_all (Order_sum env) (orders s) in
              let first := match salesData with
                           | g :: _ => g
                           | [] => SalesGroup.mk 0 0%Q
                           end in
              Returned (AnalyticsData.mk totalUsers totalProducts
                          (SalesGroup.totalSales first) (SalesGroup.totalRevenue first))
          end
      end
  end.

(** Daily sales.  A [Date] is its time value in milliseconds; a calendar
    day lasts [day_ms], so the process runs in a zone without daylight
    saving; and the text 'YYYY-MM-DD' of a day, which only serves as a key
    that is compared and sorted, is the number of the UTC day. *)
Definition day_ms : Z := 24 * 60 * 60 * 1000.

(** [toISOString().split("T")[0]] and [$dateToString] with "%Y-%m-%d". *)
Definition day_of (date : Z) : Z := date / day_ms.

Module Sale.
(** What the daily pipeline reads of an Order document. *)
Record t := mk { createdAt : Z; totalAmount : Q }.
End Sale.

Module DayBucket.
(** The documents [$group] has put under one day: their amounts, in
    document order. *)
Record t := mk { _id : Z; amounts : list Q }.
End DayBucket.

Module DayGroup.
(** A group of the daily pipeline: [_id] is the day. *)
Record t := mk { _id : Z; sales : Z; revenue : Q }.
End DayGroup.

Module DayEntry.
Record t := mk { date : Z; sales : Z; revenue : Q }.
End DayEntry.

(** The loop of [getDatesInRange], from its current date on. *)
Equations? dates_from (endDate currentDate : Z) : list Z
  by wf (Z.to_nat ((endDate - currentDate) / day_ms + 1)) lt :=
  dates_from endDate currentDate with Z_le_dec currentDate endDate => {
    | left _ => day_of currentDate :: dates_from endDate (currentDate + day_ms)
    | right _ => [] }.
Proof.
  replace (endDate - (currentDate + day_ms))
    with (endDate - currentDate + (-1) * day_ms) by lia.
  rewrite Z.div_add by (unfold day_ms; lia).
  assert (0 <= (endDate - currentDate) / day_ms)
    by (apply Z.div_pos; unfold day_ms; lia).
  lia.
Qed.

Definition getDatesInRange (startDate endDate : Z) : list Z :=
  dates_from endDate startDate.

(** [$match]: created between the two dates, both included. *)
Definition in_range (startDate endDate : Z) (o : Sale.t) : bool :=
  (startDate <=? Sale.createdAt o) && (Sale.createdAt o <=? endDate).

(** [$group] by day, one document after the other. *)
Fixpoint add_sale (day : Z) (amount : Q) (buckets : list DayBucket.t) : list DayBucket.t :=
  match buckets with
  | [] => [DayBucket.mk day [amount]]
  | b :: rest =>
      if DayBucket._id b =? day
      then DayBucket.mk day (DayBucket.amounts b ++ [amount]) :: rest
      else b :: add_sale day amount rest
  end.

Definition buckets_of (os : list Sale.t) : list DayBucket.t :=
  fold_left (fun buckets o =>
               add_sale (day_of (Sale.createdAt o)) (Sale.totalAmount o) buckets)
            os [].

(** The accumulators of a group: [$sum: 1] counts its documents and
    [$sum: "$totalAmount"] is the database's sum of their amounts. *)
Definition group_of (sum : list Q -> Q) (b : DayBucket.t) : DayGroup.t :=
  DayGroup.mk (DayBucket._id b) (Z.of_nat (List.length (DayBucket.amounts b)))
              (sum (DayBucket.amounts b)).

Definition group_by_day (sum : list Q -> Q) (os : list Sale.t) : list DayGroup.t :=
  map (group_of sum) (buckets_of os).

(** [$sort: { _id: 1 }]. *)
Fixpoint insert_group (g : DayGroup.t) (sorted : list DayGroup.t) : list DayGroup.t :=
  match sorted with
  | [] => [g]
  | h :: rest =>
      if DayGroup._id g <=? DayGroup._id h then g :: sorted else h :: insert_group g rest
  end.

Definition sort_by_day (groups : list DayGroup.t) : list DayGroup.t :=
  fold_right insert_group [] groups.

(** [revenue || 0] on a number. *)
Definition revenue_or_zero (r : Q) : Q := if Qeq_bool r 0 then 0%Q else r.

(** The callback of [dateArray.map]. *)
Definition entry_of (dailySalesData : list DayGroup.t) (date : Z) : DayEntry.t :=
  match find (fun item => DayGroup._id item =? date) dailySalesData with
  | Some foundData =>
      DayEntry.mk date (or_default (DayGroup.sales foundData) 0)
                  (revenue_or_zero (DayGroup.revenue foundData))
  | None => DayEntry.mk date 0 0%Q
  end.

Definition getDailySalesData (sum : list Q -> Q) (aggregate_fails : option string)
           (os : list Sale.t) (startDate endDate : Z) : Outcome (list DayEntry.t) :=
  match aggregate_fails with
  | Some m => Thrown m
  | None =>
      let dailySalesData :=
        sort_by_day (group_by_day sum (filter (in_range startDate endDate) os)) in
      let dateArray := getDatesInRange startDate endDate in
      Returned (map (entry_of dailySalesData) dateArray)
  end.

(** The orders a day's entry should count: created on that day, within
    the range. *)
Definition sales_on (startDate endDate day : Z) (os : list Sale.t) : list Sale.t :=
  filter (fun o => in_range startDate endDate o && (day_of (Sale.createdAt o) =? day)) os.

(** A sum that adds exact numbers, for the worked inputs. *)
Definition exact_sum (amounts : list Q) : Q := fold_left Qplus amounts 0%Q.

(** The days from [first] on, [n] of them. *)
Definition days_from (first : Z) (n : nat) : list Z :=
  map (fun k => first + Z.of_nat k) (seq 0 n).

Definition analytics_env_ok : AnalyticsEnv :=
  mkAnalyticsEnv (Returned 3) (Returned 2) None exact_sum.

(** The amounts the first bucket of a day holds, none without a bucket. *)
Definition amounts_on (day : Z) (buckets : list DayBucket.t) : list Q :=
  match find (fun b => DayBucket._id b =? day) buckets with
  | Some b => DayBucket.amounts b
  | None => []
  end.

Definition on_day (day : Z) (o : Sale.t) : bool := day_of (Sale.createdAt o) =? day.

(** ** The authentication controller (second part of coupon.controller.js) *)

Module User.
Record t := mk
  { _id : string; name : string; email : string; password : string; role : string }.
End User.

Module RedisEntry.
(** A key of the Redis store with its value and the time it expires. *)
Record t := mk { key : string; value : string; expires_at : Z }.
End RedisEntry.

Record AuthStore := mkAuthStore
  { users : list User.t;
    redis : list RedisEntry.t }.

Inductive AuthOp :=
| User_findOne_op
| User_create_op
| comparePassword_op
| redis_set_op
| redis_get_op
| redis_del_op.

(** The environment of an authentication request.  The User model and the
    JWT library are not among the sources: what they compute is taken from
    the environment ([hash_password], [password_matches], [default_role],
    [jwt_sign], [jwt_verify]). *)
Record AuthEnv := mkAuthEnv
  { auth_now : Z;
    auth_fails : AuthOp -> option string;
    ACCESS_TOKEN_SECRET : string;
    REFRESH_TOKEN_SECRET : string;
    NODE_ENV : string;
    jwt_sign : string -> string -> string -> string;   (* userId, secret, expiresIn *)
    jwt_verify : string -> string -> Outcome string;   (* token, secret: the userId *)
    new_user_id : string;
    hash_password : string -> string;
    password_matches : User.t -> string -> bool;
    default_role : string }.

Inductive CookieOp :=
| SetCookie (name value : string) (httpOnly secure : bool) (sameSite : string) (maxAge : Z)
| ClearCookie (name : string).

Inductive AuthBody :=
| auth_message (message : string)
| auth_user (_id name email role : string)
| auth_failure (message error : string)
| auth_profile (user : User.t).

Record AuthResponse := mkAuthResponse
  { auth_status : Z; auth_cookies : list CookieOp; auth_json : AuthBody }.

Definition AuthM (A : Type) : Type := AuthStore -> Outcome A * AuthStore.

Definition auth_ret {A} (a : A) : AuthM A := fun s => (Returned a, s).

Definition auth_throw {A} (m : string) : AuthM A := fun s => (Thrown m, s).

Definition auth_bind {A B} (m : AuthM A) (k : A -> AuthM B) : AuthM B :=
  fun s =>
    match m s with
    | (Returned a, s') => k a s'
    | (Thrown e, s') => (Thrown e, s')
    end.

Declare Scope auth_scope.
Delimit Scope auth_scope with auth.
Notation "x <- m ;; k" := (auth_bind m (fun x => k))
  (at level 100, m at next level, right associativity) : auth_scope.
Notation "m ;;; k" := (auth_bind m (fun _ => k))
  (at level 100, right associativity) : auth_scope.

Definition auth_attempt {A} (env : AuthEnv) (op : AuthOp) (run : AuthM A) : AuthM A :=
  match auth_fails env op with
  | Some m => auth_throw m
  | None => run
  end.

(** [User.findOne({ email })]. *)
Definition User_findOne (env : AuthEnv) (email : string) : AuthM (option User.t) :=
  auth_attempt env User_findOne_op
    (fun s => (Returned (find (fun u => String.eqb email (User.email u)) (users s)), s)).

(** [User.create({ name, email, password })]. *)
Definition User_create (env : AuthEnv) (name email password : string) : AuthM User.t :=
  auth_attempt env User_create_op
    (fun s =>
       let user := User.mk (new_user_id env) name email (hash_password env password)
                           (default_role env) in
       (Returned user, mkAuthStore (users s ++ [user]) (redis s))).

(** [user.comparePassword(password)]. *)
Definition comparePassword (env : AuthEnv) (user : User.t) (password : string) : AuthM bool :=
  auth_attempt env comparePassword_op (auth_ret (password_matches env user password)).

Definition without_key (key : string) (entries : list RedisEntry.t) : list RedisEntry.t :=
  filter (fun e => negb (String.eqb key (RedisEntry.key e))) entries.

(** [redis.set(key, value, "EX", seconds)]. *)
Definition redis_set (env : AuthEnv) (key value : string) (seconds : Z) : AuthM unit :=
  auth_attempt env redis_set_op
    (fun s =>
       (Returned tt,
        mkAuthStore (users s)
          (without_key key (redis s)
           ++ [RedisEntry.mk key value (auth_now env + seconds * 1000)]))).

(** [redis.get(key)]: the value, or null once the key has expired. *)
Definition redis_get (env : AuthEnv) (key : string) : AuthM (option string) :=
  auth_attempt env redis_get_op
    (fun s =>
       (Returned
          (option_map RedisEntry.value
             (find (fun e => String.eqb key (RedisEntry.key e)
                             && (auth_now env <? RedisEntry.expires_at e)) (redis s))),
        s)).

(** [redis.del(key)]. *)
Definition redis_del (env : AuthEnv) (key : string) : AuthM unit :=
  auth_attempt env redis_del_op
    (fun s => (Returned tt, mkAuthStore (users s) (without_key key (redis s)))).

Local Open Scope auth_scope.

Definition generateTokens (env : AuthEnv) (userId : string) : string * string :=
  let accessToken := jwt_sign env userId (ACCESS_TOKEN_SECRET env) "15m" in
  let refreshToken := jwt_sign env userId (REFRESH_TOKEN_SECRET env) "7d" in
  (accessToken, refreshToken).

Definition refresh_key (userId : string) : string := "refresh_token:" ++ userId.

Definition storeRefreshToken (env : AuthEnv) (userId refreshToken : string) : AuthM unit :=
  redis_set env (refresh_key userId) refreshToken (7 * 24 * 60 * 60).

Definition in_production (env : AuthEnv) : bool := String.eqb (NODE_ENV env) "production".

Definition access_cookie (env : AuthEnv) (accessToken : string) : CookieOp :=
  SetCookie "accessToken" accessToken true (in_production env) "strict" (15 * 60 * 1000).

Definition refresh_cookie (env : AuthEnv) (refreshToken : string) : CookieOp :=
  SetCookie "refreshToken" refreshToken true (in_production env) "strict"
            (7 * 24 * 60 * 60 * 1000).

Definition setCookies (env : AuthEnv) (accessToken refreshToken : string) : list CookieOp :=
  [access_cookie env accessToken; refresh_cookie env refreshToken].

Definition AuthHandler : Type := AuthStore -> AuthResponse * AuthStore.

Definition auth_try (body : AuthM AuthResponse) (handler : string -> AuthResponse)
  : AuthHandler :=
  fun s =>
    match body s with
    | (Returned r, s') => (r, s')
    | (Thrown m, s') => (handler m, s')
    end.

Definition user_body (user : User.t) : AuthBody :=
  auth_user (User._id user) (User.name user) (User.email user) (User.role user).

Definition signup (env : AuthEnv) (email password name : string) : AuthHandler :=
  auth_try
    (userExists <- User_findOne env email ;;
     match userExists with
     | Some _ => auth_ret (mkAuthResponse 400 [] (auth_message "User already exists"))
     | None =>
         user <- User_create env name email password ;;
         let (accessToken, refreshToken) := generateTokens env (User._id user) in
         storeRefreshToken env (User._id user) refreshToken ;;;
         auth_ret (mkAuthResponse 201 (setCookies env accessToken refreshToken)
                                  (user_body user))
     end)
    (fun message => mkAuthResponse 500 [] (auth_message message)).

Definition invalid_credentials : AuthResponse :=
  mkAuthResponse 400 [] (auth_message "Invalid email or password").

Definition login (env : AuthEnv) (email password : string) : AuthHandler :=
  auth_try
    (user <- User_findOne env email ;;
     match user with
     | None => auth_ret invalid_credentials
     | Some u =>
         ok <- comparePassword env u password ;;
         if ok : bool then
           let (accessToken, refreshToken) := generateTokens env (User._id u) in
           storeRefreshToken env (User._id u) refreshToken ;;;
           auth_ret (mkAuthResponse 200 (setCookies env accessToken refreshToken)
                                    (user_body u))
         else auth_ret invalid_credentials
     end)
    (fun message => mkAuthResponse 500 [] (auth_message message)).

(** [jwt.verify(token, secret)] inside a [try]. *)
Definition verify (env : AuthEnv) (token secret : string) : AuthM string :=
  fun s => (jwt_verify env token secret, s).

Definition logout (env : AuthEnv) (refreshToken : option string) : AuthHandler :=
  auth_try
    ((if truthy_code refreshToken then
        userId <- verify env (code_or_empty refreshToken) (REFRESH_TOKEN_SECRET env) ;;
        redis_del env (refresh_key userId)
      else auth_ret tt) ;;;
     auth_ret (mkAuthResponse 200 [ClearCookie "accessToken"; ClearCookie "refreshToken"]
                              (auth_message "Logged out successfully")))
    (fun message => mkAuthResponse 500 [] (auth_failure "Server error" message)).

Definition refreshToken (env : AuthEnv) (refreshToken : option string) : AuthHandler :=
  auth_try
    (if negb (truthy_code refreshToken) then
       auth_ret (mkAuthResponse 401 [] (auth_message "No refresh token provided"))
     else
       let token := code_or_empty refreshToken in
       userId <- verify env token (REFRESH_TOKEN_SECRET env) ;;
       storedToken <- redis_get env (refresh_key userId) ;;
       if match storedToken with
          | Some stored => negb (String.eqb stored token)
          | None => true
          end
       then auth_ret (mkAuthResponse 401 [] (auth_message "Invalid refresh token"))
       else
         let accessToken := jwt_sign env userId (ACCESS_TOKEN_SECRET env) "15m" in
         auth_ret (mkAuthResponse 200 [access_cookie env accessToken]
                                  (auth_message "Token refreshed successfully")))
    (fun message => mkAuthResponse 500 [] (auth_failure "Server error" message)).

(** [getProfile]: the user the middleware attached to the request. *)
Definition getProfile (user : User.t) : AuthHandler :=
  fun s => (mkAuthResponse 200 [] (auth_profile user), s).

Inductive AuthRequest :=
| POST_signup (email password name : string)
| POST_login (email password : string)
| POST_logout (cookie : option string)
| POST_refresh_token (cookie : option string)
| GET_profile (user : User.t).

Definition handle_auth (env : AuthEnv) (r : AuthRequest) : AuthHandler :=
  match r with
  | POST_signup email password name => signup env email password name
  | POST_login email password => login env email password
  | POST_logout cookie => logout env cookie
  | POST_refresh_token cookie => refreshToken env cookie
  | GET_profile user => getProfile user
  end.

(** A cookie as every handler sets it. *)
Definition well_formed_cookie (env : AuthEnv) (c : CookieOp) : Prop :=
  match c with
  | SetCookie name _ httpOnly secure sameSite maxAge =>
      httpOnly = true /\ sameSite = "strict"
      /\ secure = String.eqb (NODE_ENV env) "production"
      /\ ((name = "accessToken" /\ maxAge = 900000)
          \/ (name = "refreshToken" /\ maxAge = 604800000))
  | ClearCookie name => name = "accessToken" \/ name = "refreshToken"
  end.

Definition no_auth_failure (env : AuthEnv) : Prop := forall op, auth_fails env op = None.

(** The token Redis holds for a user at a time, if any. *)
Definition stored_refresh_token (now : Z) (userId : string) (s : AuthStore) : option string :=
  option_map RedisEntry.value
    (find (fun e => String.eqb (refresh_key userId) (RedisEntry.key e)
                    && (now <? RedisEntry.expires_at e)) (redis s)).

(** A toy JWT for worked inputs: the token spells out what was signed. *)
Definition toy_sign (userId secret expiresIn : string) : string :=
  userId ++ "." ++ secret ++ "." ++ expiresIn.

Definition ann : User.t := User.mk "u1" "Ann" "ann@example.com" "hash(pw)" "customer".

Definition toy_verify (token secret : string) : Outcome string :=
  if String.eqb token (toy_sign "u1" secret "7d") then Returned "u1"
  else Thrown "invalid signature".

Definition auth_env_at (now : Z) (fails : AuthOp -> option string) : AuthEnv :=
  mkAuthEnv now fails "access-secret" "refresh-secret" "production"
            toy_sign toy_verify "u2" (fun p => "hash(" ++ p ++ ")")
            (fun u p => String.eqb (User.password u) ("hash(" ++ p ++ ")")) "customer".

Definition auth_env_ok : AuthEnv := auth_env_at 1000 (fun _ => None).

Definition ann_store : AuthStore := mkAuthStore [ann] [].

(** A verifier for which every token has expired, and a request made eight
    days after [auth_env_ok]'s. *)
Definition expired_verify (token secret : string) : Outcome string := Thrown "jwt expired".

Definition auth_env_late : AuthEnv :=
  mkAuthEnv 691201000 (fun _ => None) "access-secret" "refresh-secret" "production"
            toy_sign expired_verify "u2" (fun p => "hash(" ++ p ++ ")")
            (fun u p => String.eqb (User.password u) ("hash(" ++ p ++ ")")) "customer".

(** ** Pricing *)

Lemma fold_price_step ps : forall total items,
  fold_left price_step ps (total, items)
  = (total + cart_total ps, (items ++ map line_item_of ps)%list).
Proof.
  induction ps as [| p ps IH]; intros total items; cbn [fold_left].
  - cbn. now rewrite Z.add_0_r, app_nil_r.
  - change (price_step (total, items) p)
      with (total + unit_amount_of p * Product.quantity p,
            (items ++ [line_item_of p])%list).
    rewrite IH. f_equal.
    + unfold cart_total. cbn [map sum_Z fold_right]. fold (sum_Z (map line_total ps)).
      unfold line_total, unit_amount_of. lia.
    + now rewrite <- app_assoc.
Qed.

Lemma price_cart_eq ps : price_cart ps = (cart_total ps, map line_item_of ps).
Proof. unfold price_cart. now rewrite fold_price_step. Qed.



Lemma billed_line_items ps :
  billed (map line_item_of ps)
  = cart_total ps + sum_Z (map unit_amount_of (filter zero_quantity ps)).
Proof.
  unfold billed, cart_total.
  induction ps as [| p ps IH]; simpl; [reflexivity |].
  rewrite IH. unfold line_total, or_default, truthy_number, zero_quantity, unit_amount_of.
  destruct (Product.quantity p =? 0) eqn:E; simpl.
  - apply Z.eqb_eq in E. rewrite E. lia.
  - lia.
Qed.

Lemma sum_Z_nonneg l : (forall x, In x l -> 0 <= x) -> 0 <= sum_Z l.
Proof.
  induction l as [| x l IH]; simpl; intros H; [lia |].
  specialize (H x (or_introl eq_refl)) as Hx.
  assert (0 <= sum_Z l) by (apply IH; intros; apply H; now right). lia.
Qed.

Lemma sum_Z_member l x : (forall y, In y l -> 0 <= y) -> In x l -> x <= sum_Z l.
Proof.
  induction l as [| y l IH]; simpl; intros H Hin; [contradiction |].
  assert (0 <= sum_Z l) by (apply sum_Z_nonneg; intros; apply H; now right).
  destruct Hin as [-> | Hin].
  - lia.
  - assert (x <= sum_Z l) by (apply IH; [intros; apply H; now right | assumption]).
    specialize (H y (or_introl eq_refl)). lia.
Qed.

(** ** The coupon lookup *)

Lemma find_first_find f l : forall i,
  option_map fields (find_first f l i) = find (matches f) l.
Proof.
  induction l as [| c l IH]; intros i; simpl; [reflexivity |].
  destruct (matches f c); [reflexivity | apply IH].
Qed.

Lemma matches_full code user c :
  matches (mkFilter (Some code) (Some user) (Some true)) c
  = String.eqb code (Coupon.code c) && String.eqb user (Coupon.userId c) && Coupon.isActive c.
Proof. unfold matches; simpl. now destruct (Coupon.isActive c). Qed.

Lemma find_first_active code user l i :
  option_map fields (find_first (mkFilter (Some code) (Some user) (Some true)) l i)
  = active_coupon code user l.
Proof.
  rewrite find_first_find. unfold active_coupon.
  induction l as [| c l IH]; simpl; [reflexivity |].
  rewrite matches_full. now rewrite IH.
Qed.

(** ** Running the handlers *)

Ltac unfold_ops :=
  unfold Coupon_findOne, Coupon_findOneAndUpdate, Coupon_findOneAndDelete, Coupon_save,
    Order_save, createStripeCoupon, stripe_coupons_create, stripe_sessions_create,
    stripe_sessions_retrieve, attempt, try_catch, bind, ret, throw in *.

Ltac split_failures env :=
  repeat match goal with
         | |- context [fails env ?op] => destruct (fails env op) eqn:?
         end.

Lemma coupon_of_request_falsy req s :
  truthy_code (couponCode req) = false -> coupon_of_request req s = None.
Proof.
  unfold coupon_of_request, truthy_code, truthy_string.
  destruct (couponCode req) as [code |]; [| reflexivity].
  destruct (String.eqb code ""); [reflexivity | discriminate].
Qed.

Lemma coupon_of_request_truthy req s :
  truthy_code (couponCode req) = true ->
  coupon_of_request req s
  = active_coupon (code_or_empty (couponCode req)) (user_id req) (coupons s).
Proof.
  unfold coupon_of_request, truthy_code, truthy_string.
  destruct (couponCode req) as [code |]; [| discriminate].
  destruct (String.eqb code ""); [discriminate | reflexivity].
Qed.

(** The lookup either rejects, or yields the request's coupon and the
    discounted total, and it leaves the store as it was. *)
Lemma lookup_coupon_run env req T s :
  lookup_coupon env req T s
  = if truthy_code (couponCode req) then
      match fails env Coupon_findOne_op with
      | Some m => (Thrown m, s)
      | None =>
          (Returned (coupon_of_request req s, discounted T (coupon_of_request req s)), s)
      end
    else (Returned (None, T), s).
Proof.
  unfold lookup_coupon.
  destruct (truthy_code (couponCode req)) eqn:Ht; [| reflexivity].
  rewrite (coupon_of_request_truthy _ s Ht).
  rewrite <- (find_first_active _ _ _ 0%nat).
  unfold_ops. destruct (fails env Coupon_findOne_op); [reflexivity |].
  destruct (find_first _ (coupons s) 0) as [d |]; reflexivity.
Qed.

Lemma createNewCoupon_run env user s :
  createNewCoupon env user s
  = match fails env Coupon_findOneAndDelete_op with
    | Some m => (Thrown m, s)
    | None =>
        let s1 := set_coupons (delete_first (mkFilter None (Some user) None) (coupons s)) s in
        match fails env Coupon_save_op with
        | Some m => (Thrown m, s1)
        | None => (Returned (gift_coupon env user), after_gift env user s)
        end
    end.
Proof.
  unfold createNewCoupon. unfold_ops. split_failures env; reflexivity.
Qed.

Ltac step env :=
  match goal with
  | |- context [lookup_coupon ?e ?r ?t ?s] => rewrite (lookup_coupon_run e r t s)
  | |- context [createNewCoupon ?e ?u ?s] => rewrite (createNewCoupon_run e u s)
  | |- context [fails env ?op] => destruct (fails env op) eqn:?
  | |- context [truthy_code ?c] =>
      destruct (truthy_code c) eqn:?; [| rewrite ?coupon_of_request_falsy by assumption]
  | |- context [coupon_of_request ?r ?s] => destruct (coupon_of_request r s) eqn:?
  | |- context [?t >=? gift_threshold] => destruct (t >=? gift_threshold) eqn:?
  end.

Ltac run_checkout env :=
  unfold createCheckoutSession;
  rewrite ?price_cart_eq;
  unfold_ops;
  repeat (step env; cbn [fst snd discounted]).



(** A checkout that answers 200 reports the discounted total in major
    units, with the id of the session the gateway created. *)
Lemma checkout_success_body env req s r :
  products req <> [] ->
  fst (createCheckoutSession env req s) = Some r -> status r = 200 ->
  json r = body_checkout (new_session_id env)
             (major_units (discounted (cart_total (products req))
                                      (coupon_of_request req s))).
Proof.
  intros Hne. unfold createCheckoutSession.
  destruct (products req) as [| p ps] eqn:Ep; [congruence |].
  run_checkout env; intros [= <-]; cbn [status json]; intros; try discriminate;
    reflexivity.
Qed.


(** ** The collection operations on rows *)

Lemma matches_by_user user c : matches (by_user user) c = String.eqb user (Coupon.userId c).
Proof. unfold matches; simpl. now rewrite andb_true_r. Qed.

Lemma rows_delete_first_same user l :
  rows_of user (delete_first (by_user user) l) = tl (rows_of user l).
Proof.
  induction l as [| c l IH]; simpl; [reflexivity |].
  rewrite matches_by_user.
  destruct (String.eqb user (Coupon.userId c)) eqn:E; simpl; [reflexivity |].
  now rewrite E.
Qed.

Lemma rows_delete_first_other user other l :
  user <> other -> rows_of other (delete_first (by_user user) l) = rows_of other l.
Proof.
  intros Hne. induction l as [| c l IH]; simpl; [reflexivity |].
  rewrite matches_by_user.
  destruct (String.eqb user (Coupon.userId c)) eqn:E; simpl.
  - apply String.eqb_eq in E.
    destruct (String.eqb other (Coupon.userId c)) eqn:E'; [| reflexivity].
    apply String.eqb_eq in E'. congruence.
  - now rewrite IH.
Qed.

Lemma rows_delete_first_length user other l :
  (List.length (rows_of other (delete_first (by_user user) l))
   <= List.length (rows_of other l))%nat.
Proof.
  destruct (string_dec user other) as [-> | Hne].
  - rewrite rows_delete_first_same. destruct (rows_of other l); simpl; lia.
  - now rewrite rows_delete_first_other.
Qed.

Lemma rows_update_first_length f user l :
  List.length (rows_of user (update_first f Coupon.deactivate l))
  = List.length (rows_of user l).
Proof.
  induction l as [| c l IH]; simpl; [reflexivity |].
  destruct (matches f c); simpl.
  - destruct (String.eqb user (Coupon.userId c)); reflexivity.
  - destruct (String.eqb user (Coupon.userId c)); simpl; now rewrite IH.
Qed.

Lemma active_rows_le_rows user l :
  (List.length (active_rows_of user l) <= List.length (rows_of user l))%nat.
Proof.
  induction l as [| c l IH]; simpl; [lia |].
  destruct (String.eqb user (Coupon.userId c)), (Coupon.isActive c); simpl; lia.
Qed.

Lemma update_first_length f upd l :
  List.length (update_first f upd l) = List.length l.
Proof.
  induction l as [| c l IH]; simpl; [reflexivity |].
  destruct (matches f c); simpl; [reflexivity | now rewrite IH].
Qed.

Lemma update_first_no_match f upd l :
  find (matches f) l = None -> update_first f upd l = l.
Proof.
  induction l as [| c l IH]; simpl; [reflexivity |].
  destruct (matches f c); [discriminate | intros H; now rewrite IH].
Qed.

(** Writing a fetched document back is an update of the first match. *)
Lemma find_first_write_at f upd l : forall k d,
  find_first f l k = Some d ->
  exists i, slot d = Some (k + i)%nat
            /\ nth_error l i = Some (fields d)
            /\ write_at i (upd (fields d)) l = update_first f upd l.
Proof.
  induction l as [| c l IH]; intros k d; simpl; [discriminate |].
  destruct (matches f c) eqn:E.
  - intros [= <-]. exists 0%nat. simpl. rewrite Nat.add_0_r. auto.
  - intros H. destruct (IH _ _ H) as (i & Hs & Hn & Hw).
    exists (S i). simpl. rewrite Hw. repeat split; auto.
    rewrite Hs. f_equal. lia.
Qed.

(** What a write at a position does to the collection. *)
Lemma write_at_nth c l : forall i d,
  nth_error l i = Some d ->
  nth_error (write_at i c l) i = Some c
  /\ forall j, j <> i -> nth_error (write_at i c l) j = nth_error l j.
Proof.
  induction l as [| x l IH]; intros i d; destruct i; simpl; try discriminate.
  - intros _. split; [reflexivity |]. intros [| j] Hj; [congruence | reflexivity].
  - intros H. destruct (IH _ _ H) as [H1 H2]. split; [exact H1 |].
    intros [| j] Hj; simpl; [reflexivity | apply H2; congruence].
Qed.

Lemma validateCoupon_run env code user s :
  validateCoupon env code user s
  = match fails env Coupon_findOne_op with
    | Some m => (Some (mkResponse 500 (body_failure "Server error" m)), s)
    | None =>
        match active_coupon code user (coupons s) with
        | None => (Some (mkResponse 404 (body_message "Coupon not found")), s)
        | Some c =>
            if Coupon.expirationDate c <? now env then
              match fails env Coupon_save_op with
              | Some m => (Some (mkResponse 500 (body_failure "Server error" m)), s)
              | None => (Some (mkResponse 404 (body_message "Coupon expired")),
                         deactivate_first (full_filter code user) s)
              end
            else (Some (mkResponse 200
                          (body_valid "Coupon is valid" (Coupon.code c)
                                      (Coupon.discountPercentage c))), s)
        end
    end.
Proof.
  unfold validateCoupon. unfold_ops.
  destruct (fails env Coupon_findOne_op); [reflexivity |].
  rewrite <- (find_first_active code user (coupons s) 0%nat).
  destruct (find_first _ (coupons s) 0) as [d |] eqn:Ef; cbn [option_map]; [| reflexivity].
  destruct (Coupon.expirationDate (fields d) <? now env); [| reflexivity].
  destruct (fails env Coupon_save_op); [reflexivity |].
  destruct (find_first_write_at _ Coupon.deactivate _ _ _ Ef) as (i & Hs & _ & Hw).
  cbn [slot fields]. rewrite Hs. cbn [Nat.add]. rewrite Hw. reflexivity.
Qed.

Lemma checkoutSuccess_run env sessionId s :
  checkoutSuccess env sessionId s
  = match fails env sessions_retrieve_op with
    | Some m => (settlement_failure m, s)
    | None =>
        let session := retrieve env sessionId in
        let md := Session.metadata session in
        if String.eqb (Session.payment_status session) "paid" then
          match (if truthy_string (Metadata.couponCode md)
                 then fails env Coupon_findOneAndUpdate_op else None) with
          | Some m => (settlement_failure m, s)
          | None =>
              match JSON_parse (Metadata.products md) with
              | None => (settlement_failure "Unexpected token in JSON", settle_coupon md s)
              | Some items =>
                  match fails env Order_save_op with
                  | Some m => (settlement_failure m, settle_coupon md s)
                  | None =>
                      (Some (mkResponse 200
                               (body_settled true settled_message (new_object_id env))),
                       add_order (order_of env sessionId session items)
                                 (settle_coupon md s))
                  end
              end
          end
        else (None, s)
    end.
Proof.
  unfold checkoutSuccess, settle_coupon, settlement_failure. unfold_ops.
  destruct (fails env sessions_retrieve_op); [reflexivity |].
  cbv zeta.
  destruct (String.eqb _ "paid"); [| reflexivity].
  destruct (truthy_string _);
    [destruct (fails env Coupon_findOneAndUpdate_op); [reflexivity |] |];
    (destruct (JSON_parse _); [| reflexivity]);
    destruct (fails env Order_save_op); reflexivity.
Qed.

Lemma getCoupon_store env user s : snd (getCoupon env user s) = s.
Proof.
  unfold getCoupon. unfold_ops. destruct (fails env Coupon_findOne_op); reflexivity.
Qed.

(** ** At most one coupon row per user *)

Lemma rows_after_gift env user s :
  one_row_per_user s ->
  rows_of user (coupons (after_gift env user s)) = [gift_coupon env user]
  /\ active_rows_of user (coupons (after_gift env user s)) = [gift_coupon env user]
  /\ forall other, user <> other ->
       rows_of other (coupons (after_gift env user s)) = rows_of other (coupons s).
Proof.
  intros Hinv. unfold after_gift. cbn [coupons set_coupons].
  change (mkFilter None (Some user) None) with (by_user user).
  assert (Hu : rows_of user (delete_first (by_user user) (coupons s)) = []).
  { rewrite rows_delete_first_same. specialize (Hinv user).
    destruct (rows_of user (coupons s)) as [| c [| c' l]]; simpl in *; auto; lia. }
  split; [| split].
  - unfold rows_of in *. rewrite filter_app, Hu. simpl. now rewrite String.eqb_refl.
  - unfold active_rows_of. rewrite filter_app. simpl. rewrite String.eqb_refl. simpl.
    assert (Ha : active_rows_of user (delete_first (by_user user) (coupons s)) = []).
    { pose proof (active_rows_le_rows user (delete_first (by_user user) (coupons s))) as H.
      rewrite Hu in H. simpl in H.
      destruct (active_rows_of user _); simpl in *; [reflexivity | lia]. }
    unfold active_rows_of in Ha. now rewrite Ha.
  - intros other Hne. unfold rows_of. rewrite filter_app. simpl.
    destruct (String.eqb other user) eqn:E.
    + apply String.eqb_eq in E. congruence.
    + rewrite app_nil_r. now apply rows_delete_first_other.
Qed.

Lemma delete_preserves_invariant user s :
  one_row_per_user s ->
  one_row_per_user (set_coupons (delete_first (by_user user) (coupons s)) s).
Proof.
  intros Hinv other. cbn [coupons set_coupons].
  pose proof (rows_delete_first_length user other (coupons s)). specialize (Hinv other). lia.
Qed.

Lemma gift_preserves_invariant env user s :
  one_row_per_user s -> one_row_per_user (after_gift env user s).
Proof.
  intros Hinv other. destruct (rows_after_gift env user s Hinv) as (Hu & _ & Ho).
  destruct (string_dec user other) as [<- | Hne].
  - rewrite Hu. simpl. lia.
  - rewrite (Ho _ Hne). apply Hinv.
Qed.

Lemma deactivate_preserves_invariant f s :
  one_row_per_user s -> one_row_per_user (deactivate_first f s).
Proof.
  intros Hinv user. unfold deactivate_first. cbn [coupons set_coupons].
  rewrite rows_update_first_length. apply Hinv.
Qed.

Lemma record_call_invariant c s : one_row_per_user s -> one_row_per_user (record_call c s).
Proof. intros Hinv user. apply Hinv. Qed.

Lemma createNewCoupon_invariant env user s :
  one_row_per_user s -> one_row_per_user (snd (createNewCoupon env user s)).
Proof.
  intros Hinv. rewrite createNewCoupon_run.
  destruct (fails env Coupon_findOneAndDelete_op); [exact Hinv |].
  cbv zeta. destruct (fails env Coupon_save_op); cbn [snd].
  - now apply delete_preserves_invariant.
  - now apply gift_preserves_invariant.
Qed.

Lemma createNewCoupon_returned env user s c s' :
  createNewCoupon env user s = (Returned c, s') ->
  c = gift_coupon env user /\ s' = after_gift env user s.
Proof.
  rewrite createNewCoupon_run.
  destruct (fails env Coupon_findOneAndDelete_op); [discriminate |].
  cbv zeta. destruct (fails env Coupon_save_op); [discriminate |].
  now intros [= <- <-].
Qed.

Lemma createCheckoutSession_invariant env req s :
  one_row_per_user s -> one_row_per_user (snd (createCheckoutSession env req s)).
Proof.
  intros Hinv. unfold createCheckoutSession.
  destruct (products req) as [| p ps]; [exact Hinv |].
  run_checkout env; cbn [snd];
    repeat first [ exact Hinv
                 | apply gift_preserves_invariant
                 | apply delete_preserves_invariant
                 | apply record_call_invariant ].
Qed.

Lemma checkoutSuccess_invariant env sessionId s :
  one_row_per_user s -> one_row_per_user (snd (checkoutSuccess env sessionId s)).
Proof.
  intros Hinv. rewrite checkoutSuccess_run.
  assert (Hs : forall md, one_row_per_user (settle_coupon md s)).
  { intros md. unfold settle_coupon. destruct (truthy_string _); [| exact Hinv].
    now apply deactivate_preserves_invariant. }
  destruct (fails env sessions_retrieve_op); [exact Hinv |]. cbv zeta.
  destruct (String.eqb _ "paid"); [| exact Hinv].
  destruct (if truthy_string _ then _ else _); [exact Hinv |].
  destruct (JSON_parse _); [| apply Hs].
  destruct (fails env Order_save_op); cbn [snd]; [apply Hs |].
  intros user. apply (Hs _ user).
Qed.

Lemma validateCoupon_invariant env code user s :
  one_row_per_user s -> one_row_per_user (snd (validateCoupon env code user s)).
Proof.
  intros Hinv. rewrite validateCoupon_run.
  destruct (fails env Coupon_findOne_op); [exact Hinv |].
  destruct (active_coupon code user (coupons s)); [| exact Hinv].
  destruct (_ <? _); [| exact Hinv].
  destruct (fails env Coupon_save_op); [exact Hinv |].
  now apply deactivate_preserves_invariant.
Qed.

Lemma handle_invariant env r s :
  one_row_per_user s -> one_row_per_user (snd (handle env r s)).
Proof.
  destruct r; cbn [handle]; intros Hinv.
  - now apply createCheckoutSession_invariant.
  - now apply checkoutSuccess_invariant.
  - now rewrite getCoupon_store.
  - now apply validateCoupon_invariant.
Qed.

Lemma reachable_one_row_per_user start s :
  one_row_per_user start -> reachable_from start s -> one_row_per_user s.
Proof.
  intros Hstart. induction 1 as [| env r s _ IH].
  - exact Hstart.
  - now apply handle_invariant.
Qed.

Lemma checkout_gateway env req s :
  session_created env req s ->
  gateway (snd (createCheckoutSession env req s))
  = (gateway s ++ gateway_calls env req s)%list.
Proof.
  intros (Hne & Hfind & Hcreate & Hsess).
  unfold gateway_calls, session_params, createCheckoutSession.
  destruct (products req) as [| p ps] eqn:Ep; [congruence |].
  rewrite price_cart_eq. unfold_ops. rewrite lookup_coupon_run, Hsess.
  destruct (truthy_code (couponCode req)) eqn:Ht.
  - rewrite (Hfind eq_refl).
    destruct (coupon_of_request req s) as [c |] eqn:Ec; cbn [fst snd discounted].
    + rewrite Hcreate by discriminate.
      repeat (step env; cbn [fst snd]); cbn; now rewrite <- app_assoc.
    + repeat (step env; cbn [fst snd]); reflexivity.
  - rewrite (coupon_of_request_falsy _ _ Ht).
    repeat (step env; cbn [fst snd]); reflexivity.
Qed.

(** [C7] as the code has it: a checkout that gets as far as the gift step
    has already had its session created at the gateway; when
    [createNewCoupon] then rejects, the response is the 500 failure carrying
    the message of the rejection, and only when it returns is the response
    the success with the session id and the total. *)
Theorem gift_failure_fails_checkout env req s :
  reaches_gift_step env req s ->
  let final := discounted (cart_total (products req)) (coupon_of_request req s) in
  gateway (snd (createCheckoutSession env req s))
  = (gateway s ++ gateway_calls env req s)%list
  /\ fst (createCheckoutSession env req s)
     = match gift_failure env with
       | Some m => Some (mkResponse 500 (body_failure "Error processing checkout" m))
       | None => Some (mkResponse 200
                         (body_checkout (new_session_id env) (major_units final)))
       end.
Proof.
  intros [Hcreated Hge] final. subst final. split; [now apply checkout_gateway |].
  destruct Hcreated as (Hne & Hfind & Hcreate & Hsess).
  revert Hge. unfold gift_failure, createCheckoutSession.
  destruct (products req) as [| p ps] eqn:Ep; [congruence |].
  rewrite price_cart_eq. unfold_ops. rewrite lookup_coupon_run, Hsess.
  assert (Hcoupon : truthy_code (couponCode req) = false -> coupon_of_request req s = None)
    by apply coupon_of_request_falsy.
  destruct (truthy_code (couponCode req)); [rewrite (Hfind eq_refl) | rewrite Hcoupon by easy];
    (destruct (coupon_of_request req s) as [c |]; cbn [fst snd discounted];
     try rewrite Hcreate by discriminate);
    destruct (fails env Coupon_findOneAndDelete_op) eqn:Ed;
    destruct (fails env Coupon_save_op) eqn:Es;
    repeat (step env; rewrite ?Ed, ?Es; cbn [fst snd]);
    intros Hge; try reflexivity; unfold gift_threshold in *; lia.
Qed.

(** [C10] When a cart holds an item of quantity 0 and the session is
    created, the gateway receives that item with quantity 1, while the item
    adds 0 to the total: what the gateway is asked to bill exceeds the
    pre-discount total by the unit amounts of the items of quantity 0, so the
    two differ as soon as such an item has a positive unit amount and no unit
    amount is negative; and the total a successful response reports is the
    one computed from that pre-discount total. *)
Theorem zero_quantity_billed_as_one env req s p :
  session_created env req s ->
  In p (products req) -> Product.quantity p = 0 ->
  let params := session_params env req s in
  (exists before, gateway (snd (createCheckoutSession env req s))
                  = (before ++ [SessionsCreate params])%list)
  /\ In (line_item_of p) (SessionParams.line_items params)
  /\ LineItem.quantity (line_item_of p) = 1
  /\ line_total p = 0
  /\ billed (SessionParams.line_items params)
     = cart_total (products req)
       + sum_Z (map unit_amount_of (filter zero_quantity (products req)))
  /\ (0 < unit_amount_of p ->
      (forall q, In q (products req) -> 0 <= unit_amount_of q) ->
      cart_total (products req) < billed (SessionParams.line_items params))
  /\ (forall r, fst (createCheckoutSession env req s) = Some r -> status r = 200 ->
                json r = body_checkout (new_session_id env)
                           (major_units (discounted (cart_total (products req))
                                                    (coupon_of_request req s)))).
Proof.
  intros Hcreated Hin Hq params. subst params.
  assert (Hbill := billed_line_items (products req)).
  assert (Hne : products req <> []) by (destruct (products req); [contradiction | discriminate]).
  repeat split; [| | | | | | intros r; now apply checkout_success_body].
  - rewrite (checkout_gateway _ _ _ Hcreated). unfold gateway_calls.
    eexists. rewrite app_assoc. reflexivity.
  - cbn [session_params SessionParams.line_items]. now apply in_map.
  - unfold line_item_of, or_default, truthy_number. cbn [LineItem.quantity].
    now rewrite Hq.
  - unfold line_total. rewrite Hq. lia.
  - exact Hbill.
  - intros Hpos Hnonneg. cbn [session_params SessionParams.line_items]. rewrite Hbill.
    assert (unit_amount_of p <= sum_Z (map unit_amount_of (filter zero_quantity (products req)))).
    { apply sum_Z_member.
      - intros y Hy. apply in_map_iff in Hy as (q & <- & Hq').
        apply filter_In in Hq' as [Hq' _]. now apply Hnonneg.
      - apply in_map. apply filter_In. split; [exact Hin |].
        unfold zero_quantity. now rewrite Hq. }
    lia.
Qed.

(** ** Deactivation in place *)

Lemma update_first_spec f upd l c :
  find (matches f) l = Some c ->
  exists i, nth_error l i = Some c
            /\ nth_error (update_first f upd l) i = Some (upd c)
            /\ forall j, j <> i -> nth_error (update_first f upd l) j = nth_error l j.
Proof.
  induction l as [| x l IH]; simpl; [discriminate |].
  destruct (matches f x) eqn:E.
  - intros [= <-]. exists 0%nat. repeat split.
    intros [| j] Hj; [congruence | reflexivity].
  - intros H. destruct (IH H) as (i & H1 & H2 & H3).
    exists (S i). repeat split; auto.
    intros [| j] Hj; simpl; [reflexivity | apply H3; congruence].
Qed.

Lemma find_first_matches f l : forall k d,
  find_first f l k = Some d ->
  matches f (fields d) = true
  /\ exists i, slot d = Some (k + i)%nat /\ nth_error l i = Some (fields d).
Proof.
  induction l as [| c l IH]; intros k d; simpl; [discriminate |].
  destruct (matches f c) eqn:E.
  - intros [= <-]. split; [exact E |]. exists 0%nat. simpl. now rewrite Nat.add_0_r.
  - intros H. destruct (IH _ _ H) as (Hm & i & Hs & Hn).
    split; [exact Hm |]. exists (S i). simpl. split; [| exact Hn].
    rewrite Hs. f_equal. lia.
Qed.

Lemma active_coupon_find code user l :
  active_coupon code user l = find (matches (full_filter code user)) l.
Proof.
  unfold active_coupon, full_filter.
  induction l as [| c l IH]; simpl; [reflexivity |].
  now rewrite matches_full, IH.
Qed.

(** A read that asks for active coupons never yields an inactive
    document. *)
Lemma active_read_skips_inactive f l d i c :
  by_isActive f = Some true ->
  nth_error l i = Some c -> Coupon.isActive c = false ->
  find_first f l 0 = Some d -> slot d <> Some i.
Proof.
  intros Hf Hn Hc Hfind Hslot.
  destruct (find_first_matches _ _ _ _ Hfind) as (Hm & j & Hs & Hj).
  rewrite Hslot in Hs. injection Hs as ->. cbn [Nat.add] in Hn.
  rewrite Hn in Hj. injection Hj as ->.
  unfold matches in Hm. rewrite Hf in Hm. cbn [field_ok] in Hm.
  rewrite Hc in Hm. rewrite andb_false_r in Hm. discriminate.
Qed.

(** [C5] as the code has it: with the lookup answering, [validateCoupon]
    answers 404 "Coupon not found" when no coupon of the user has the code
    and the active flag; when the first such coupon has its expiration
    strictly before now, it writes that document back with the flag cleared,
    answers 404 "Coupon expired", and no later read for active coupons yields
    the document; otherwise, the expiration being now or later, it answers
    with the coupon's code and discount percentage and writes nothing. *)
Theorem validateCoupon_outcomes env code user s :
  fails env Coupon_findOne_op = None ->
  match active_coupon code user (coupons s) with
  | None =>
      validateCoupon env code user s
      = (Some (mkResponse 404 (body_message "Coupon not found")), s)
  | Some c =>
      (Coupon.expirationDate c < now env ->
       fails env Coupon_save_op = None ->
       let s' := snd (validateCoupon env code user s) in
       fst (validateCoupon env code user s)
       = Some (mkResponse 404 (body_message "Coupon expired"))
       /\ orders s' = orders s /\ gateway s' = gateway s
       /\ exists i,
           nth_error (coupons s) i = Some c
           /\ nth_error (coupons s') i = Some (Coupon.deactivate c)
           /\ Coupon.isActive (Coupon.deactivate c) = false
           /\ (forall j, j <> i -> nth_error (coupons s') j = nth_error (coupons s) j)
           /\ (forall f d, by_isActive f = Some true ->
                           find_first f (coupons s') 0 = Some d -> slot d <> Some i))
      /\ (now env <= Coupon.expirationDate c ->
          validateCoupon env code user s
          = (Some (mkResponse 200
                     (body_valid "Coupon is valid" (Coupon.code c)
                                 (Coupon.discountPercentage c))), s))
  end.
Proof.
  intros Hfind. rewrite validateCoupon_run, Hfind.
  destruct (active_coupon code user (coupons s)) as [c |] eqn:Ec; [| reflexivity].
  split.
  - intros Hlt Hsave. apply Z.ltb_lt in Hlt. rewrite Hlt, Hsave. cbn [fst snd].
    repeat split.
    rewrite active_coupon_find in Ec.
    destruct (update_first_spec _ Coupon.deactivate _ _ Ec) as (i & H1 & H2 & H3).
    exists i. unfold deactivate_first. cbn [coupons set_coupons].
    repeat split; auto.
    intros f d Hf Hd. eapply active_read_skips_inactive; eauto.
  - intros Hle. apply Z.ltb_ge in Hle. now rewrite Hle.
Qed.

Lemma orders_of_session_add sessionId o s :
  orders_of_session sessionId (add_order o s)
  = (orders_of_session sessionId s
     ++ if String.eqb sessionId (Order.stripeSessionId o) then [o] else [])%list.
Proof. unfold orders_of_session, add_order. cbn [orders]. now rewrite filter_app. Qed.

Lemma settle_coupon_orders md s : orders (settle_coupon md s) = orders s.
Proof. unfold settle_coupon. now destruct (truthy_string _). Qed.

(** A settlement either answers success and appends the order it built, or
    leaves the orders alone and answers, if at all, with a failure. *)
Lemma checkoutSuccess_orders env sessionId s :
  (exists o,
      Order.stripeSessionId o = sessionId
      /\ fst (checkoutSuccess env sessionId s)
         = Some (mkResponse 200 (body_settled true settled_message (Order._id o)))
      /\ orders (snd (checkoutSuccess env sessionId s)) = (orders s ++ [o])%list)
  \/ ((forall r, fst (checkoutSuccess env sessionId s) = Some r -> status r = 500)
      /\ orders (snd (checkoutSuccess env sessionId s)) = orders s).
Proof.
  rewrite checkoutSuccess_run. unfold settlement_failure.
  destruct (fails env sessions_retrieve_op);
    [right; split; [now intros r [= <-] | reflexivity] |].
  cbv zeta. destruct (String.eqb _ "paid");
    [| right; split; [discriminate | reflexivity]].
  destruct (if truthy_string _ then _ else _);
    [right; split; [now intros r [= <-] | reflexivity] |].
  destruct (JSON_parse _) as [items |];
    [| right; split; [now intros r [= <-] | apply settle_coupon_orders]].
  destruct (fails env Order_save_op);
    [right; split; [now intros r [= <-] | apply settle_coupon_orders] |].
  left. exists (order_of env sessionId (retrieve env sessionId) items).
  cbn [fst snd add_order orders]. rewrite settle_coupon_orders.
  repeat split.
Qed.

(** [C9] When the gateway reports a status other than "paid",
    [checkoutSuccess] leaves the whole store as it was: no Order is added and
    no coupon is touched; and when the retrieval itself returns, no response
    is sent. *)
Theorem unpaid_session_no_persistence env sessionId s :
  Session.payment_status (retrieve env sessionId) <> "paid" ->
  snd (checkoutSuccess env sessionId s) = s
  /\ (fails env sessions_retrieve_op = None -> fst (checkoutSuccess env sessionId s) = None).
Proof.
  intros Hunpaid. rewrite checkoutSuccess_run. cbv zeta.
  destruct (String.eqb_spec (Session.payment_status (retrieve env sessionId)) "paid");
    [contradiction |].
  destruct (fails env sessions_retrieve_op); split; try reflexivity; discriminate.
Qed.

Lemma store_expiring_one_row at_ms : one_row_per_user (store_expiring at_ms).
Proof.
  intros user. cbn. destruct (String.eqb user "u1"); cbn; auto.
Defined.

Lemma rug_reaches_gift_step : reaches_gift_step env_save_fails rug_request empty_store.
Proof.
  repeat split; try reflexivity; discriminate.
Defined.

Lemma gift_failure_fails_checkout_witness :
  reaches_gift_step env_save_fails rug_request empty_store
  /\ fst (createCheckoutSession env_save_fails rug_request empty_store)
     = Some (mkResponse 500 (body_failure "Error processing checkout" "save rejected")).
Proof.
  split; [exact rug_reaches_gift_step |].
  exact (proj2 (gift_failure_fails_checkout env_save_fails rug_request empty_store
                  rug_reaches_gift_step)).
Defined.

(** The checkout has reached the gift step, [createNewCoupon] rejects, and
    the response is a failure, not the session id and total. *)
Lemma gift_failure_counterexample :
  reaches_gift_step env_save_fails rug_request empty_store
  /\ (exists s1, createNewCoupon env_save_fails "u1" s1 = (Thrown "save rejected", s1))
  /\ fst (createCheckoutSession env_save_fails rug_request empty_store)
     = Some (mkResponse 500 (body_failure "Error processing checkout" "save rejected"))
  /\ ~ (exists id total,
           fst (createCheckoutSession env_save_fails rug_request empty_store)
           = Some (mkResponse 200 (body_checkout id total))).
Proof.
  split; [exact rug_reaches_gift_step |].
  split; [exists empty_store; reflexivity |].
  split; [reflexivity |].
  intros (id & total & H). vm_compute in H. discriminate H.
Qed.

Lemma pen_session_created : session_created env_ok pen_request empty_store.
Proof. repeat split; try reflexivity; discriminate. Defined.

Lemma zero_quantity_billed_as_one_witness :
  session_created env_ok pen_request empty_store
  /\ In pen (products pen_request) /\ Product.quantity pen = 0
  /\ cart_total (products pen_request)
     < billed (SessionParams.line_items (session_params env_ok pen_request empty_store)).
Proof.
  assert (Hin : In pen (products pen_request)) by (left; reflexivity).
  split; [exact pen_session_created |].
  split; [exact Hin |].
  split; [reflexivity |].
  apply (zero_quantity_billed_as_one env_ok pen_request empty_store pen
           pen_session_created Hin eq_refl).
  - reflexivity.
  - intros q [<- | []]. vm_compute. discriminate.
Defined.

Lemma validateCoupon_outcomes_witness :
  fails env_ok Coupon_findOne_op = None
  /\ fst (validateCoupon env_ok "SAVE10" "u1" (store_expiring 500))
     = Some (mkResponse 404 (body_message "Coupon expired")).
Proof.
  split; [reflexivity |].
  exact (proj1 (proj1 (validateCoupon_outcomes env_ok "SAVE10" "u1" (store_expiring 500)
                         eq_refl) eq_refl eq_refl)).
Defined.

(** At the very instant of expiration the spec wants [Expired] and a
    deactivation; the code answers that the coupon is valid and writes
    nothing. *)
Lemma validate_at_expiry_counterexample :
  active_coupon "SAVE10" "u1" (coupons (store_expiring 1000))
  = Some (Coupon.mk "SAVE10" (10 # 1) 1000 true "u1")
  /\ now env_ok >= 1000
  /\ validateCoupon env_ok "SAVE10" "u1" (store_expiring 1000)
     = (Some (mkResponse 200 (body_valid "Coupon is valid" "SAVE10" (10 # 1))),
        store_expiring 1000).
Proof. repeat split. vm_compute. discriminate. Qed.

Lemma unpaid_session_no_persistence_witness :
  Session.payment_status (retrieve env_unpaid "cs_1") <> "paid"
  /\ checkoutSuccess env_unpaid "cs_1" (store_expiring 5000) = (None, store_expiring 5000).
Proof.
  assert (Hunpaid : Session.payment_status (retrieve env_unpaid "cs_1") <> "paid")
    by discriminate.
  split; [exact Hunpaid |].
  destruct (unpaid_session_no_persistence env_unpaid "cs_1" (store_expiring 5000) Hunpaid)
    as [Hs Hr].
  rewrite (surjective_pairing (checkoutSuccess _ _ _)), Hs, (Hr eq_refl). reflexivity.
Defined.

(** [C3] at a failing input: the coupon expired at 500, the request is made
    at 1000, [validateCoupon] calls it expired, and [createCheckoutSession]
    still takes its 10 percent off the 4498 cents of the cart. *)
Theorem expired_coupon_discount_applied :
  active_coupon "SAVE10" "u1" (coupons (store_expiring 500))
  = Some (Coupon.mk "SAVE10" (10 # 1) 500 true "u1")
  /\ 500 < now env_ok
  /\ fst (validateCoupon env_ok "SAVE10" "u1" (store_expiring 500))
     = Some (mkResponse 404 (body_message "Coupon expired"))
  /\ fst (createCheckoutSession env_ok scenario_request (store_expiring 500))
     = Some (mkResponse 200 (body_checkout "cs_1" (major_units 4048)))
  /\ fst (createCheckoutSession env_ok (mkCheckoutRequest scenario_cart None "u1")
            (store_expiring 500))
     = Some (mkResponse 200 (body_checkout "cs_1" (major_units 4498))).
Proof. repeat split. Qed.

(** * Beyond the specified properties: checkout, settlement, coupons *)

(** ** Rounding *)

Lemma Math_round_inject n : Math_round (inject_Z n) = n.
Proof.
  unfold Math_round.
  assert (H : (inject_Z n + (1 # 2) == (2 * n + 1) # 2)%Q).
  { unfold Qeq, Qplus, inject_Z. cbn [Qnum Qden]. lia. }
  rewrite (Qfloor_comp _ _ H). unfold Qfloor. cbn [Qnum Qden].
  change (Z.pos 2) with 2. symmetry. apply Z.div_unique with (r := 1); lia.
Qed.

Lemma Math_round_le x y : (x <= y)%Q -> Math_round x <= Math_round y.
Proof.
  intros H. unfold Math_round. apply Qfloor_resp_le.
  now apply Qplus_le_compat; [| apply Qle_refl].
Qed.

Lemma Math_round_eq x y : (x == y)%Q -> Math_round x = Math_round y.
Proof.
  intros H. unfold Math_round. apply Qfloor_comp. now rewrite H.
Qed.

(** [X3] A price with at most two decimals, n / 100, becomes exactly n
    cents: the rounding of [price * 100] loses nothing. *)
Theorem cents_of_two_decimal_price p n :
  (Product.price p == inject_Z n / inject_Z 100)%Q ->
  unit_amount_of p = n
  /\ LineItem.unit_amount (line_item_of p) = n
  /\ line_total p = n * Product.quantity p.
Proof.
  intros Hp.
  assert (Hn : unit_amount_of p = n).
  { unfold unit_amount_of. rewrite <- (Math_round_inject n). apply Math_round_eq.
    rewrite Hp. field. }
  repeat split; [exact Hn | exact Hn |].
  unfold line_total. fold (unit_amount_of p). now rewrite Hn.
Qed.

Lemma cents_of_two_decimal_price_witness :
  unit_amount_of (Product.mk "p1" "Tea" "tea.png" (1999 # 100) 2) = 1999.
Proof.
  apply (cents_of_two_decimal_price (Product.mk "p1" "Tea" "tea.png" (1999 # 100) 2) 1999).
  reflexivity.
Defined.

Lemma apply_discount_bounds T d :
  0 <= T -> percentage d -> 0 <= apply_discount T d <= T.
Proof.
  intros HT [Hd0 Hd100]. unfold apply_discount.
  set (x := (inject_Z T * d / inject_Z 100)%Q).
  assert (HTq : (0 <= inject_Z T)%Q) by (change 0%Q with (inject_Z 0); rewrite <- Zle_Qle; exact HT).
  assert (H0 : (0 <= x)%Q).
  { unfold x. apply Qle_shift_div_l; [reflexivity |].
    rewrite Qmult_0_l. now apply Qmult_le_0_compat. }
  assert (H1 : (x <= inject_Z T)%Q).
  { unfold x. apply Qle_shift_div_r; [reflexivity |].
    change (inject_Z 100) with (100 # 1)%Q.
    apply Qmult_le_compat_nonneg; split; auto using Qle_refl. }
  pose proof (Math_round_le _ _ H0) as L0.
  pose proof (Math_round_le _ _ H1) as L1.
  rewrite Math_round_inject in L1.
  change 0%Q with (inject_Z 0) in L0. rewrite Math_round_inject in L0.
  lia.
Qed.

Lemma cart_total_nonneg ps :
  (forall p, In p ps -> (0 <= Product.price p)%Q /\ 0 <= Product.quantity p) ->
  0 <= cart_total ps.
Proof.
  intros H. unfold cart_total. apply sum_Z_nonneg.
  intros x Hx. apply in_map_iff in Hx as (p & <- & Hp).
  destruct (H p Hp) as [Hprice Hq]. unfold line_total.
  apply Z.mul_nonneg_nonneg; [| exact Hq].
  change 0 with (Math_round (inject_Z 0)) at 1.
  apply Math_round_le. change (inject_Z 0) with 0%Q.
  apply Qmult_le_0_compat; [exact Hprice | discriminate].
Qed.

(** ** What a checkout reports and touches *)

(** [X2] With no negative price or quantity in the cart and a coupon
    percentage between 0 and 100, the total a successful checkout reports is
    never negative and never above the undiscounted total. *)
Theorem reported_total_within_bounds env req s r :
  (forall p, In p (products req) -> (0 <= Product.price p)%Q /\ 0 <= Product.quantity p) ->
  (forall c, coupon_of_request req s = Some c -> percentage (Coupon.discountPercentage c)) ->
  fst (createCheckoutSession env req s) = Some r -> status r = 200 ->
  exists final,
    json r = body_checkout (new_session_id env) (major_units final)
    /\ 0 <= final <= cart_total (products req).
Proof.
  intros Hcart Hpct Hr Hst.
  assert (Hne : products req <> []).
  { intros E. unfold createCheckoutSession in Hr. rewrite E in Hr. cbn in Hr.
    injection Hr as <-. discriminate. }
  exists (discounted (cart_total (products req)) (coupon_of_request req s)).
  split; [now apply checkout_success_body |].
  pose proof (cart_total_nonneg _ Hcart) as HT.
  destruct (coupon_of_request req s) as [c |] eqn:Ec; cbn [discounted]; [| lia].
  apply (apply_discount_bounds _ _ HT (Hpct c eq_refl)).
Qed.

Lemma reported_total_within_bounds_witness :
  exists final,
    json (mkResponse 200 (body_checkout "cs_1" (major_units 4048)))
    = body_checkout (new_session_id env_ok) (major_units final)
    /\ 0 <= final <= cart_total (products scenario_request).
Proof.
  apply (reported_total_within_bounds env_ok scenario_request (store_expiring 5000)).
  - intros p [<- | [<- | []]]; split; discriminate.
  - intros c [= <-]. split; discriminate.
  - reflexivity.
  - reflexivity.
Defined.

(** [X1] A checkout never writes an Order, never touches the coupons of
    another user and only appends to the requests the gateway has seen; an
    empty cart is answered 400 with the store untouched; and the coupons
    change only when the session has been created at the gateway and the
    total has reached the gift threshold. *)
Theorem checkout_frame env req s :
  let s' := snd (createCheckoutSession env req s) in
  orders s' = orders s
  /\ (exists calls, gateway s' = (gateway s ++ calls)%list)
  /\ (forall other, user_id req <> other ->
                    rows_of other (coupons s') = rows_of other (coupons s))
  /\ (products req = [] ->
      createCheckoutSession env req s
      = (Some (mkResponse 400 (body_error "Invalid or empty products array")), s))
  /\ (coupons s' <> coupons s ->
      gift_threshold <= discounted (cart_total (products req)) (coupon_of_request req s)
      /\ gateway s' = (gateway s ++ gateway_calls env req s)%list).
Proof.
  intros s'. subst s'. unfold gateway_calls, session_params, createCheckoutSession.
  destruct (products req) as [| p ps] eqn:Ep.
  { cbn. repeat split; try (exists []; now rewrite app_nil_r); congruence. }
  run_checkout env; cbn [snd orders coupons gateway record_call set_coupons after_gift];
    (split; [reflexivity |]);
    (split; [first [ now (exists []; rewrite app_nil_r)
                   | now eexists
                   | rewrite <- app_assoc; now eexists ] |]);
    (split; [intros other Hother;
             change (mkFilter None (Some (user_id req)) None) with (by_user (user_id req));
             first [ reflexivity
                   | now apply rows_delete_first_other
                   | unfold rows_of; rewrite filter_app; cbn [filter Coupon.userId gift_coupon];
                     destruct (String.eqb_spec other (user_id req));
                     [congruence | rewrite app_nil_r; now apply rows_delete_first_other] ] |]);
    (split; [discriminate |]);
    intros Hchanged; try congruence;
    (split; [unfold gift_threshold in *; lia
            | first [reflexivity | now rewrite <- app_assoc]]).
Qed.

Lemma checkout_frame_witness :
  orders (snd (createCheckoutSession env_save_fails rug_request (store_expiring 5000)))
  = orders (store_expiring 5000)
  /\ coupons (snd (createCheckoutSession env_save_fails rug_request (store_expiring 5000)))
     = [].
Proof.
  split; [| reflexivity].
  exact (proj1 (checkout_frame env_save_fails rug_request (store_expiring 5000))).
Defined.

(** ** From checkout to settlement *)

Lemma order_items_of_snapshot ps :
  map order_item_of (map snapshot_of ps) = map order_item_of_product ps.
Proof. rewrite map_map. reflexivity. Qed.

Lemma checkout_orders env req s :
  orders (snd (createCheckoutSession env req s)) = orders s.
Proof.
  unfold createCheckoutSession.
  destruct (products req) as [| p ps]; [reflexivity |].
  run_checkout env; reflexivity.
Qed.

(** [X4] The cart survives the trip through the gateway: when the session
    that a checkout created comes back paid with the metadata it was created
    with, the settlement appends one Order of the requesting user whose line
    items are the cart's ids, quantities and prices, in cart order. *)
Theorem cart_round_trip env env' req s sessionId :
  let s1 := snd (createCheckoutSession env req s) in
  let session := retrieve env' sessionId in
  session_created env req s ->
  Session.metadata session = SessionParams.metadata (session_params env req s) ->
  Session.payment_status session = "paid" ->
  no_failure env' ->
  In (SessionsCreate (session_params env req s)) (gateway s1)
  /\ orders (snd (checkoutSuccess env' sessionId s1))
     = (orders s
        ++ [Order.mk (new_object_id env') (user_id req)
                     (map order_item_of_product (products req))
                     (major_units (Session.amount_total session)) sessionId])%list.
Proof.
  intros s1 session Hcreated Hmd Hpaid Hok. subst s1. split.
  - rewrite (checkout_gateway _ _ _ Hcreated). unfold gateway_calls.
    apply in_or_app. right. apply in_or_app. right. now left.
  - rewrite checkoutSuccess_run, !Hok. fold session. cbv zeta.
    rewrite Hpaid, Hmd. cbn [String.eqb Ascii.eqb Bool.eqb].
    cbn [session_params SessionParams.metadata Metadata.products Metadata.couponCode
         Metadata.userId JSON_stringify JSON_parse].
    destruct (truthy_string _); cbn [snd add_order orders];
      rewrite settle_coupon_orders; unfold order_of; rewrite Hmd;
      cbn [session_params SessionParams.metadata Metadata.userId];
      rewrite order_items_of_snapshot;
      now rewrite checkout_orders.
Qed.

Lemma cart_round_trip_witness :
  Order.products
    (last (orders (snd (checkoutSuccess env_ok "cs_1"
                          (snd (createCheckoutSession env_ok scenario_request
                                  (store_expiring 5000))))))
          (Order.mk 0 "" [] 0 ""))
  = [OrderItem.mk "p1" 2 (1999 # 100); OrderItem.mk "p2" 1 (5 # 1)].
Proof.
  assert (Hcreated : session_created env_ok scenario_request (store_expiring 5000))
    by (repeat split; try reflexivity; discriminate).
  rewrite (proj2 (cart_round_trip env_ok env_ok scenario_request (store_expiring 5000) "cs_1"
                    Hcreated eq_refl eq_refl (fun _ => eq_refl))).
  reflexivity.
Defined.

Lemma no_match_in_rows f user l :
  by_userId f = Some user ->
  (forall c, In c (rows_of user l) -> matches f c = false) ->
  find (matches f) l = None.
Proof.
  intros Hu Hrows. induction l as [| c l IH]; simpl; [reflexivity |].
  assert (Hrest : forall c', In c' (rows_of user l) -> matches f c' = false).
  { intros c' Hc'. apply Hrows. simpl.
    destruct (String.eqb user (Coupon.userId c)); [now right | exact Hc']. }
  destruct (matches f c) eqn:E; [| now apply IH].
  assert (Hmine : String.eqb user (Coupon.userId c) = true).
  { unfold matches in E. rewrite Hu in E. cbn [field_ok] in E.
    apply andb_prop in E as [E _]. now apply andb_prop in E as [_ E]. }
  rewrite (Hrows c) in E; [discriminate |]. simpl. rewrite Hmine. now left.
Qed.

Lemma checkout_success_store env req s r :
  fst (createCheckoutSession env req s) = Some r -> status r = 200 ->
  gift_threshold <= discounted (cart_total (products req)) (coupon_of_request req s) ->
  coupons (snd (createCheckoutSession env req s))
  = coupons (after_gift env (user_id req) s).
Proof.
  unfold createCheckoutSession.
  destruct (products req) as [| p ps] eqn:Ep.
  { cbn. intros [= <-]. discriminate. }
  run_checkout env; intros [= <-]; cbn [status]; intros Hst Hge; try discriminate;
    try reflexivity; unfold gift_threshold in *; lia.
Qed.

(** [X5] A large checkout paid with a coupon: the checkout replaces the
    user's coupon by the gift before any payment, so the settlement of that
    session finds no coupon with the used code to deactivate and the gift
    stays the user's one active coupon, provided the gift's random code is
    not the code that was used. *)
Theorem gift_survives_settlement env env' req s sessionId r :
  let user := user_id req in
  let s1 := snd (createCheckoutSession env req s) in
  let md := Session.metadata (retrieve env' sessionId) in
  one_row_per_user s ->
  fst (createCheckoutSession env req s) = Some r -> status r = 200 ->
  gift_threshold <= discounted (cart_total (products req)) (coupon_of_request req s) ->
  Metadata.userId md = user ->
  Metadata.couponCode md <> Coupon.code (gift_coupon env user) ->
  coupons (snd (checkoutSuccess env' sessionId s1)) = coupons s1
  /\ active_rows_of user (coupons (snd (checkoutSuccess env' sessionId s1)))
     = [gift_coupon env user].
Proof.
  intros user s1 md Hinv Hr Hst Hge Huser Hcode.
  assert (Hs1 : coupons s1 = coupons (after_gift env user s))
    by (now apply (checkout_success_store env req s r)).
  destruct (rows_after_gift env user s Hinv) as (Hrows & Hactive & _).
  assert (Hsame : coupons (snd (checkoutSuccess env' sessionId s1)) = coupons s1).
  { rewrite checkoutSuccess_run.
    assert (Hsettle : coupons (settle_coupon md s1) = coupons s1).
    { unfold settle_coupon. destruct (truthy_string _); [| reflexivity].
      unfold deactivate_first. cbn [coupons set_coupons].
      apply update_first_no_match.
      apply (no_match_in_rows _ user); [now cbn; rewrite Huser |].
      rewrite Hs1, Hrows. intros c [<- | []].
      unfold matches, settlement_filter. cbn [by_code by_userId by_isActive field_ok].
      destruct (String.eqb_spec (Metadata.couponCode md)
                  (Coupon.code (gift_coupon env user))); [contradiction | reflexivity]. }
    fold md.
    destruct (fails env' sessions_retrieve_op); [reflexivity |]. cbv zeta. fold md.
    destruct (String.eqb _ "paid"); [| reflexivity].
    destruct (if truthy_string _ then _ else _); [reflexivity |].
    destruct (JSON_parse _); [| exact Hsettle].
    destruct (fails env' Order_save_op); exact Hsettle. }
  split; [exact Hsame |]. now rewrite Hsame, Hs1.
Qed.

Lemma gift_survives_settlement_witness :
  active_rows_of "u1"
    (coupons (snd (checkoutSuccess env_ok "cs_1"
                     (snd (createCheckoutSession env_ok
                             (mkCheckoutRequest [Product.mk "p3" "Rug" "rug.png" (400 # 1) 1]
                                                (Some "SAVE10") "u1")
                             (store_expiring 5000))))))
  = [gift_coupon env_ok "u1"].
Proof.
  apply (gift_survives_settlement env_ok env_ok
           (mkCheckoutRequest [Product.mk "p3" "Rug" "rug.png" (400 # 1) 1]
                              (Some "SAVE10") "u1")
           (store_expiring 5000) "cs_1"
           (mkResponse 200 (body_checkout "cs_1" (major_units 36000)))).
  - apply store_expiring_one_row.
  - reflexivity.
  - reflexivity.
  - vm_compute. discriminate.
  - reflexivity.
  - discriminate.
Defined.

(** ** Reads after writes on the coupons *)


Lemma find_app_none {A} (p : A -> bool) l1 l2 :
  find p l1 = None -> find p (l1 ++ l2) = find p l2.
Proof.
  induction l1 as [| x l1 IH]; simpl; [reflexivity |].
  destruct (p x); [discriminate | exact IH].
Qed.

Lemma found_in_rows f user l c :
  by_userId f = Some user -> find (matches f) l = Some c -> In c (rows_of user l).
Proof.
  intros Hu Hfind. apply find_some in Hfind as [Hin Hm].
  apply filter_In. split; [exact Hin |].
  unfold matches in Hm. rewrite Hu in Hm. cbn [field_ok] in Hm.
  apply andb_prop in Hm as [Hm _]. now apply andb_prop in Hm as [_ Hm].
Qed.

Lemma inactive_no_match f c :
  by_isActive f = Some true -> Coupon.isActive c = false -> matches f c = false.
Proof.
  intros Hf Hc. unfold matches. rewrite Hf. cbn [field_ok]. rewrite Hc.
  apply andb_false_r.
Qed.

Lemma rows_update_first_single f user l c :
  by_userId f = Some user -> find (matches f) l = Some c ->
  (List.length (rows_of user l) <= 1)%nat ->
  rows_of user (update_first f Coupon.deactivate l) = [Coupon.deactivate c].
Proof.
  intros Hu. induction l as [| x l IH]; simpl; [discriminate |].
  destruct (matches f x) eqn:E.
  - intros [= <-] Hlen.
    assert (Hx : In x (rows_of user (x :: l))).
    { apply (found_in_rows f); [exact Hu |]. simpl. now rewrite E. }
    simpl in Hx. simpl.
    destruct (String.eqb user (Coupon.userId x)) eqn:Ex.
    + simpl in Hlen. destruct (rows_of user l); [reflexivity | simpl in Hlen; lia].
    + exfalso. apply filter_In in Hx as [_ Hx]. congruence.
  - intros Hfind Hlen. simpl.
    pose proof (found_in_rows f user l c Hu Hfind) as Hin.
    destruct (String.eqb user (Coupon.userId x)).
    + simpl in Hlen. destruct (rows_of user l); [contradiction | simpl in Hlen; lia].
    + now apply IH.
Qed.

(** [X6] Lazy expiry sticks: in a store with one coupon row per user, once
    [validateCoupon] has answered "Coupon expired", validating the same code
    again answers "Coupon not found" and [getCoupon] answers null for that
    user. *)
Theorem expired_then_not_found env env' code user s :
  let s1 := snd (validateCoupon env code user s) in
  one_row_per_user s ->
  fst (validateCoupon env code user s)
  = Some (mkResponse 404 (body_message "Coupon expired")) ->
  fails env' Coupon_findOne_op = None ->
  validateCoupon env' code user s1
  = (Some (mkResponse 404 (body_message "Coupon not found")), s1)
  /\ getCoupon env' user s1 = (Some (mkResponse 200 (body_coupon None)), s1).
Proof.
  intros s1 Hinv Hexp Hfind. subst s1. revert Hexp.
  rewrite (validateCoupon_run env).
  destruct (fails env Coupon_findOne_op); [discriminate |].
  destruct (active_coupon code user (coupons s)) as [c |] eqn:Ec; [| discriminate].
  destruct (_ <? _); [| discriminate].
  destruct (fails env Coupon_save_op); [discriminate |]. intros _. cbn [snd].
  rewrite active_coupon_find in Ec.
  assert (Hrows : rows_of user (coupons (deactivate_first (full_filter code user) s))
                  = [Coupon.deactivate c]).
  { unfold deactivate_first. cbn [coupons set_coupons].
    apply rows_update_first_single; [reflexivity | exact Ec | apply Hinv]. }
  assert (Hnone : forall f, by_userId f = Some user -> by_isActive f = Some true ->
            find (matches f) (coupons (deactivate_first (full_filter code user) s)) = None).
  { intros f Hu Ha. apply (no_match_in_rows f user _ Hu).
    rewrite Hrows. intros c' [<- | []]. now apply inactive_no_match. }
  split.
  - rewrite validateCoupon_run, Hfind, active_coupon_find.
    now rewrite (Hnone (full_filter code user) eq_refl eq_refl).
  - unfold getCoupon. unfold_ops. rewrite Hfind, find_first_find.
    now rewrite (Hnone (mkFilter None (Some user) (Some true)) eq_refl eq_refl).
Qed.

Lemma expired_then_not_found_witness :
  fst (validateCoupon env_ok "SAVE10" "u1"
         (snd (validateCoupon env_ok "SAVE10" "u1" (store_expiring 500))))
  = Some (mkResponse 404 (body_message "Coupon not found")).
Proof.
  rewrite (proj1 (expired_then_not_found env_ok env_ok "SAVE10" "u1" (store_expiring 500)
                    (store_expiring_one_row 500) eq_refl eq_refl)).
  reflexivity.
Defined.

(** [X7] After a successful checkout that reached the gift threshold,
    [getCoupon] answers with the gift coupon: it is the user's first active
    coupon, whatever coupon the user held before.  [getCoupon] leaves the
    store as it is. *)
Theorem getCoupon_after_gift env env' req s r :
  let s1 := snd (createCheckoutSession env req s) in
  one_row_per_user s ->
  fst (createCheckoutSession env req s) = Some r -> status r = 200 ->
  gift_threshold <= discounted (cart_total (products req)) (coupon_of_request req s) ->
  fails env' Coupon_findOne_op = None ->
  getCoupon env' (user_id req) s1
  = (Some (mkResponse 200 (body_coupon (Some (gift_coupon env (user_id req))))), s1).
Proof.
  intros s1 Hinv Hr Hst Hge Hfind.
  assert (Hs1 : coupons s1 = coupons (after_gift env (user_id req) s))
    by (now apply (checkout_success_store env req s r)).
  unfold getCoupon. unfold_ops. rewrite Hfind, find_first_find, Hs1.
  unfold after_gift. cbn [coupons set_coupons].
  change (mkFilter None (Some (user_id req)) None) with (by_user (user_id req)).
  rewrite find_app_none.
  - cbn [find]. unfold matches. cbn. now rewrite String.eqb_refl.
  - apply (no_match_in_rows _ (user_id req)); [reflexivity |].
    rewrite rows_delete_first_same. specialize (Hinv (user_id req)).
    destruct (rows_of (user_id req) (coupons s)) as [| c [| c' l]];
      simpl in *; try contradiction; lia.
Qed.

Lemma getCoupon_after_gift_witness :
  fst (getCoupon env_ok "u1"
         (snd (createCheckoutSession env_ok rug_request (store_expiring 500))))
  = Some (mkResponse 200
            (body_coupon (Some (Coupon.mk "GIFTABC123" (10 # 1) 2592001000 true "u1")))).
Proof.
  change "u1" with (user_id rug_request) at 1.
  rewrite (getCoupon_after_gift env_ok env_ok rug_request (store_expiring 500)
             (mkResponse 200 (body_checkout "cs_1" (major_units 20000)))
             (store_expiring_one_row 500) eq_refl eq_refl).
  - reflexivity.
  - vm_compute. discriminate.
  - reflexivity.
Defined.

(** ** Settlement is not atomic, and flags only go down *)

(** [X8] A settlement deactivates the coupon before it builds the Order:
    when the session is paid and carries a coupon code but the cart snapshot
    does not parse, or saving the Order is rejected, the answer is the 500
    failure and no Order exists, yet the coupon has already been
    deactivated. *)
Theorem settlement_failure_keeps_deactivation env sessionId s :
  let md := Session.metadata (retrieve env sessionId) in
  let s' := snd (checkoutSuccess env sessionId s) in
  fails env sessions_retrieve_op = None ->
  Session.payment_status (retrieve env sessionId) = "paid" ->
  Metadata.couponCode md <> "" ->
  fails env Coupon_findOneAndUpdate_op = None ->
  JSON_parse (Metadata.products md) = None \/ fails env Order_save_op <> None ->
  (exists m, fst (checkoutSuccess env sessionId s) = settlement_failure m)
  /\ orders s' = orders s
  /\ coupons s' = update_first (settlement_filter md) Coupon.deactivate (coupons s).
Proof.
  intros md s' Hret Hpaid Hcode Hupd Hbroken. subst s'.
  rewrite checkoutSuccess_run, Hret. cbv zeta. fold md.
  rewrite Hpaid. cbn [String.eqb Ascii.eqb Bool.eqb].
  assert (Ht : truthy_string (Metadata.couponCode md) = true).
  { unfold truthy_string. now destruct (String.eqb_spec (Metadata.couponCode md) ""). }
  assert (Hs : settle_coupon md s = deactivate_first (settlement_filter md) s).
  { unfold settle_coupon. now rewrite Ht. }
  rewrite Ht, Hupd, Hs.
  destruct (JSON_parse (Metadata.products md)) as [items |].
  - destruct Hbroken as [Hparse | Hsave]; [discriminate |].
    destruct (fails env Order_save_op) as [m |]; [| congruence].
    cbn [fst snd]. repeat split. now exists m.
  - cbn [fst snd]. repeat split. now eexists.
Qed.

Lemma settlement_failure_keeps_deactivation_witness :
  let env := env_at (fun op => match op with Order_save_op => Some "down" | _ => None end)
                    paid_session in
  orders (snd (checkoutSuccess env "cs_1" (store_expiring 5000))) = []
  /\ coupons (snd (checkoutSuccess env "cs_1" (store_expiring 5000)))
     = [Coupon.mk "SAVE10" (10 # 1) 5000 false "u1"].
Proof.
  intros env.
  destruct (settlement_failure_keeps_deactivation env "cs_1" (store_expiring 5000))
    as (_ & Ho & Hc); try reflexivity; try discriminate.
  - right. discriminate.
  - split; [exact Ho | exact Hc].
Defined.

Lemma update_first_same_or_deactivated f l :
  Forall2 same_or_deactivated l (update_first f Coupon.deactivate l).
Proof.
  assert (Hrefl : forall l', Forall2 same_or_deactivated l' l').
  { induction l'; constructor; [now left | assumption]. }
  induction l as [| c l IH]; simpl; [constructor |].
  destruct (matches f c); constructor; auto; [now right | now left].
Qed.

(** [X9] Settlement, validation and [getCoupon] never add or remove a coupon
    and never set an active flag: after any of them every coupon document is
    the one that was there, or that one with its flag cleared.  Only a
    checkout deletes or inserts coupons. *)
Theorem coupons_only_deactivated env r s :
  (forall req, r <> POST_create_checkout_session req) ->
  Forall2 same_or_deactivated (coupons s) (coupons (snd (handle env r s))).
Proof.
  assert (Hrefl : forall l, Forall2 same_or_deactivated l l).
  { induction l; constructor; [now left | assumption]. }
  intros Hr. destruct r as [req | sessionId | user | code user]; cbn [handle].
  - now elim (Hr req).
  - rewrite checkoutSuccess_run.
    assert (Hs : forall md, Forall2 same_or_deactivated (coupons s)
                              (coupons (settle_coupon md s))).
    { intros md. unfold settle_coupon. destruct (truthy_string _); [| apply Hrefl].
      apply update_first_same_or_deactivated. }
    destruct (fails env sessions_retrieve_op); [apply Hrefl |]. cbv zeta.
    destruct (String.eqb _ "paid"); [| apply Hrefl].
    destruct (if truthy_string _ then _ else _); [apply Hrefl |].
    destruct (JSON_parse _); [| apply Hs].
    destruct (fails env Order_save_op); apply Hs.
  - rewrite getCoupon_store. apply Hrefl.
  - rewrite validateCoupon_run.
    destruct (fails env Coupon_findOne_op); [apply Hrefl |].
    destruct (active_coupon code user (coupons s)); [| apply Hrefl].
    destruct (_ <? _); [| apply Hrefl].
    destruct (fails env Coupon_save_op); [apply Hrefl |].
    apply update_first_same_or_deactivated.
Qed.

Lemma coupons_only_deactivated_witness :
  Forall2 same_or_deactivated (coupons (store_expiring 500))
          (coupons (snd (handle env_ok (POST_validate_coupon "SAVE10" "u1")
                           (store_expiring 500)))).
Proof.
  apply coupons_only_deactivated. discriminate.
Defined.





(** * Beyond the specified properties: the cart *)

Lemma find_item_none_iff productId cart :
  find_item productId cart = None <-> ~ In productId (cart_ids cart).
Proof.
  unfold find_item, cart_ids, is_item.
  induction cart as [| item rest IH]; simpl; [tauto |].
  destruct (String.eqb_spec (CartItem.id item) productId) as [E | E].
  - split; [discriminate | intros H; elim H; now left].
  - rewrite IH. tauto.
Qed.

Lemma find_item_none_filter productId cart :
  find_item productId cart = None -> filter (is_item productId) cart = [].
Proof.
  unfold find_item. induction cart as [| item rest IH]; simpl; [reflexivity |].
  destruct (is_item productId item); [discriminate | exact IH].
Qed.

Lemma set_found_quantity_ids productId f cart :
  cart_ids (set_found_quantity productId f cart) = cart_ids cart.
Proof.
  unfold cart_ids. induction cart as [| item rest IH]; simpl; [reflexivity |].
  destruct (is_item productId item); simpl; [reflexivity | now rewrite IH].
Qed.

Lemma set_found_quantity_other productId other f cart :
  other <> productId ->
  filter (is_item other) (set_found_quantity productId f cart)
  = filter (is_item other) cart.
Proof.
  intros Hne. induction cart as [| item rest IH]; simpl; [reflexivity |].
  destruct (is_item productId item) eqn:E; simpl.
  - unfold is_item in *. cbn [CartItem.id]. apply String.eqb_eq in E.
    destruct (String.eqb_spec (CartItem.id item) other); [congruence | reflexivity].
  - now rewrite IH.
Qed.

Lemma set_found_quantity_total productId f cart item :
  find_item productId cart = Some item ->
  quantity_in_cart productId (set_found_quantity productId f cart)
  = quantity_in_cart productId cart - CartItem.quantity item + f (CartItem.quantity item).
Proof.
  unfold find_item, quantity_in_cart.
  induction cart as [| x rest IH]; simpl; [discriminate |].
  destruct (is_item productId x) eqn:E.
  - intros [= <-]. simpl. unfold is_item in *. cbn [CartItem.id]. rewrite E. simpl. lia.
  - intros H. simpl. rewrite E. now apply IH.
Qed.

Lemma without_item_other productId other cart :
  other <> productId ->
  filter (is_item other) (without_item productId cart) = filter (is_item other) cart.
Proof.
  intros Hne. unfold without_item. induction cart as [| item rest IH]; simpl; [reflexivity |].
  unfold is_item in *.
  destruct (String.eqb_spec (CartItem.id item) productId) as [E | E]; simpl.
  - destruct (String.eqb_spec (CartItem.id item) other); [congruence | exact IH].
  - destruct (String.eqb (CartItem.id item) other); now rewrite IH.
Qed.

Lemma without_item_gone productId cart :
  filter (is_item productId) (without_item productId cart) = [].
Proof.
  unfold without_item. induction cart as [| item rest IH]; simpl; [reflexivity |].
  destruct (is_item productId item) eqn:E; simpl; [exact IH | now rewrite E].
Qed.

Lemma without_item_idempotent productId cart :
  without_item productId (without_item productId cart) = without_item productId cart.
Proof.
  unfold without_item. induction cart as [| item rest IH]; simpl; [reflexivity |].
  destruct (is_item productId item) eqn:E; simpl; [exact IH |].
  rewrite E. simpl. now rewrite IH.
Qed.

Lemma without_item_ids productId cart :
  NoDup (cart_ids cart) -> NoDup (cart_ids (without_item productId cart)).
Proof.
  unfold cart_ids, without_item.
  induction cart as [| item rest IH]; simpl; intros H; [constructor |].
  inversion H as [| ? ? Hnotin Hrest]; subst.
  destruct (is_item productId item); simpl; [now apply IH |].
  constructor; [| now apply IH].
  intros Hin. apply Hnotin. apply in_map_iff in Hin as (x & Hx & Hin).
  apply filter_In in Hin as [Hin _]. apply in_map_iff. now exists x.
Qed.

Lemma addToCart_quantity env productId cart :
  user_save_fails env = None ->
  quantity_in_cart productId (snd (addToCart env productId cart))
  = quantity_in_cart productId cart + 1.
Proof.
  intros Hsave. unfold addToCart, save_and_answer. rewrite Hsave. cbn [snd].
  destruct (find_item productId cart) as [item |] eqn:Ef.
  - rewrite (set_found_quantity_total _ _ _ _ Ef). lia.
  - unfold quantity_in_cart. rewrite filter_app, (find_item_none_filter _ _ Ef).
    simpl. unfold is_item. cbn [CartItem.id]. now rewrite String.eqb_refl.
Qed.

(** [X11] Adding a product whose save succeeds raises the quantity the cart
    holds of it by exactly one and leaves every other product's items as
    they were: a product not yet in the cart is appended with quantity 1, a
    product already there keeps its place; the response is the stored
    cart. *)
Theorem addToCart_adds_one env productId cart :
  let cart' := snd (addToCart env productId cart) in
  user_save_fails env = None ->
  fst (addToCart env productId cart) = mkCartResponse 200 (cart_items cart')
  /\ quantity_in_cart productId cart' = quantity_in_cart productId cart + 1
  /\ (forall other, other <> productId ->
                    filter (is_item other) cart' = filter (is_item other) cart)
  /\ (~ In productId (cart_ids cart) ->
      cart' = (cart ++ [CartItem.mk productId 1])%list)
  /\ (In productId (cart_ids cart) -> cart_ids cart' = cart_ids cart).
Proof.
  intros cart' Hsave. subst cart'. unfold addToCart, save_and_answer. rewrite Hsave.
  cbn [fst snd].
  destruct (find_item productId cart) as [item |] eqn:Ef.
  - repeat split.
    + rewrite (set_found_quantity_total _ _ _ _ Ef). lia.
    + intros other Hne. now apply set_found_quantity_other.
    + intros Hnot. apply find_item_none_iff in Hnot. congruence.
    + intros _. apply set_found_quantity_ids.
  - repeat split.
    + unfold quantity_in_cart. rewrite filter_app, (find_item_none_filter _ _ Ef).
      simpl. unfold is_item. cbn [CartItem.id]. now rewrite String.eqb_refl.
    + intros other Hne. rewrite filter_app. simpl. unfold is_item. cbn [CartItem.id].
      destruct (String.eqb_spec productId other); [congruence | apply app_nil_r].
    + intros Hin. apply find_item_none_iff in Ef. contradiction.
Qed.

Lemma addToCart_adds_one_witness :
  quantity_in_cart "p1" (snd (addToCart cart_env_ok "p1" tea_cart)) = 3.
Proof.
  rewrite (proj1 (proj2 (addToCart_adds_one cart_env_ok "p1" tea_cart eq_refl))).
  reflexivity.
Defined.

(** [X12] Additions compose: after any run of additions of one product,
    the cart holds of it what it held before plus one for every addition
    whose save succeeded; a rejected save changes nothing. *)
Theorem add_many_counts envs productId : forall cart,
  quantity_in_cart productId (add_many envs productId cart)
  = quantity_in_cart productId cart
    + Z.of_nat (List.length (filter (fun env => match user_save_fails env with
                                                | None => true
                                                | Some _ => false
                                                end) envs)).
Proof.
  induction envs as [| env rest IH]; intros cart; cbn [add_many filter List.length].
  - cbn. lia.
  - rewrite IH. destruct (user_save_fails env) as [m |] eqn:Es.
    + unfold addToCart, save_and_answer. rewrite Es. cbn [snd]. lia.
    + rewrite (addToCart_quantity env productId cart Es).
      cbn [List.length]. lia.
Qed.

Lemma add_many_counts_witness :
  quantity_in_cart "p3"
    (add_many [cart_env_ok; mkCartEnv (Some "down") None []; cart_env_ok] "p3" tea_cart)
  = 2.
Proof.
  rewrite add_many_counts. reflexivity.
Defined.

(** [X13] Removal: with no product id the stored cart becomes empty; with
    one, every item of that product goes and the items of the other products
    stay; removing twice stores what removing once stores, and removing a
    product right after adding it stores what removing it from the original
    cart stores. *)
Theorem removeAllFromCart_removes env env' productId cart :
  user_save_fails env = None ->
  snd (removeAllFromCart env None cart) = []
  /\ snd (removeAllFromCart env (Some "") cart) = []
  /\ (productId <> "" ->
      let cart' := snd (removeAllFromCart env (Some productId) cart) in
      fst (removeAllFromCart env (Some productId) cart)
      = mkCartResponse 200 (cart_items cart')
      /\ ~ In productId (cart_ids cart')
      /\ quantity_in_cart productId cart' = 0
      /\ (forall other, other <> productId ->
                        filter (is_item other) cart' = filter (is_item other) cart)
      /\ snd (removeAllFromCart env (Some productId) cart') = cart'
      /\ snd (removeAllFromCart env (Some productId)
                (snd (addToCart env' productId cart))) = cart').
Proof.
  intros Hsave. unfold removeAllFromCart, save_and_answer. rewrite Hsave.
  cbn [truthy_code truthy_string String.eqb negb fst snd].
  split; [reflexivity |]. split; [reflexivity |].
  intros Hne. unfold truthy_string.
  destruct (String.eqb_spec productId ""); [contradiction |].
  cbn [negb code_or_empty fst snd].
  assert (Hgone : filter (is_item productId) (without_item productId cart) = [])
    by apply without_item_gone.
  repeat split.
  - intros Hin. apply in_map_iff in Hin as (item & Hid & Hin).
    assert (Hi : In item (filter (is_item productId) (without_item productId cart))).
    { apply filter_In. split; [exact Hin |]. unfold is_item. rewrite Hid.
      apply String.eqb_refl. }
    now rewrite Hgone in Hi.
  - unfold quantity_in_cart. now rewrite Hgone.
  - intros other Hother. now apply without_item_other.
  - apply without_item_idempotent.
  - unfold addToCart, save_and_answer.
    destruct (user_save_fails env'); cbn [snd]; [reflexivity |].
    destruct (find_item productId cart) as [item |] eqn:Ef.
    + unfold without_item.
      clear Hgone Ef. induction cart as [| x rest IH]; simpl; [reflexivity |].
      destruct (is_item productId x) eqn:E; simpl.
      * unfold is_item in *. cbn [CartItem.id]. now rewrite E.
      * rewrite E. simpl. now rewrite IH.
    + unfold without_item. rewrite filter_app. simpl. unfold is_item at 2.
      cbn [CartItem.id]. rewrite String.eqb_refl. simpl. apply app_nil_r.
Qed.

Lemma removeAllFromCart_removes_witness :
  snd (removeAllFromCart cart_env_ok (Some "p1") tea_cart) = [CartItem.mk "p2" 1]
  /\ snd (removeAllFromCart cart_env_ok (Some "p1")
            (snd (addToCart cart_env_ok "p1" tea_cart)))
     = snd (removeAllFromCart cart_env_ok (Some "p1") tea_cart).
Proof.
  pose proof (removeAllFromCart_removes cart_env_ok cart_env_ok "p1" tea_cart eq_refl)
    as (_ & _ & H).
  destruct H as (_ & _ & _ & _ & _ & H); [discriminate |].
  split; [reflexivity | exact H].
Defined.

Lemma find_item_some_in productId cart item :
  find_item productId cart = Some item -> In productId (cart_ids cart).
Proof.
  intros H. destruct (in_dec string_dec productId (cart_ids cart)) as [Hin | Hnot];
    [exact Hin |].
  apply find_item_none_iff in Hnot. congruence.
Qed.

Lemma nodup_single_item productId cart item :
  NoDup (cart_ids cart) -> find_item productId cart = Some item ->
  filter (is_item productId) cart = [item].
Proof.
  unfold find_item, cart_ids.
  induction cart as [| x rest IH]; simpl; [discriminate |].
  intros Hnd. inversion Hnd as [| ? ? Hnotin Hrest]; subst.
  destruct (is_item productId x) eqn:E.
  - intros [= <-]. f_equal. apply find_item_none_filter. apply find_item_none_iff.
    unfold is_item in E. apply String.eqb_eq in E. now rewrite <- E.
  - now apply IH.
Qed.

(** [X14] Updating a quantity: for a product that is not in the cart the
    answer is 404 and nothing is saved; quantity 0 stores the cart without
    the product, as a removal does; any other quantity, negative ones
    included, is stored as given on the product's first item, and when the
    ids of the cart are distinct the cart then holds exactly that quantity
    of the product, with the same ids in the same order and the other items
    untouched. *)
Theorem updateQuantity_outcomes env productId quantity cart :
  (~ In productId (cart_ids cart) ->
   updateQuantity env productId quantity cart
   = (mkCartResponse 404 (cart_message "Product not found"), cart))
  /\ (In productId (cart_ids cart) -> user_save_fails env = None ->
      let cart' := snd (updateQuantity env productId quantity cart) in
      fst (updateQuantity env productId quantity cart)
      = mkCartResponse 200 (cart_items cart')
      /\ (quantity = 0 -> cart' = without_item productId cart)
      /\ (quantity <> 0 ->
          cart_ids cart' = cart_ids cart
          /\ (forall other, other <> productId ->
                            filter (is_item other) cart' = filter (is_item other) cart)
          /\ (NoDup (cart_ids cart) -> quantity_in_cart productId cart' = quantity))).
Proof.
  unfold updateQuantity, save_and_answer. split.
  - intros Hnot. apply find_item_none_iff in Hnot. now rewrite Hnot.
  - intros Hin Hsave. rewrite Hsave.
    destruct (find_item productId cart) as [item |] eqn:Ef;
      [| apply find_item_none_iff in Ef; contradiction].
    destruct (Z.eqb_spec quantity 0) as [-> | Hq]; cbn [fst snd].
    + repeat split; intros; congruence.
    + repeat split; try congruence.
      * apply set_found_quantity_ids.
      * intros other Hother. now apply set_found_quantity_other.
      * intros Hnd. rewrite (set_found_quantity_total _ _ _ _ Ef).
        unfold quantity_in_cart. rewrite (nodup_single_item _ _ _ Hnd Ef). simpl. lia.
Qed.

Lemma updateQuantity_outcomes_witness :
  snd (updateQuantity cart_env_ok "p1" (-4) tea_cart)
  = [CartItem.mk "p1" (-4); CartItem.mk "p2" 1]
  /\ quantity_in_cart "p1" (snd (updateQuantity cart_env_ok "p1" (-4) tea_cart)) = -4.
Proof.
  split; [reflexivity |].
  destruct (proj2 (updateQuantity_outcomes cart_env_ok "p1" (-4) tea_cart))
    as (_ & _ & H); [left; reflexivity | reflexivity |].
  destruct H as (_ & _ & H); [discriminate |].
  apply H. repeat constructor; simpl; intuition discriminate.
Defined.

Lemma handle_cart_stored env r cart :
  snd (handle_cart env r cart) = cart
  \/ (user_save_fails env = None
      /\ match r with
         | GET_cart => False
         | POST_cart productId =>
             snd (handle_cart env r cart)
             = match find_item productId cart with
               | Some _ => set_found_quantity productId (fun q => q + 1) cart
               | None => (cart ++ [CartItem.mk productId 1])%list
               end
         | DELETE_cart productId =>
             snd (handle_cart env r cart)
             = if negb (truthy_code productId) then []
               else without_item (code_or_empty productId) cart
         | PUT_cart productId quantity =>
             find_item productId cart <> None
             /\ snd (handle_cart env r cart)
                = if quantity =? 0 then without_item productId cart
                  else set_found_quantity productId (fun _ => quantity) cart
         end).
Proof.
  destruct r as [| productId | productId | productId quantity]; cbn [handle_cart].
  - left. unfold getCartProducts. destruct (Product_find_fails env); [reflexivity |].
    now destruct (attach_quantities _ _).
  - unfold addToCart, save_and_answer.
    destruct (user_save_fails env); [now left | right; now split].
  - unfold removeAllFromCart, save_and_answer.
    destruct (user_save_fails env); [now left | right; now split].
  - unfold updateQuantity, save_and_answer.
    destruct (find_item productId cart); [| now left].
    destruct (user_save_fails env);
      [destruct (quantity =? 0); now left |].
    right. split; [reflexivity |]. split; [discriminate |].
    now destruct (quantity =? 0).
Qed.

(** [X15] Whatever the request and whatever is rejected, a cart whose
    product ids are distinct keeps distinct ids: an addition of a product
    already there raises its quantity instead of adding an item. *)
Theorem cart_ids_stay_distinct env r cart :
  NoDup (cart_ids cart) -> NoDup (cart_ids (snd (handle_cart env r cart))).
Proof.
  intros Hnd.
  destruct (handle_cart_stored env r cart) as [-> | [_ H]]; [exact Hnd |].
  destruct r as [| productId | productId | productId quantity]; [contradiction | | |].
  - rewrite H. destruct (find_item productId cart) eqn:Ef.
    + now rewrite set_found_quantity_ids.
    + unfold cart_ids. rewrite map_app. simpl.
      apply NoDup_app_remove_l with (l := []). simpl.
      apply find_item_none_iff in Ef.
      apply (Permutation_NoDup (l := productId :: map CartItem.id cart)).
      * apply Permutation_cons_append.
      * now constructor.
  - rewrite H. destruct (negb _); [constructor | now apply without_item_ids].
  - destruct H as [_ ->]. destruct (quantity =? 0);
      [now apply without_item_ids | now rewrite set_found_quantity_ids].
Qed.

Lemma cart_ids_stay_distinct_witness :
  NoDup (cart_ids (snd (handle_cart cart_env_ok (POST_cart "p1") tea_cart))).
Proof.
  apply cart_ids_stay_distinct. repeat constructor; simpl; intuition discriminate.
Defined.

Lemma set_found_quantity_forall (P : Z -> Prop) productId f cart :
  (forall q, P q -> P (f q)) ->
  Forall (fun item => P (CartItem.quantity item)) cart ->
  Forall (fun item => P (CartItem.quantity item)) (set_found_quantity productId f cart).
Proof.
  intros Hf. induction 1 as [| x rest Hx Hrest IH]; simpl; [constructor |].
  destruct (is_item productId x); constructor; cbn [CartItem.quantity]; auto.
Qed.

(** [X16] Quantities stay at 1 or more: if every item of the cart has a
    quantity of at least 1, so has every item after any request, provided an
    update asks for a quantity that is not negative (0 removes the item);
    the handlers themselves do not check this. *)
Theorem cart_quantities_stay_positive env r cart :
  (forall productId quantity, r = PUT_cart productId quantity -> 0 <= quantity) ->
  Forall (fun item => 1 <= CartItem.quantity item) cart ->
  Forall (fun item => 1 <= CartItem.quantity item) (snd (handle_cart env r cart)).
Proof.
  intros Hput Hpos.
  assert (Hwithout : forall productId,
             Forall (fun item => 1 <= CartItem.quantity item) (without_item productId cart)).
  { intros productId. unfold without_item. apply Forall_forall. intros x Hx.
    apply filter_In in Hx as [Hx _]. revert x Hx. now apply Forall_forall. }
  destruct (handle_cart_stored env r cart) as [-> | [_ H]]; [exact Hpos |].
  destruct r as [| productId | productId | productId quantity]; [contradiction | | |].
  - rewrite H. destruct (find_item productId cart).
    + apply (set_found_quantity_forall (fun q => 1 <= q)); [intros; lia | exact Hpos].
    + apply Forall_app. split; [exact Hpos |]. repeat constructor. cbn. lia.
  - rewrite H. destruct (negb _); [constructor | apply Hwithout].
  - destruct H as [_ ->]. specialize (Hput productId quantity eq_refl).
    destruct (Z.eqb_spec quantity 0); [apply Hwithout |].
    apply (set_found_quantity_forall (fun q => 1 <= q)); [intros; lia | exact Hpos].
Qed.

Lemma cart_quantities_stay_positive_witness :
  Forall (fun item => 1 <= CartItem.quantity item)
         (snd (handle_cart cart_env_ok (PUT_cart "p1" 5) tea_cart)).
Proof.
  apply cart_quantities_stay_positive.
  - intros productId quantity [= _ <-]. discriminate.
  - repeat constructor; discriminate.
Defined.

Lemma attach_quantities_all cart answer :
  (forall p, In p answer -> In (ProductDoc._id p) (cart_ids cart)) ->
  attach_quantities cart answer = Returned (priced_cart cart answer).
Proof.
  unfold priced_cart, first_quantity.
  induction answer as [| p rest IH]; intros Hall; simpl; [reflexivity |].
  destruct (find_item (ProductDoc._id p) cart) as [item |] eqn:Ef.
  - rewrite IH; [reflexivity |]. intros q Hq. apply Hall. now right.
  - apply find_item_none_iff in Ef. elim Ef. apply Hall. now left.
Qed.

Lemma attach_quantities_missing cart answer p :
  In p answer -> ~ In (ProductDoc._id p) (cart_ids cart) ->
  exists m, attach_quantities cart answer = Thrown m.
Proof.
  intros Hin Hnot. induction answer as [| q rest IH]; simpl; [contradiction |].
  destruct (find_item (ProductDoc._id q) cart) as [item |] eqn:Ef; [| now eexists].
  destruct Hin as [-> | Hin].
  - apply find_item_none_iff in Hnot. congruence.
  - destruct (IH Hin) as [m ->]. now eexists.
Qed.

(** [X17] [getCartProducts] never changes the stored cart.  When every
    product [Product.find] answers with has an item in the cart, the
    response lists those products in the answer's order, each with the
    quantity of the first cart item of its id, so that with distinct ids the
    cart's pre-discount checkout total is the sum of round(price x 100)
    times the quantity held; a product in the answer without an item in the
    cart turns the whole response into a 500. *)
Theorem getCartProducts_quantities env cart :
  let answer := Product_find_answer env in
  Product_find_fails env = None ->
  snd (getCartProducts env cart) = cart
  /\ ((forall p, In p answer -> In (ProductDoc._id p) (cart_ids cart)) ->
      fst (getCartProducts env cart)
      = mkCartResponse 200 (cart_products (priced_cart cart answer))
      /\ map Product._id (priced_cart cart answer) = map ProductDoc._id answer
      /\ (NoDup (cart_ids cart) ->
          cart_total (priced_cart cart answer)
          = sum_Z (map (fun p => Math_round (ProductDoc.price p * inject_Z 100)%Q
                                 * quantity_in_cart (ProductDoc._id p) cart) answer)))
  /\ ((exists p, In p answer /\ ~ In (ProductDoc._id p) (cart_ids cart)) ->
      exists m, fst (getCartProducts env cart)
                = mkCartResponse 500 (cart_failure "Server error" m)).
Proof.
  intros answer Hfind. subst answer. unfold getCartProducts. rewrite Hfind.
  split; [now destruct (attach_quantities _ _) |]. split.
  - intros Hall. rewrite (attach_quantities_all _ _ Hall). cbn [fst].
    split; [reflexivity |]. split.
    + unfold priced_cart. rewrite map_map. reflexivity.
    + intros Hnd. unfold cart_total, priced_cart. rewrite map_map. f_equal.
      apply map_ext_in. intros p Hp. unfold line_total, with_quantity.
      cbn [Product.price Product.quantity]. f_equal.
      unfold first_quantity, quantity_in_cart.
      destruct (find_item (ProductDoc._id p) cart) as [item |] eqn:Ef.
      * rewrite (nodup_single_item _ _ _ Hnd Ef). simpl. lia.
      * now rewrite (find_item_none_filter _ _ Ef).
  - intros (p & Hin & Hnot).
    destruct (attach_quantities_missing _ _ _ Hin Hnot) as [m ->]. now exists m.
Qed.

Lemma getCartProducts_quantities_witness :
  fst (getCartProducts (mkCartEnv None None tea_catalogue) tea_cart)
  = mkCartResponse 200 (cart_products scenario_cart).
Proof.
  apply (proj2 (getCartProducts_quantities (mkCartEnv None None tea_catalogue) tea_cart
                  eq_refl)).
  intros p [<- | [<- | []]]; simpl; auto.
Defined.

(** * Beyond the specified properties: analytics *)

(** ** Totals *)

Lemma checkoutSuccess_success env sessionId s r :
  fst (checkoutSuccess env sessionId s) = Some r -> status r = 200 ->
  exists items,
    orders (snd (checkoutSuccess env sessionId s))
    = (orders s ++ [order_of env sessionId (retrieve env sessionId) items])%list.
Proof.
  rewrite checkoutSuccess_run. unfold settlement_failure.
  destruct (fails env sessions_retrieve_op); [now intros [= <-] |]. cbv zeta.
  destruct (String.eqb _ "paid"); [| discriminate].
  destruct (if truthy_string _ then _ else _); [now intros [= <-] |].
  destruct (JSON_parse _) as [items |]; [| now intros [= <-]].
  destruct (fails env Order_save_op); [now intros [= <-] |].
  intros _ _. exists items. cbn [snd add_order orders]. now rewrite settle_coupon_orders.
Qed.

Lemma handle_orders env r s :
  orders (snd (handle env r s)) = orders s
  \/ exists sessionId res,
       r = POST_checkout_success sessionId
       /\ fst (handle env r s) = Some res /\ status res = 200.
Proof.
  destruct r as [req | sessionId | user | code user]; cbn [handle].
  - left. apply checkout_orders.
  - destruct (checkoutSuccess_orders env sessionId s) as [(o & _ & Hr & _) | [_ Ho]];
      [right | now left].
    exists sessionId. eexists. split; [reflexivity |]. split; [exact Hr | reflexivity].
  - left. now rewrite getCoupon_store.
  - left. rewrite validateCoupon_run.
    destruct (fails env Coupon_findOne_op); [reflexivity |].
    destruct (active_coupon code user (coupons s)); [| reflexivity].
    destruct (_ <? _); [| reflexivity].
    destruct (fails env Coupon_save_op); reflexivity.
Qed.

Lemma analytics_totals sum os :
  let first := match group_all sum os with
               | g :: _ => g
               | [] => SalesGroup.mk 0 0%Q
               end in
  SalesGroup.totalSales first = Z.of_nat (List.length os)
  /\ SalesGroup.totalRevenue first
     = match os with
       | [] => 0%Q
       | _ :: _ => sum (map Order.totalAmount os)
       end.
Proof. destruct os; split; reflexivity. Qed.

(** [X18] The dashboard totals follow the settlements: with its three
    database calls answering, [getAnalyticsData] reports the number of
    Orders as the sales and, as the revenue, 0 when there is no Order and
    otherwise what the database's [$sum] makes of the Orders' amounts in
    document order; a settlement that answers success raises the sales by
    one and puts amount_total / 100 at the end of the amounts that are
    summed; and no other request to the payment or coupon endpoints, and no
    settlement that does not answer success, changes what it reports. *)
Theorem analytics_follow_settlements aenv users products env r s :
  User_countDocuments aenv = Returned users ->
  Product_countDocuments aenv = Returned products ->
  Order_aggregate_fails aenv = None ->
  let s' := snd (handle env r s) in
  exists a a',
    getAnalyticsData aenv s = Returned a
    /\ getAnalyticsData aenv s' = Returned a'
    /\ AnalyticsData.users a = users /\ AnalyticsData.products a = products
    /\ AnalyticsData.totalSales a = Z.of_nat (List.length (orders s))
    /\ AnalyticsData.totalRevenue a
       = match orders s with
         | [] => 0%Q
         | _ :: _ => Order_sum aenv (map Order.totalAmount (orders s))
         end
    /\ AnalyticsData.users a' = users /\ AnalyticsData.products a' = products
    /\ match r with
       | POST_checkout_success sessionId =>
           (exists res, fst (handle env r s) = Some res /\ status res = 200) ->
           AnalyticsData.totalSales a' = AnalyticsData.totalSales a + 1
           /\ AnalyticsData.totalRevenue a'
              = Order_sum aenv
                  (map Order.totalAmount (orders s)
                   ++ [(inject_Z (Session.amount_total (retrieve env sessionId))
                        / inject_Z 100)%Q])
       | _ => a' = a
       end
    /\ ((forall res, fst (handle env r s) = Some res -> status res <> 200) -> a' = a).
Proof.
  intros Hu Hp Ha s'. subst s'. unfold getAnalyticsData. rewrite Hu, Hp, Ha. cbv zeta.
  do 2 eexists. split; [reflexivity |]. split; [reflexivity |].
  cbn [AnalyticsData.totalSales AnalyticsData.totalRevenue AnalyticsData.users
       AnalyticsData.products].
  destruct (analytics_totals (Order_sum aenv) (orders s)) as [Hs1 Hs2]. cbv zeta in Hs1, Hs2.
  split; [reflexivity |]. split; [reflexivity |].
  split; [exact Hs1 |]. split; [exact Hs2 |].
  split; [reflexivity |]. split; [reflexivity |].
  assert (Hsame : orders (snd (handle env r s)) = orders s ->
                  forall u p,
                    AnalyticsData.mk u p
                      (SalesGroup.totalSales
                         match group_all (Order_sum aenv) (orders (snd (handle env r s))) with
                         | g :: _ => g
                         | [] => SalesGroup.mk 0 0%Q
                         end)
                      (SalesGroup.totalRevenue
                         match group_all (Order_sum aenv) (orders (snd (handle env r s))) with
                         | g :: _ => g
                         | [] => SalesGroup.mk 0 0%Q
                         end)
                    = AnalyticsData.mk u p
                        (SalesGroup.totalSales
                           match group_all (Order_sum aenv) (orders s) with
                           | g :: _ => g
                           | [] => SalesGroup.mk 0 0%Q
                           end)
                        (SalesGroup.totalRevenue
                           match group_all (Order_sum aenv) (orders s) with
                           | g :: _ => g
                           | [] => SalesGroup.mk 0 0%Q
                           end)).
  { intros ->. reflexivity. }
  split.
  - destruct r as [req | sessionId | user | code user].
    + apply Hsame. cbn [handle]. apply checkout_orders.
    + cbn [handle]. intros (res & Hres & Hst).
      destruct (checkoutSuccess_success env sessionId s res Hres Hst) as [items Ho].
      destruct (analytics_totals (Order_sum aenv)
                  (orders (snd (checkoutSuccess env sessionId s)))) as [H1 H2].
      cbv zeta in H1, H2. rewrite H1, H2, Hs1, Ho, length_app, map_app. cbn [List.length map].
      split; [lia |].
      destruct (orders s); reflexivity.
    + apply Hsame. cbn [handle]. now rewrite getCoupon_store.
    + apply Hsame.
      destruct (handle_orders env (POST_validate_coupon code user) s)
        as [H | (sid & res & Hr & _)]; [exact H | discriminate].
  - intros Hno. apply Hsame.
    destruct (handle_orders env r s) as [H | (sid & res & _ & Hr & Hst)]; [exact H |].
    now elim (Hno res Hr).
Qed.

Lemma analytics_follow_settlements_witness :
  exists a a',
    getAnalyticsData analytics_env_ok empty_store = Returned a
    /\ getAnalyticsData analytics_env_ok
         (snd (handle env_ok (POST_checkout_success "cs_1") empty_store)) = Returned a'
    /\ AnalyticsData.totalSales a' = AnalyticsData.totalSales a + 1
    /\ AnalyticsData.totalRevenue a' = exact_sum [(inject_Z 4048 / inject_Z 100)%Q].
Proof.
  destruct (analytics_follow_settlements analytics_env_ok 3 2 env_ok
              (POST_checkout_success "cs_1") empty_store eq_refl eq_refl eq_refl)
    as (a & a' & Ha & Ha' & _ & _ & _ & _ & _ & _ & Hstep & _).
  exists a, a'. split; [exact Ha |]. split; [exact Ha' |].
  apply Hstep. eexists. split; reflexivity.
Defined.

(** ** The days of a range *)

Lemma dates_from_step endDate currentDate :
  dates_from endDate currentDate
  = if currentDate <=? endDate
    then day_of currentDate :: dates_from endDate (currentDate + day_ms)
    else [].
Proof.
  rewrite dates_from_equation_1.
  destruct (Z_le_dec currentDate endDate) as [H | H]; cbn.
  - apply Z.leb_le in H. now rewrite H.
  - apply Z.leb_nle in H. now rewrite H.
Qed.

Lemma day_ms_pos : 0 < day_ms.
Proof. reflexivity. Qed.

Lemma day_of_next date : day_of (date + day_ms) = day_of date + 1.
Proof.
  unfold day_of. replace (date + day_ms) with (date + 1 * day_ms) by lia.
  apply Z.div_add. discriminate.
Qed.

Lemma days_from_succ first n : days_from first (S n) = first :: days_from (first + 1) n.
Proof.
  unfold days_from. cbn [seq map]. f_equal; [lia |].
  rewrite <- seq_shift, map_map. apply map_ext. intros k. lia.
Qed.

Lemma dates_from_days n : forall endDate currentDate,
  currentDate <= endDate ->
  Z.to_nat ((endDate - currentDate) / day_ms + 1) = n ->
  dates_from endDate currentDate = days_from (day_of currentDate) n.
Proof.
  pose proof day_ms_pos as Hpos.
  induction n as [| n IH]; intros endDate currentDate Hle Hn.
  - assert (0 <= (endDate - currentDate) / day_ms) by (apply Z.div_pos; lia). lia.
  - rewrite dates_from_step. apply Z.leb_le in Hle as Hb. rewrite Hb.
    rewrite days_from_succ. f_equal.
    assert (Hstep : (endDate - (currentDate + day_ms)) / day_ms
                    = (endDate - currentDate) / day_ms - 1).
    { replace (endDate - (currentDate + day_ms))
        with (endDate - currentDate + (-1) * day_ms) by lia.
      rewrite Z.div_add by lia. lia. }
    destruct (Z_le_dec (currentDate + day_ms) endDate) as [Hnext | Hnext].
    + rewrite <- day_of_next. apply IH; [exact Hnext |]. rewrite Hstep.
      assert (0 <= (endDate - (currentDate + day_ms)) / day_ms)
        by (apply Z.div_pos; lia).
      lia.
    + rewrite dates_from_step. apply Z.leb_nle in Hnext as Hb'. rewrite Hb'.
      assert (Hzero : (endDate - currentDate) / day_ms = 0)
        by (apply Z.div_small; lia).
      rewrite Hzero in Hn. cbn in Hn. injection Hn as <-. reflexivity.
Qed.

Lemma in_days_from first n d :
  In d (days_from first n) <-> first <= d < first + Z.of_nat n.
Proof.
  unfold days_from. rewrite in_map_iff. split.
  - intros (k & <- & Hk). apply in_seq in Hk. lia.
  - intros H. exists (Z.to_nat (d - first)). split; [lia |]. apply in_seq. lia.
Qed.

Lemma last_day_in_range startDate endDate :
  startDate <= endDate ->
  In (day_of endDate) (getDatesInRange startDate endDate) ->
  startDate mod day_ms <= endDate mod day_ms.
Proof.
  pose proof day_ms_pos as Hpos. intros Hle. unfold getDatesInRange.
  rewrite (dates_from_days _ endDate startDate Hle eq_refl), in_days_from. unfold day_of.
  assert (Hn : 0 <= (endDate - startDate) / day_ms) by (apply Z.div_pos; lia).
  rewrite Z2Nat.id by lia.
  pose proof (Z.div_mod startDate day_ms ltac:(lia)) as Hs.
  pose proof (Z.div_mod endDate day_ms ltac:(lia)) as He.
  pose proof (Z.mod_pos_bound startDate day_ms Hpos) as Bs.
  pose proof (Z.mod_pos_bound endDate day_ms Hpos) as Be.
  set (a := startDate / day_ms) in *. set (b := endDate / day_ms) in *.
  set (r1 := startDate mod day_ms) in *. set (r2 := endDate mod day_ms) in *.
  destruct (Z_le_dec r1 r2) as [Hr | Hr]; [intros _; exact Hr |].
  assert (Hq : (endDate - startDate) / day_ms = b - a - 1).
  { symmetry. apply Z.div_unique with (r := day_ms + r2 - r1); [lia |].
    rewrite Hs, He. ring. }
  rewrite Hq. lia.
Qed.

(** [X19] The days of a range: none when the end is before the start;
    otherwise the day of the start and the days after it, one per whole 24
    hours that fit between start and end.  The day of the end is therefore
    among them exactly when the end's time of day is not earlier than the
    start's. *)
Theorem getDatesInRange_days startDate endDate :
  (endDate < startDate -> getDatesInRange startDate endDate = [])
  /\ (startDate <= endDate ->
      getDatesInRange startDate endDate
      = days_from (day_of startDate) (Z.to_nat ((endDate - startDate) / day_ms + 1))
      /\ (In (day_of endDate) (getDatesInRange startDate endDate)
          <-> startDate mod day_ms <= endDate mod day_ms)).
Proof.
  pose proof day_ms_pos as Hpos. unfold getDatesInRange. split.
  - intros Hlt. rewrite dates_from_step.
    destruct (Z.leb_spec startDate endDate); [lia | reflexivity].
  - intros Hle.
    assert (Hdays := dates_from_days _ endDate startDate Hle eq_refl).
    split; [exact Hdays |]. rewrite Hdays, in_days_from. unfold day_of.
    assert (Hn : 0 <= (endDate - startDate) / day_ms) by (apply Z.div_pos; lia).
    rewrite Z2Nat.id by lia.
    pose proof (Z.div_mod startDate day_ms ltac:(lia)) as Hs.
    pose proof (Z.div_mod endDate day_ms ltac:(lia)) as He.
    pose proof (Z.mod_pos_bound startDate day_ms Hpos) as Bs.
    pose proof (Z.mod_pos_bound endDate day_ms Hpos) as Be.
    set (a := startDate / day_ms) in *. set (b := endDate / day_ms) in *.
    set (r1 := startDate mod day_ms) in *. set (r2 := endDate mod day_ms) in *.
    assert (Hab : a <= b) by (apply Z.div_le_mono; lia).
    destruct (Z_le_dec r1 r2) as [Hr | Hr].
    + assert (Hq : (endDate - startDate) / day_ms = b - a).
      { symmetry. apply Z.div_unique with (r := r2 - r1); [lia |]. rewrite Hs, He. ring. }
      rewrite Hq. split; [intros _; exact Hr | intros _; lia].
    + assert (Hq : (endDate - startDate) / day_ms = b - a - 1).
      { symmetry. apply Z.div_unique with (r := day_ms + r2 - r1); [lia |].
        rewrite Hs, He. ring. }
      rewrite Hq. split; [lia | intros; lia].
Qed.

Lemma getDatesInRange_days_witness :
  getDatesInRange (12 * 3600000) (day_ms + 6 * 3600000) = [0]
  /\ ~ In (day_of (day_ms + 6 * 3600000))
          (getDatesInRange (12 * 3600000) (day_ms + 6 * 3600000)).
Proof.
  destruct (proj2 (getDatesInRange_days (12 * 3600000) (day_ms + 6 * 3600000)))
    as [Hdays Hend]; [discriminate |].
  split; [exact Hdays |]. intros Hin. apply Hend in Hin. vm_compute in Hin. now apply Hin.
Defined.

(** ** Sales per day *)

Lemma amounts_on_add_sale d day a buckets :
  amounts_on d (add_sale day a buckets)
  = (amounts_on d buckets ++ if day =? d then [a] else [])%list.
Proof.
  unfold amounts_on. induction buckets as [| b rest IH]; cbn [add_sale find].
  - cbn [DayBucket._id]. destruct (day =? d); reflexivity.
  - destruct (Z.eqb_spec (DayBucket._id b) day) as [E | E]; cbn [find DayBucket._id].
    + rewrite E. destruct (day =? d); cbn [DayBucket.amounts];
        [reflexivity | now rewrite app_nil_r].
    + destruct (Z.eqb_spec (DayBucket._id b) d) as [E' | E']; [| exact IH].
      destruct (Z.eqb_spec day d); [congruence | now rewrite app_nil_r].
Qed.

Lemma amounts_on_fold d os : forall buckets,
  amounts_on d
    (fold_left (fun bs o => add_sale (day_of (Sale.createdAt o)) (Sale.totalAmount o) bs)
               os buckets)
  = (amounts_on d buckets ++ map Sale.totalAmount (filter (on_day d) os))%list.
Proof.
  induction os as [| o os IH]; intros buckets; cbn [fold_left filter map].
  - now rewrite app_nil_r.
  - rewrite IH, amounts_on_add_sale, <- app_assoc. f_equal.
    change (day_of (Sale.createdAt o) =? d) with (on_day d o).
    destruct (on_day d o); reflexivity.
Qed.

Lemma add_sale_ids day a buckets :
  NoDup (map DayBucket._id buckets) -> NoDup (map DayBucket._id (add_sale day a buckets)).
Proof.
  induction buckets as [| b rest IH]; simpl; intros H.
  - repeat constructor. auto.
  - inversion H as [| ? ? Hnotin Hrest]; subst.
    destruct (Z.eqb_spec (DayBucket._id b) day) as [E | E]; simpl.
    + rewrite <- E. now constructor.
    + constructor; [| now apply IH].
      intros Hin. apply Hnotin. clear IH H Hrest Hnotin.
      induction rest as [| h rest IH]; simpl in *; [intuition congruence |].
      destruct (DayBucket._id h =? day) eqn:Eh; simpl in *.
      * apply Z.eqb_eq in Eh. intuition congruence.
      * intuition.
Qed.

Lemma add_sale_nonempty day a buckets :
  Forall (fun b => DayBucket.amounts b <> []) buckets ->
  Forall (fun b => DayBucket.amounts b <> []) (add_sale day a buckets).
Proof.
  induction 1 as [| b rest Hb Hrest IH]; simpl.
  - repeat constructor. discriminate.
  - destruct (DayBucket._id b =? day); constructor; auto.
    cbn. intros E. now apply app_eq_nil in E as [_ E].
Qed.

Lemma buckets_of_wf os :
  NoDup (map DayBucket._id (buckets_of os))
  /\ Forall (fun b => DayBucket.amounts b <> []) (buckets_of os).
Proof.
  unfold buckets_of.
  assert (H : forall buckets,
             NoDup (map DayBucket._id buckets)
             /\ Forall (fun b => DayBucket.amounts b <> []) buckets ->
             let buckets' :=
               fold_left (fun bs o => add_sale (day_of (Sale.createdAt o))
                                               (Sale.totalAmount o) bs) os buckets in
             NoDup (map DayBucket._id buckets')
             /\ Forall (fun b => DayBucket.amounts b <> []) buckets').
  { induction os as [| o os IH]; intros buckets [Hnd Hne]; simpl; [now split |].
    apply IH. split; [now apply add_sale_ids | now apply add_sale_nonempty]. }
  apply H. split; constructor.
Qed.

Lemma group_of_ids sum buckets :
  map DayGroup._id (map (group_of sum) buckets) = map DayBucket._id buckets.
Proof. rewrite map_map. reflexivity. Qed.

Lemma find_group_of sum d buckets :
  find (fun item => DayGroup._id item =? d) (map (group_of sum) buckets)
  = option_map (group_of sum) (find (fun b => DayBucket._id b =? d) buckets).
Proof.
  induction buckets as [| b rest IH]; simpl; [reflexivity |].
  destruct (DayBucket._id b =? d); [reflexivity | exact IH].
Qed.

Lemma insert_group_perm g sorted : Permutation (insert_group g sorted) (g :: sorted).
Proof.
  induction sorted as [| h rest IH]; simpl; [reflexivity |].
  destruct (DayGroup._id g <=? DayGroup._id h); [reflexivity |].
  rewrite IH. apply perm_swap.
Qed.

Lemma sort_by_day_perm groups : Permutation (sort_by_day groups) groups.
Proof.
  induction groups as [| g rest IH]; simpl; [reflexivity |].
  rewrite insert_group_perm. now constructor.
Qed.

Lemma find_day_unique d groups g :
  NoDup (map DayGroup._id groups) -> In g groups -> DayGroup._id g = d ->
  find (fun item => DayGroup._id item =? d) groups = Some g.
Proof.
  induction groups as [| h rest IH]; simpl; intros Hnd Hin Hid; [contradiction |].
  inversion Hnd as [| ? ? Hnotin Hrest]; subst.
  destruct (Z.eqb_spec (DayGroup._id h) (DayGroup._id g)) as [E | E].
  - destruct Hin as [-> | Hin]; [reflexivity |].
    elim Hnotin. rewrite E. now apply in_map.
  - destruct Hin as [-> | Hin]; [congruence | now apply IH].
Qed.

(** Sorting groups of distinct days does not change which group a day
    finds. *)
Lemma find_day_perm d groups groups' :
  NoDup (map DayGroup._id groups) -> Permutation groups groups' ->
  find (fun item => DayGroup._id item =? d) groups'
  = find (fun item => DayGroup._id item =? d) groups.
Proof.
  intros Hnd Hperm.
  assert (Hnd' : NoDup (map DayGroup._id groups'))
    by (eapply Permutation_NoDup; [apply Permutation_map; exact Hperm | exact Hnd]).
  destruct (find _ groups) as [g |] eqn:Ef.
  - apply find_some in Ef as [Hin Hid]. apply Z.eqb_eq in Hid.
    apply (find_day_unique d groups' g Hnd'); auto.
    now apply (Permutation_in _ Hperm).
  - destruct (find _ groups') as [g' |] eqn:Ef'; [| reflexivity].
    apply find_some in Ef' as [Hin Hid].
    pose proof (find_none _ _ Ef g') as Hno.
    rewrite Hno in Hid; [discriminate |].
    now apply (Permutation_in _ (Permutation_sym Hperm)).
Qed.

Lemma entry_of_date data d : DayEntry.date (entry_of data d) = d.
Proof. unfold entry_of. now destruct (find _ data). Qed.

Lemma filter_filter_day startDate endDate d os :
  filter (on_day d) (filter (in_range startDate endDate) os)
  = sales_on startDate endDate d os.
Proof.
  unfold sales_on, on_day. induction os as [| o os IH]; simpl; [reflexivity |].
  destruct (in_range startDate endDate o); simpl; [| exact IH].
  destruct (day_of (Sale.createdAt o) =? d); now rewrite IH.
Qed.

(** What the entry of a day holds, in terms of the orders sold on it. *)
Lemma entry_of_day sum os startDate endDate d :
  let sold := sales_on startDate endDate d os in
  entry_of (sort_by_day (group_by_day sum (filter (in_range startDate endDate) os))) d
  = DayEntry.mk d (Z.of_nat (List.length sold))
      match sold with
      | [] => 0%Q
      | _ :: _ =>
          let total := sum (map Sale.totalAmount sold) in
          if Qeq_bool total 0 then 0%Q else total
      end.
Proof.
  intros sold. set (matched := filter (in_range startDate endDate) os).
  destruct (buckets_of_wf matched) as [Hnd Hne].
  unfold entry_of.
  rewrite (find_day_perm d (group_by_day sum matched)).
  2: { unfold group_by_day. now rewrite group_of_ids. }
  2: { apply Permutation_sym, sort_by_day_perm. }
  unfold group_by_day. rewrite (find_group_of sum d (buckets_of matched)).
  pose proof (amounts_on_fold d matched []) as Hamounts.
  fold (buckets_of matched) in Hamounts. unfold matched in Hamounts at 2.
  rewrite filter_filter_day in Hamounts. fold sold in Hamounts.
  unfold amounts_on in Hamounts. cbn [find app] in Hamounts.
  destruct (find _ (buckets_of matched)) as [b |] eqn:Ef; cbn [option_map].
  - apply find_some in Ef as [Hin _].
    pose proof (proj1 (Forall_forall _ _) Hne b Hin) as Hb.
    unfold group_of. cbn [DayGroup.sales DayGroup.revenue]. rewrite Hamounts, length_map.
    cbv beta in Hb. rewrite Hamounts in Hb.
    destruct sold as [| o sold']; [now elim Hb |].
    unfold or_default, truthy_number, revenue_or_zero. cbn [List.length].
    destruct (Z.eqb_spec (Z.of_nat (S (List.length sold'))) 0); [lia |]. reflexivity.
  - symmetry in Hamounts. apply map_eq_nil in Hamounts. now rewrite Hamounts.
Qed.

(** [X20] One entry per day of the range, in order, and each entry counts
    the orders created on its day between the two dates: its sales are their
    number, and its revenue is 0 for a day without such orders and otherwise
    what the database's [$sum] makes of their amounts in document order, with
    0 in place of a sum that is zero. *)
Theorem getDailySalesData_entries sum os startDate endDate :
  exists entries,
    getDailySalesData sum None os startDate endDate = Returned entries
    /\ map DayEntry.date entries = getDatesInRange startDate endDate
    /\ forall e, In e entries ->
         let sold := sales_on startDate endDate (DayEntry.date e) os in
         DayEntry.sales e = Z.of_nat (List.length sold)
         /\ DayEntry.revenue e
            = match sold with
              | [] => 0%Q
              | _ :: _ =>
                  let total := sum (map Sale.totalAmount sold) in
                  if Qeq_bool total 0 then 0%Q else total
              end.
Proof.
  unfold getDailySalesData. cbv zeta. eexists. split; [reflexivity |].
  split.
  - rewrite map_map. rewrite <- (map_id (getDatesInRange startDate endDate)) at 2.
    apply map_ext. intros d. apply entry_of_date.
  - intros e He. apply in_map_iff in He as (d & <- & _).
    rewrite entry_of_date, (entry_of_day sum os startDate endDate d).
    split; reflexivity.
Qed.

(** [X21] Orders of the last day can go missing: when the end's time of
    day is earlier than the start's, an order created within the range on
    the day of the end is matched by the query but no entry carries its
    day. *)
Theorem last_day_sales_dropped sum os startDate endDate o entries :
  startDate <= endDate ->
  endDate mod day_ms < startDate mod day_ms ->
  In o os -> in_range startDate endDate o = true ->
  day_of (Sale.createdAt o) = day_of endDate ->
  getDailySalesData sum None os startDate endDate = Returned entries ->
  In o (filter (in_range startDate endDate) os)
  /\ ~ In (day_of (Sale.createdAt o)) (map DayEntry.date entries).
Proof.
  intros Hle Hmod Hin Hrange Hday Hrun.
  split; [apply filter_In; now split |].
  unfold getDailySalesData in Hrun. cbv zeta in Hrun. injection Hrun as <-.
  rewrite map_map, Hday. intros Hlast.
  apply in_map_iff in Hlast as (d & Hd & Hlast).
  rewrite entry_of_date in Hd. subst d.
  apply (last_day_in_range startDate endDate Hle) in Hlast. lia.
Qed.

Lemma last_day_sales_dropped_witness :
  let o := Sale.mk (day_ms + 3 * 3600000) (10 # 1) in
  exists entries,
    getDailySalesData exact_sum None [o] (12 * 3600000) (day_ms + 6 * 3600000) = Returned entries
    /\ ~ In (day_of (Sale.createdAt o)) (map DayEntry.date entries).
Proof.
  intros o. eexists. split; [reflexivity |].
  apply (last_day_sales_dropped exact_sum [o] (12 * 3600000) (day_ms + 6 * 3600000) o);
    try reflexivity; try discriminate.
  now left.
Defined.

(** * Beyond the specified properties: authentication *)

Ltac unfold_auth :=
  unfold signup, login, logout, refreshToken, getProfile, auth_try, User_findOne,
    User_create, comparePassword, storeRefreshToken, redis_set, redis_get, redis_del,
    verify, auth_attempt, auth_bind, auth_ret, auth_throw, generateTokens.

Lemma find_without_key key (p : RedisEntry.t -> bool) entries :
  find (fun e => String.eqb key (RedisEntry.key e) && p e) (without_key key entries) = None.
Proof.
  unfold without_key. induction entries as [| e rest IH]; simpl; [reflexivity |].
  destruct (String.eqb key (RedisEntry.key e)) eqn:E; simpl; [exact IH |].
  now rewrite E.
Qed.

Lemma stored_after_set now now' userId token seconds us entries :
  stored_refresh_token now' userId
    (mkAuthStore us (without_key (refresh_key userId) entries
                     ++ [RedisEntry.mk (refresh_key userId) token (now + seconds * 1000)]))
  = if now' <? now + seconds * 1000 then Some token else None.
Proof.
  unfold stored_refresh_token. cbn [redis].
  rewrite find_app_none by apply find_without_key.
  cbn [find RedisEntry.key RedisEntry.expires_at]. rewrite String.eqb_refl. cbn [andb].
  now destruct (now' <? now + seconds * 1000).
Qed.

Lemma stored_after_del now userId us entries :
  stored_refresh_token now userId (mkAuthStore us (without_key (refresh_key userId) entries))
  = None.
Proof.
  unfold stored_refresh_token. cbn [redis]. now rewrite find_without_key.
Qed.

(** The refresh endpoint for a token that verifies, in terms of what Redis
    holds for its user. *)
Lemma refreshToken_run env token userId s :
  token <> "" ->
  jwt_verify env token (REFRESH_TOKEN_SECRET env) = Returned userId ->
  auth_fails env redis_get_op = None ->
  refreshToken env (Some token) s
  = (match stored_refresh_token (auth_now env) userId s with
     | Some stored =>
         if String.eqb stored token
         then mkAuthResponse 200
                [access_cookie env (jwt_sign env userId (ACCESS_TOKEN_SECRET env) "15m")]
                (auth_message "Token refreshed successfully")
         else mkAuthResponse 401 [] (auth_message "Invalid refresh token")
     | None => mkAuthResponse 401 [] (auth_message "Invalid refresh token")
     end, s).
Proof.
  intros Hne Hverify Hget. unfold_auth. unfold stored_refresh_token.
  cbn [truthy_code code_or_empty]. unfold truthy_string.
  destruct (String.eqb_spec token ""); [contradiction |]. cbn [negb].
  rewrite Hverify, Hget.
  destruct (find _ (redis s)) as [e |]; cbn [option_map]; [| reflexivity].
  now destruct (String.eqb (RedisEntry.value e) token).
Qed.

(** [X22] Signing up: an email that is already registered is answered 400
    and nothing changes.  Otherwise the user is created first and the
    refresh token stored second: when both succeed the answer is 201 with
    both cookies and Redis holds the refresh token under the new user's key;
    when storing the token is rejected the answer is a 500 without cookies,
    yet the user exists, and signing up again with that email is answered
    "User already exists". *)
Theorem signup_outcomes env email password name s :
  let user := User.mk (new_user_id env) name email (hash_password env password)
                      (default_role env) in
  let tokens := generateTokens env (new_user_id env) in
  auth_fails env User_findOne_op = None ->
  ((exists u, In u (users s) /\ User.email u = email) ->
   signup env email password name s
   = (mkAuthResponse 400 [] (auth_message "User already exists"), s))
  /\ ((forall u, In u (users s) -> User.email u <> email) ->
      auth_fails env User_create_op = None ->
      let s' := snd (signup env email password name s) in
      users s' = (users s ++ [user])%list
      /\ (auth_fails env redis_set_op = None ->
          fst (signup env email password name s)
          = mkAuthResponse 201 (setCookies env (fst tokens) (snd tokens)) (user_body user)
          /\ stored_refresh_token (auth_now env) (new_user_id env) s' = Some (snd tokens))
      /\ (forall m, auth_fails env redis_set_op = Some m ->
            fst (signup env email password name s)
            = mkAuthResponse 500 [] (auth_message m)
            /\ redis s' = redis s
            /\ forall env' password' name',
                 auth_fails env' User_findOne_op = None ->
                 signup env' email password' name' s'
                 = (mkAuthResponse 400 [] (auth_message "User already exists"), s'))).
Proof.
  intros user tokens Hfind. split.
  - intros (u & Hin & Hemail). unfold_auth. rewrite Hfind.
    destruct (find _ (users s)) as [u' |] eqn:Ef; [reflexivity |].
    pose proof (find_none _ _ Ef u Hin) as Hno. cbn in Hno.
    rewrite Hemail, String.eqb_refl in Hno. discriminate.
  - intros Hfresh Hcreate s'. subst s'.
    assert (Hnone : find (fun u => String.eqb email (User.email u)) (users s) = None).
    { destruct (find _ (users s)) as [u |] eqn:Ef; [| reflexivity].
      apply find_some in Ef as [Hin He]. apply String.eqb_eq in He.
      now elim (Hfresh u Hin). }
    unfold_auth. rewrite Hfind, Hnone, Hcreate. cbn [User._id].
    destruct (auth_fails env redis_set_op) as [m |] eqn:Hset; cbn [fst snd users redis].
    + split; [reflexivity |]. split; [discriminate |].
      intros m' [= <-]. repeat split.
      intros env' password' name' Hfind'. rewrite Hfind'. cbn [users].
      rewrite find_app_none by exact Hnone.
      cbn [find User.email]. now rewrite String.eqb_refl.
    + split; [reflexivity |]. split; [| discriminate].
      intros _. split; [reflexivity |].
      rewrite stored_after_set. now rewrite (proj2 (Z.ltb_lt _ _)) by lia.
Qed.

Lemma signup_outcomes_witness :
  let env := auth_env_at 1000 (fun op => match op with
                                         | redis_set_op => Some "redis down"
                                         | _ => None
                                         end) in
  fst (signup env "bob@example.com" "pw" "Bob" ann_store)
  = mkAuthResponse 500 [] (auth_message "redis down")
  /\ fst (signup auth_env_ok "bob@example.com" "pw" "Bob"
            (snd (signup env "bob@example.com" "pw" "Bob" ann_store)))
     = mkAuthResponse 400 [] (auth_message "User already exists").
Proof.
  intros env.
  destruct (proj2 (signup_outcomes env "bob@example.com" "pw" "Bob" ann_store eq_refl))
    as (_ & _ & H).
  - intros u [<- | []]. discriminate.
  - reflexivity.
  - destruct (H "redis down" eq_refl) as (Hr & _ & Hagain).
    split; [exact Hr |]. now rewrite (Hagain auth_env_ok "pw" "Bob" eq_refl).
Defined.

(** [X23] A failed login tells nothing: an unknown email and a wrong
    password get the same 400 "Invalid email or password", without cookies,
    and the store is left as it was. *)
Theorem login_failure_uniform env email password s :
  auth_fails env User_findOne_op = None ->
  auth_fails env comparePassword_op = None ->
  (forall u, find (fun u => String.eqb email (User.email u)) (users s) = Some u ->
             password_matches env u password = false) ->
  login env email password s = (invalid_credentials, s).
Proof.
  intros Hfind Hcompare Hwrong. unfold_auth. rewrite Hfind.
  destruct (find _ (users s)) as [u |] eqn:Ef; [| reflexivity].
  rewrite Hcompare. now rewrite (Hwrong u eq_refl).
Qed.

Lemma login_failure_uniform_witness :
  login auth_env_ok "ann@example.com" "wrong" ann_store
  = login auth_env_ok "nobody@example.com" "pw" ann_store.
Proof.
  rewrite (login_failure_uniform auth_env_ok "ann@example.com" "wrong" ann_store
             eq_refl eq_refl).
  - rewrite (login_failure_uniform auth_env_ok "nobody@example.com" "pw" ann_store
               eq_refl eq_refl); [reflexivity |].
    intros u. discriminate.
  - intros u [= <-]. reflexivity.
Defined.

Lemma login_success env email password s u :
  find (fun u => String.eqb email (User.email u)) (users s) = Some u ->
  password_matches env u password = true ->
  no_auth_failure env ->
  login env email password s
  = (mkAuthResponse 200
       (setCookies env (fst (generateTokens env (User._id u)))
                   (snd (generateTokens env (User._id u))))
       (user_body u),
     mkAuthStore (users s)
       (without_key (refresh_key (User._id u)) (redis s)
        ++ [RedisEntry.mk (refresh_key (User._id u))
                          (snd (generateTokens env (User._id u)))
                          (auth_now env + 7 * 24 * 60 * 60 * 1000)])).
Proof.
  intros Hu Hpw Hok. unfold_auth. rewrite !Hok, Hu, Hpw. reflexivity.
Qed.

(** The refresh endpoint for a token that does not verify. *)
Lemma refreshToken_rejected env token m s :
  token <> "" ->
  jwt_verify env token (REFRESH_TOKEN_SECRET env) = Thrown m ->
  refreshToken env (Some token) s
  = (mkAuthResponse 500 [] (auth_failure "Server error" m), s).
Proof.
  intros Hne Hverify. unfold_auth.
  cbn [truthy_code code_or_empty]. unfold truthy_string.
  destruct (String.eqb_spec token ""); [contradiction |]. cbn [negb].
  now rewrite Hverify.
Qed.

(** [X24] After a successful login, which sets the refresh cookie to the
    token it issued, the refresh endpoint answers a non-empty token by what
    the verification makes of it.  A token that verifies for the user gets
    200 with a new access cookie if it is the issued token and less than
    seven days have passed since the login, and 401 "Invalid refresh token"
    otherwise, an earlier login's token included; a token whose verification
    throws, as it does for an expired token, gets 500 "Server error" with
    the verifier's message, and no cookie.  The store is left as the login
    left it. *)
Theorem login_then_refresh env env' email password s u token :
  let issued := jwt_sign env (User._id u) (REFRESH_TOKEN_SECRET env) "7d" in
  let s1 := snd (login env email password s) in
  find (fun u => String.eqb email (User.email u)) (users s) = Some u ->
  password_matches env u password = true ->
  no_auth_failure env ->
  token <> "" ->
  auth_fails env' redis_get_op = None ->
  In (SetCookie "refreshToken" issued true (String.eqb (NODE_ENV env) "production")
                "strict" 604800000)
     (auth_cookies (fst (login env email password s)))
  /\ (jwt_verify env' token (REFRESH_TOKEN_SECRET env') = Returned (User._id u) ->
      refreshToken env' (Some token) s1
      = (if (auth_now env' <? auth_now env + 604800000) && String.eqb issued token
         then mkAuthResponse 200
                [SetCookie "accessToken"
                           (jwt_sign env' (User._id u) (ACCESS_TOKEN_SECRET env') "15m")
                           true (String.eqb (NODE_ENV env') "production") "strict" 900000]
                (auth_message "Token refreshed successfully")
         else mkAuthResponse 401 [] (auth_message "Invalid refresh token"), s1))
  /\ (forall m,
         jwt_verify env' token (REFRESH_TOKEN_SECRET env') = Thrown m ->
         refreshToken env' (Some token) s1
         = (mkAuthResponse 500 [] (auth_failure "Server error" m), s1)).
Proof.
  intros issued s1 Hu Hpw Hok Hne Hget. subst s1 issued.
  rewrite (login_success env email password s u Hu Hpw Hok). cbn [fst snd auth_cookies].
  split; [right; left; reflexivity |]. split.
  - intros Hverify.
    rewrite (refreshToken_run env' token (User._id u) _ Hne Hverify Hget).
    change (7 * 24 * 60 * 60 * 1000) with (604800 * 1000).
    rewrite stored_after_set. change (604800 * 1000) with 604800000.
    destruct (auth_now env' <? auth_now env + 604800000); reflexivity.
  - intros m Hverify. now apply refreshToken_rejected.
Qed.

Lemma login_then_refresh_witness :
  fst (refreshToken (auth_env_at 5000 (fun _ => None)) (Some "u1.refresh-secret.7d")
         (snd (login auth_env_ok "ann@example.com" "pw" ann_store)))
  = mkAuthResponse 200
      [SetCookie "accessToken" "u1.access-secret.15m" true true "strict" 900000]
      (auth_message "Token refreshed successfully")
  /\ fst (refreshToken auth_env_late (Some "u1.refresh-secret.7d")
            (snd (login auth_env_ok "ann@example.com" "pw" ann_store)))
     = mkAuthResponse 500 [] (auth_failure "Server error" "jwt expired").
Proof.
  split.
  - rewrite (proj1 (proj2 (login_then_refresh auth_env_ok (auth_env_at 5000 (fun _ => None))
                             "ann@example.com" "pw" ann_store ann "u1.refresh-secret.7d"
                             eq_refl eq_refl (fun _ => eq_refl) ltac:(discriminate)
                             eq_refl))
               eq_refl).
    reflexivity.
  - rewrite (proj2 (proj2 (login_then_refresh auth_env_ok auth_env_late
                             "ann@example.com" "pw" ann_store ann "u1.refresh-secret.7d"
                             eq_refl eq_refl (fun _ => eq_refl) ltac:(discriminate)
                             eq_refl))
               "jwt expired" eq_refl).
    reflexivity.
Defined.

(** [X25] Logging out revokes the refresh token: when the cookie's token
    verifies and Redis answers, logout deletes the user's key, clears both
    cookies and leaves the users alone; from then on the refresh endpoint
    answers 401 "Invalid refresh token" to every token of that user. *)
Theorem logout_then_refresh env env' s token token' userId :
  let s1 := snd (logout env (Some token) s) in
  token <> "" ->
  jwt_verify env token (REFRESH_TOKEN_SECRET env) = Returned userId ->
  auth_fails env redis_del_op = None ->
  token' <> "" ->
  jwt_verify env' token' (REFRESH_TOKEN_SECRET env') = Returned userId ->
  auth_fails env' redis_get_op = None ->
  fst (logout env (Some token) s)
  = mkAuthResponse 200 [ClearCookie "accessToken"; ClearCookie "refreshToken"]
                   (auth_message "Logged out successfully")
  /\ users s1 = users s
  /\ redis s1 = without_key (refresh_key userId) (redis s)
  /\ refreshToken env' (Some token') s1
     = (mkAuthResponse 401 [] (auth_message "Invalid refresh token"), s1).
Proof.
  intros s1 Hne Hverify Hdel Hne' Hverify' Hget. subst s1.
  assert (Hrun : logout env (Some token) s
                 = (mkAuthResponse 200 [ClearCookie "accessToken"; ClearCookie "refreshToken"]
                                   (auth_message "Logged out successfully"),
                    mkAuthStore (users s) (without_key (refresh_key userId) (redis s)))).
  { unfold_auth. cbn [truthy_code code_or_empty]. unfold truthy_string.
    destruct (String.eqb_spec token ""); [contradiction |]. cbn [negb].
    now rewrite Hverify, Hdel. }
  rewrite Hrun. cbn [fst snd users redis]. repeat split.
  rewrite (refreshToken_run env' token' userId _ Hne' Hverify' Hget).
  now rewrite stored_after_del.
Qed.

Lemma logout_then_refresh_witness :
  let s1 := snd (login auth_env_ok "ann@example.com" "pw" ann_store) in
  fst (refreshToken auth_env_ok (Some "u1.refresh-secret.7d")
         (snd (logout auth_env_ok (Some "u1.refresh-secret.7d") s1)))
  = mkAuthResponse 401 [] (auth_message "Invalid refresh token").
Proof.
  intros s1.
  pose proof (logout_then_refresh auth_env_ok auth_env_ok s1 "u1.refresh-secret.7d"
                "u1.refresh-secret.7d" "u1" ltac:(discriminate) eq_refl eq_refl
                ltac:(discriminate) eq_refl eq_refl) as (_ & _ & _ & H).
  now rewrite H.
Defined.

(** [X26] Logout at its edges: without a refresh cookie it clears both
    cookies, answers 200 and touches nothing; with a cookie whose token does
    not verify (expired, forged) it answers 500, clears no cookie and deletes
    nothing. *)
Theorem logout_edges env s :
  logout env None s
  = (mkAuthResponse 200 [ClearCookie "accessToken"; ClearCookie "refreshToken"]
                    (auth_message "Logged out successfully"), s)
  /\ logout env (Some "") s = logout env None s
  /\ forall token m,
       token <> "" ->
       jwt_verify env token (REFRESH_TOKEN_SECRET env) = Thrown m ->
       logout env (Some token) s
       = (mkAuthResponse 500 [] (auth_failure "Server error" m), s).
Proof.
  repeat split.
  intros token m Hne Hverify. unfold_auth. cbn [truthy_code code_or_empty].
  unfold truthy_string. destruct (String.eqb_spec token ""); [contradiction |].
  cbn [negb]. now rewrite Hverify.
Qed.

Lemma logout_edges_witness :
  logout auth_env_ok (Some "forged") ann_store
  = (mkAuthResponse 500 [] (auth_failure "Server error" "invalid signature"), ann_store).
Proof.
  apply (proj2 (proj2 (logout_edges auth_env_ok ann_store))); [discriminate | reflexivity].
Defined.

(** [X27] Cookies: whatever the request and whatever is rejected, a
    response sets cookies only when its status is 200 or 201, and every
    cookie it sets is httpOnly with sameSite "strict", secure exactly in
    production, and lives 15 minutes if it is the access token and 7 days if
    it is the refresh token. *)
Theorem cookies_well_formed env r s :
  let response := fst (handle_auth env r s) in
  (forall c, In c (auth_cookies response) -> well_formed_cookie env c)
  /\ (auth_cookies response <> [] ->
      auth_status response = 200 \/ auth_status response = 201).
Proof.
  destruct r as [email password name | email password | cookie | cookie | user];
    cbn [handle_auth]; unfold_auth.
  - destruct (auth_fails env User_findOne_op); cbn; [intuition |].
    destruct (find _ (users s)); cbn; [intuition |].
    destruct (auth_fails env User_create_op); cbn; [intuition |].
    destruct (auth_fails env redis_set_op); cbn; [intuition |].
    split; [| auto]. intros c [<- | [<- | []]]; cbn; unfold in_production; intuition.
  - destruct (auth_fails env User_findOne_op); cbn; [intuition |].
    destruct (find _ (users s)); cbn; [| intuition].
    destruct (auth_fails env comparePassword_op); cbn; [intuition |].
    destruct (password_matches env _ password); cbn; [| intuition].
    destruct (auth_fails env redis_set_op); cbn; [intuition |].
    split; [| auto]. intros c [<- | [<- | []]]; cbn; unfold in_production; intuition.
  - destruct (truthy_code cookie); cbn.
    + destruct (jwt_verify env _ _); cbn; [| intuition].
      destruct (auth_fails env redis_del_op); cbn; [intuition |].
      split; [| auto]. intros c [<- | [<- | []]]; cbn; auto.
    + split; [| auto]. intros c [<- | [<- | []]]; cbn; auto.
  - destruct (truthy_code cookie); cbn; [| intuition].
    destruct (jwt_verify env _ _); cbn; [| intuition].
    destruct (auth_fails env redis_get_op); cbn; [intuition |].
    destruct (find _ (redis s)) as [e |]; cbn; [| intuition].
    destruct (String.eqb (RedisEntry.value e) _); cbn; [| intuition].
    split; [| auto]. intros c [<- | []]. cbn. unfold in_production. intuition.
  - cbn. intuition.
Qed.

Lemma cookies_well_formed_witness :
  well_formed_cookie auth_env_ok
    (SetCookie "refreshToken" "u1.refresh-secret.7d" true true "strict" 604800000).
Proof.
  apply (proj1 (cookies_well_formed auth_env_ok (POST_login "ann@example.com" "pw")
                  ann_store)).
  right. left. reflexivity.
Defined.

(** * The total, the orders of a session, the settlement and the gift *)

(** ** The total of a checkout *)










(** ** One Order for a session identifier *)


Lemma orders_of_session_app sessionId l o gw cs :
  orders_of_session sessionId (mkStore cs (l ++ [o]) gw)
  = (orders_of_session sessionId (mkStore cs l gw)
     ++ if String.eqb sessionId (Order.stripeSessionId o) then [o] else [])%list.
Proof. unfold orders_of_session. cbn [orders]. now rewrite filter_app. Qed.






(** ** The settlement of a paid session *)

Lemma find_settlement_filter md l :
  find (matches (settlement_filter md)) l
  = first_with_code_and_user (Metadata.couponCode md) (Metadata.userId md) l.
Proof.
  unfold first_with_code_and_user. induction l as [| c l IH]; simpl; [reflexivity |].
  rewrite IH. unfold matches, settlement_filter. cbn [by_code by_userId by_isActive field_ok].
  now rewrite andb_true_r.
Qed.

(** An update of the first match rewrites that one document where it
    stands. *)
Lemma update_first_split f upd l c :
  find (matches f) l = Some c ->
  exists before after,
    l = (before ++ c :: after)%list
    /\ find (matches f) before = None
    /\ update_first f upd l = (before ++ upd c :: after)%list.
Proof.
  induction l as [| x l IH]; simpl; [discriminate |].
  destruct (matches f x) eqn:E.
  - intros [= <-]. exists [], l. repeat split.
  - intros H. destruct (IH H) as (before & after & Hl & Hb & Hu).
    exists (x :: before), after. simpl. rewrite E, Hb, Hu, <- Hl. repeat split.
Qed.

(** [C4] When the gateway reports the session as paid, its cart snapshot
    parses and no call rejects, [checkoutSuccess] answers success with the
    identifier of the Order it appends, the only one: that Order holds the
    metadata's user, for every entry of the snapshot, in its order, an item
    with the entry's product id, quantity and price, amount_total / 100 and
    the session identifier.  If the metadata's coupon code is not empty, the
    first coupon with that code and the metadata's user id, active or not,
    stays where it is with its active flag cleared and its other fields
    kept; all other coupons are untouched, and so is the whole collection
    when the code is empty or no coupon matches. *)
Theorem settlement_of_paid_session env sessionId s items :
  let session := retrieve env sessionId in
  let md := Session.metadata session in
  fails env sessions_retrieve_op = None ->
  Session.payment_status session = "paid" ->
  JSON_parse (Metadata.products md) = Some items ->
  (Metadata.couponCode md <> "" -> fails env Coupon_findOneAndUpdate_op = None) ->
  fails env Order_save_op = None ->
  let s' := snd (checkoutSuccess env sessionId s) in
  let order :=
    Order.mk (new_object_id env) (Metadata.userId md)
             (map (fun p => OrderItem.mk (Snapshot.id p) (Snapshot.quantity p)
                                         (Snapshot.price p)) items)
             (inject_Z (Session.amount_total session) / inject_Z 100)%Q
             sessionId in
  fst (checkoutSuccess env sessionId s)
  = Some (mkResponse 200
            (body_settled true
               "Payment successful, order created, and coupon deactivated if used."
               (new_object_id env)))
  /\ orders s' = (orders s ++ [order])%list
  /\ gateway s' = gateway s
  /\ List.length (coupons s') = List.length (coupons s)
  /\ match (if String.eqb (Metadata.couponCode md) "" then None
            else first_with_code_and_user (Metadata.couponCode md) (Metadata.userId md)
                                          (coupons s)) with
     | None => coupons s' = coupons s
     | Some c =>
         exists before after,
           coupons s = (before ++ c :: after)%list
           /\ first_with_code_and_user (Metadata.couponCode md) (Metadata.userId md) before
              = None
           /\ coupons s'
              = (before
                 ++ Coupon.mk (Coupon.code c) (Coupon.discountPercentage c)
                              (Coupon.expirationDate c) false (Coupon.userId c)
                 :: after)%list
     end.
Proof.
  intros session md Hret Hpaid Hparse Hupd Hsave s' order. subst s' order.
  rewrite checkoutSuccess_run, Hret. fold session. cbv zeta. fold md.
  rewrite Hpaid. cbn [String.eqb Ascii.eqb Bool.eqb].
  assert (Hstep : (if truthy_string (Metadata.couponCode md)
                   then fails env Coupon_findOneAndUpdate_op else None) = None).
  { unfold truthy_string. destruct (String.eqb_spec (Metadata.couponCode md) "");
      cbn [negb]; [reflexivity | now apply Hupd]. }
  rewrite Hstep, Hparse, Hsave. cbn [fst snd add_order coupons orders gateway].
  assert (Hc : coupons (settle_coupon md s)
               = if String.eqb (Metadata.couponCode md) "" then coupons s
                 else update_first (settlement_filter md) Coupon.deactivate (coupons s)).
  { unfold settle_coupon, truthy_string.
    destruct (String.eqb (Metadata.couponCode md) ""); reflexivity. }
  assert (Ho : orders (settle_coupon md s) = orders s
               /\ gateway (settle_coupon md s) = gateway s).
  { unfold settle_coupon. destruct (truthy_string _); split; reflexivity. }
  destruct Ho as [Ho Hg]. rewrite Ho, Hg, Hc.
  split; [reflexivity |]. split; [reflexivity |]. split; [reflexivity |]. split.
  - destruct (String.eqb _ ""); [reflexivity | apply update_first_length].
  - destruct (String.eqb _ ""); [reflexivity |].
    rewrite <- find_settlement_filter.
    destruct (find (matches (settlement_filter md)) (coupons s)) as [c |] eqn:Ef.
    + destruct (update_first_split _ Coupon.deactivate _ _ Ef)
        as (before & after & Hl & Hb & Hu).
      exists before, after. rewrite <- find_settlement_filter. auto.
    + now apply update_first_no_match.
Qed.

Lemma settlement_of_paid_session_witness :
  Session.payment_status (retrieve env_ok "cs_1") = "paid"
  /\ JSON_parse (Metadata.products (Session.metadata (retrieve env_ok "cs_1")))
     = Some [Snapshot.mk "p1" 2 (1999 # 100); Snapshot.mk "p2" 1 (5 # 1)]
  /\ fst (checkoutSuccess env_ok "cs_1" (store_expiring 5000))
     = Some (mkResponse 200
               (body_settled true
                  "Payment successful, order created, and coupon deactivated if used." 7))
  /\ orders (snd (checkoutSuccess env_ok "cs_1" (store_expiring 5000)))
     = [Order.mk 7 "u1" [OrderItem.mk "p1" 2 (1999 # 100); OrderItem.mk "p2" 1 (5 # 1)]
                 (4048 # 100) "cs_1"]
  /\ coupons (snd (checkoutSuccess env_ok "cs_1" (store_expiring 5000)))
     = [Coupon.mk "SAVE10" (10 # 1) 5000 false "u1"].
Proof.
  pose proof (settlement_of_paid_session env_ok "cs_1" (store_expiring 5000)
                [Snapshot.mk "p1" 2 (1999 # 100); Snapshot.mk "p2" 1 (5 # 1)]
                eq_refl eq_refl eq_refl (fun _ => eq_refl) eq_refl)
    as (Hr & Ho & _ & _ & Hc).
  split; [reflexivity |]. split; [reflexivity |].
  split; [exact Hr |]. split; [exact Ho |].
  destruct Hc as (before & after & Hl & Hb & Hc).
  destruct before as [| b before]; cbn in Hl.
  - injection Hl as <-. exact Hc.
  - exfalso. injection Hl as _ Hl. destruct before; discriminate.
Defined.

(** ** One active coupon for a user *)

Lemma one_row_one_active s : one_row_per_user s -> one_active_per_user s.
Proof.
  intros Hinv user. pose proof (active_rows_le_rows user (coupons s)).
  specialize (Hinv user). lia.
Qed.

Lemma issue_all_invariant user envs : forall s,
  one_row_per_user s -> one_row_per_user (issue_all user envs s).
Proof.
  unfold issue_all. induction envs as [| env envs IH]; intros s Hinv; [exact Hinv |].
  cbn [fold_left]. apply IH. now apply createNewCoupon_invariant.
Qed.

Lemma gift_coupon_fields env user :
  gift_coupon env user
  = Coupon.mk ("GIFT" ++ random_suffix env) (10 # 1) (now env + 2592000000) true user.
Proof. reflexivity. Qed.

(** [C6] as the code has it: in a store where every user has at most one
    coupon row, every user has at most one active coupon; every request to
    the endpoints and every call of [createNewCoupon], returning or not,
    leads to such a store again, so this holds after any sequence of them;
    and when, after any sequence of gift-issuance calls for a user, one more
    call returns, the coupon it returns is the user's only row, with its
    active flag set. *)
Theorem one_active_coupon_per_user s :
  one_row_per_user s ->
  one_active_per_user s
  /\ (forall s', reachable_from s s' -> one_row_per_user s' /\ one_active_per_user s')
  /\ (forall user envs,
         one_row_per_user (issue_all user envs s)
         /\ one_active_per_user (issue_all user envs s))
  /\ (forall user envs env c s',
         createNewCoupon env user (issue_all user envs s) = (Returned c, s') ->
         rows_of user (coupons s') = [c]
         /\ active_rows_of user (coupons s') = [c]
         /\ Coupon.isActive c = true
         /\ Coupon.userId c = user
         /\ one_row_per_user s').
Proof.
  intros Hinv. split; [now apply one_row_one_active |].
  split.
  { intros s' Hreach. pose proof (reachable_one_row_per_user s s' Hinv Hreach) as H.
    split; [exact H | now apply one_row_one_active]. }
  split.
  - intros user envs. pose proof (issue_all_invariant user envs s Hinv) as H.
    split; [exact H | now apply one_row_one_active].
  - intros user envs env c s' Hrun.
    pose proof (issue_all_invariant user envs s Hinv) as H.
    destruct (createNewCoupon_returned _ _ _ _ _ Hrun) as [-> ->].
    destruct (rows_after_gift env user _ H) as (Hrows & Hactive & _).
    split; [exact Hrows |]. split; [exact Hactive |].
    split; [reflexivity |]. split; [reflexivity |].
    now apply gift_preserves_invariant.
Qed.

Lemma one_active_coupon_per_user_witness :
  one_row_per_user (store_expiring 5000)
  /\ active_rows_of "u1"
       (coupons (snd (createNewCoupon env_ok "u1"
                        (issue_all "u1" [env_ok; env_save_fails] (store_expiring 5000)))))
     = [Coupon.mk "GIFTABC123" (10 # 1) 2592001000 true "u1"].
Proof.
  split; [exact (store_expiring_one_row 5000) |].
  exact (proj1 (proj2
           (proj2 (proj2 (proj2 (one_active_coupon_per_user (store_expiring 5000)
                                   (store_expiring_one_row 5000))))
              "u1" [env_ok; env_save_fails] env_ok
              (Coupon.mk "GIFTABC123" (10 # 1) 2592001000 true "u1")
              (mkStore [Coupon.mk "GIFTABC123" (10 # 1) 2592001000 true "u1"] [] [])
              eq_refl))).
Defined.

(** On a store seeded with an inactive and an active row of one user, which
    has one active coupon per user, a gift issuance that returns deletes the
    first row only and leaves two active coupons of the user; and after a
    gift issuance whose save was rejected the user has no active coupon at
    all. *)
Lemma one_active_coupon_counterexample :
  one_active_per_user seeded_store
  /\ createNewCoupon env_ok "u1" seeded_store
     = (Returned (Coupon.mk "GIFTABC123" (10 # 1) 2592001000 true "u1"),
        mkStore [Coupon.mk "SAVE10" (10 # 1) 5000 true "u1";
                 Coupon.mk "GIFTABC123" (10 # 1) 2592001000 true "u1"] [] [])
  /\ ~ one_active_per_user (snd (createNewCoupon env_ok "u1" seeded_store))
  /\ createNewCoupon env_save_fails "u1" (store_expiring 5000)
     = (Thrown "save rejected", mkStore [] [] [])
  /\ active_rows_of "u1" (coupons (snd (createNewCoupon env_save_fails "u1"
                                          (store_expiring 5000)))) = [].
Proof.
  split.
  { intros user. cbn. destruct (String.eqb user "u1"); cbn; lia. }
  split; [reflexivity |]. split; [| split; reflexivity].
  intros H. specialize (H "u1"). cbn in H. lia.
Qed.

(** ** The gift at the threshold *)






